(** * Hacash core: diamond actions, system lending and block application

    A shallow embedding of the consensus code of [hacashcom/core]:
    - [actions/diamond.go]: actions 4, 5 and 6 (diamond create and transfer);
    - the system-lending actions 15 and 16 (create and ransom);
    - [blocks/version1.go]: the version-1 block, its cached hash and
      [WriteInChainState].

    Go values are embedded as follows.  A [[]byte] is a [list byte]; a
    fixed-width unsigned integer is a [Z] whose wrap-around is written out
    with [Z.modulo]; an [error] is a format string with its arguments and
    [nil] is [None]; a method with a pointer receiver that mutates the chain
    state runs in the monad [M], which threads the state and stops at the
    first [return] or [panic]. *)

From Stdlib Require Import ZArith String Ascii List Lia Bool.
From Stdlib Require Import Strings.Byte Numbers.DecimalString.
From Stdlib Require Import Floats.PrimFloat Numbers.Cyclic.Int63.Uint63.
From stdpp Require Import gmap strings list fin_maps.

Open Scope Z_scope.

(** ** Bytes *)

Abbreviation Bytes := (list byte).

#[global] Instance byte_eq_decision : EqDecision byte := Byte.byte_eq_dec.

#[global] Instance byte_countable : Countable byte :=
  inj_countable Byte.to_N Byte.of_N Byte.of_to_N.

Definition byte_of_Z (z : Z) : byte :=
  match Byte.of_N (Z.to_N (z mod 256)) with
  | Some b => b
  | None => "000"%byte
  end.

Definition Z_of_byte (b : byte) : Z := Z.of_N (Byte.to_N b).

(** [bytes.Compare(a, b) == 0], [bytes.Equal] and the [Equal] methods of the
    byte-slice field types. *)
Definition bytes_Equal (a b : Bytes) : bool := bool_decide (a = b).

(** Go's [string(b)] for a byte slice. *)
Definition string_of_Bytes (b : Bytes) : string := string_of_list_byte b.

Definition Bytes_of_string (s : string) : Bytes := list_byte_of_string s.

(** [n] bytes, big-endian, of an unsigned integer (the low [8n] bits). *)
Fixpoint big_endian (n : nat) (z : Z) : Bytes :=
  match n with
  | O => []
  | S k => byte_of_Z (Z.shiftr z (8 * Z.of_nat k)) :: big_endian k z
  end.

Fixpoint of_big_endian_acc (acc : Z) (b : Bytes) : Z :=
  match b with
  | [] => acc
  | x :: r => of_big_endian_acc (acc * 256 + Z_of_byte x) r
  end.

Definition of_big_endian (b : Bytes) : Z := of_big_endian_acc 0 b.

(** [hex.EncodeToString]. *)
Definition hex_digit (z : Z) : ascii :=
  if z <? 10 then ascii_of_N (Z.to_N (48 + z)) else ascii_of_N (Z.to_N (87 + z)).

Fixpoint hex_EncodeToString (b : Bytes) : string :=
  match b with
  | [] => EmptyString
  | x :: r =>
      String (hex_digit (Z_of_byte x / 16))
        (String (hex_digit (Z_of_byte x mod 16)) (hex_EncodeToString r))
  end.

(** ** Fixed-width integers *)

Definition wrap (bits : Z) (z : Z) : Z := z mod 2 ^ bits.

Definition uint8 := wrap 8.
Definition uint32 := wrap 32.
Definition uint64 := wrap 64.

(** Conversion to [int64]: two's complement. *)
Definition int64 (z : Z) : Z := (z + 2 ^ 63) mod 2 ^ 64 - 2 ^ 63.

(** Modelled from the spec: the declarations of the [fields] package are not
    part of the sources at hand; the spec gives [VarUintN] as an [N]-byte
    unsigned integer and [VarIntN] as the same width, so a conversion to
    either keeps the low [8N] bits.  The values of these types that the
    theorems below speak of are taken non-negative. *)
Definition VarUint (n : Z) (z : Z) : Z := wrap (8 * n) z.

(** ** Errors: [fmt.Errorf] *)

Inductive fmt_arg : Type :=
| ArgStr (s : string)
| ArgBytes (b : Bytes)
| ArgInt (z : Z).

Definition string_of_Z (z : Z) : string := NilZero.string_of_int (Z.to_int z).

Fixpoint join_space (l : list string) : string :=
  match l with
  | [] => EmptyString
  | [x] => x
  | x :: r => x ++ " " ++ join_space r
  end.

(** One verb against one operand.  [%s] prints a string or a byte slice as
    it is; [%d] prints an integer in base ten and a byte slice as the list
    of its elements; a verb that does not fit the operand prints Go's
    [%!verb(type=value)] form. *)
Definition render_verb (verb : ascii) (a : option fmt_arg) : string :=
  match a with
  | None => "%!" ++ String verb "(MISSING)"
  | Some (ArgStr s) =>
      if Ascii.eqb verb "s" then s
      else "%!" ++ String verb ("(string=" ++ s ++ ")")
  | Some (ArgBytes b) =>
      if Ascii.eqb verb "s" then string_of_Bytes b
      else "[" ++ join_space (map (fun x => string_of_Z (Z_of_byte x)) b) ++ "]"
  | Some (ArgInt z) =>
      if Ascii.eqb verb "d" then string_of_Z z
      else "%!" ++ String verb ("(int=" ++ string_of_Z z ++ ")")
  end.

(** [fmt.Sprintf] for the verbs the code uses, [%s] and [%d]. *)
Fixpoint Sprintf (format : string) (args : list fmt_arg) : string :=
  match format with
  | EmptyString => EmptyString
  | String c rest =>
      if Ascii.eqb c "%" then
        match rest with
        | EmptyString => "%!(NOVERB)"
        | String v rest' =>
            render_verb v (head args) ++ Sprintf rest' (tail args)
        end
      else String c (Sprintf rest args)
  end.

Record error : Type := Errorf { err_format : string; err_args : list fmt_arg }.

(** The [Error()] method of the value [fmt.Errorf] builds. *)
Definition Error (e : error) : string := Sprintf (err_format e) (err_args e).

(** A Go [error] value; [nil] is [None]. *)
Abbreviation goerror := (option error).

Definition strings_HasPrefix (s p : string) : bool := String.prefix p s.

(** ** What the code takes from other packages

    The [fields] amount arithmetic, the address printer, the diamond status
    constants of [stores] and the [x16rs] oracle are used by the code below
    and declared elsewhere: they are parameters of the development.  The
    instance [reference_externals] further down is one concrete choice, used
    to run the code on explicit inputs. *)

Class Externals : Type := {
  Amount : Type;
  NewEmptyAmount : Amount;
  NewAmountByUnit248 : Z -> Amount;
  NewAmountByBigIntWithUnit : Z -> Z -> Amount + error;
  Amount_Equal : Amount -> Amount -> bool;
  Amount_LessThan : Amount -> Amount -> bool;
  Amount_Add : Amount -> Amount -> Amount + error;
  Amount_Sub : Amount -> Amount -> Amount + error;
  Amount_ToMei : Amount -> float;
  Amount_ToFinString : Amount -> string;
  Address_ToReadable : Bytes -> string;
  DiamondStatusNormal : Z;
  DiamondStatusLendingSystem : Z;
  (* x16rs.Diamond(number, prevhash, nonce, address): digest and literal *)
  x16rs_Diamond : Z -> Bytes -> Bytes -> Bytes -> Bytes * string;
  x16rs_IsDiamondHashResultString : string -> string * bool;
  x16rs_CheckDiamondDifficulty : Z -> Bytes -> bool;
}.

(** [interfaces.Transaction], as far as an action uses the transaction it
    belongs to. *)
Record Transaction : Type := { GetAddress : Bytes }.

(** ** Stores *)

(** [stores.Diamond]. *)
Record Diamond : Type := {
  Status : Z;
  Address : Bytes;
}.

(** [stores.DiamondSmelt]. *)
Record DiamondSmelt : Type := {
  smelt_Diamond : Bytes;
  smelt_Number : Z;
  ContainBlockHeight : Z;
  ContainBlockHash : Bytes;
  PrevContainBlockHash : Bytes;
  MinerAddress : Bytes;
  smelt_Nonce : Bytes;
  AverageBidBurnPrice : Z;
}.

(** [fields.DiamondListMaxLen200]. *)
Record DiamondListMaxLen200 : Type := {
  Count : Z;
  Diamonds : list Bytes;
}.

(** [stores.DiamondLending]. *)
Record DiamondLending : Type := {
  IsRansomed : bool;
  CreateBlockHeight : Z;
  MainAddress : Bytes;
  MortgageDiamondList : DiamondListMaxLen200;
  LoanTotalAmountMei : Z;
  BorrowPeriod : Z;
}.

(** Modelled from the spec: [stores.DiamondLendingIdLength] is declared
    outside the sources at hand; the spec gives the lending id as 14 bytes. *)
Definition DiamondLendingIdLength : Z := 14.

(** Modelled from the spec: [stores.TotalSupply] is a mapping from an enum of
    supply counters to a floating value; the three counters the lending
    actions touch are kept. *)
Inductive TotalSupplyStoreType : Type :=
| TotalSupplyStoreTypeOfSystemLendingDiamondCurrentMortgageCount
| TotalSupplyStoreTypeOfSystemLendingDiamondCumulationLoanHacAmount
| TotalSupplyStoreTypeOfSystemLendingDiamondCumulationRansomHacAmount.

Record TotalSupply : Type := {
  CurrentMortgageCount : float;
  CumulationLoanHacAmount : float;
  CumulationRansomHacAmount : float;
}.

Definition TotalSupply_update (op : float -> float -> float)
    (ts : TotalSupply) (ty : TotalSupplyStoreType) (v : float) : TotalSupply :=
  match ty with
  | TotalSupplyStoreTypeOfSystemLendingDiamondCurrentMortgageCount =>
      {| CurrentMortgageCount := op (CurrentMortgageCount ts) v;
         CumulationLoanHacAmount := CumulationLoanHacAmount ts;
         CumulationRansomHacAmount := CumulationRansomHacAmount ts |}
  | TotalSupplyStoreTypeOfSystemLendingDiamondCumulationLoanHacAmount =>
      {| CurrentMortgageCount := CurrentMortgageCount ts;
         CumulationLoanHacAmount := op (CumulationLoanHacAmount ts) v;
         CumulationRansomHacAmount := CumulationRansomHacAmount ts |}
  | TotalSupplyStoreTypeOfSystemLendingDiamondCumulationRansomHacAmount =>
      {| CurrentMortgageCount := CurrentMortgageCount ts;
         CumulationLoanHacAmount := CumulationLoanHacAmount ts;
         CumulationRansomHacAmount := op (CumulationRansomHacAmount ts) v |}
  end.

Definition DoAdd := TotalSupply_update PrimFloat.add.
Definition DoSub := TotalSupply_update PrimFloat.sub.

(** Go's [float64(n)] for an integer [n]. *)
Definition float64 (z : Z) : float :=
  if z <? 0 then PrimFloat.opp (PrimFloat.of_uint63 (Uint63.of_Z (- z)))
  else PrimFloat.of_uint63 (Uint63.of_Z z).

(** What a read of the block store gives: the record, or the error of a
    store that could not serve the read. *)
Inductive stored (A : Type) : Type :=
| Readable (a : A)
| Unreadable (e : error).
Arguments Readable {A} a.
Arguments Unreadable {A} e.

(** The block store behind [state.BlockStore()]: diamonds by literal and by
    number. *)
Record BlockStore : Type := {
  bs_diamond : gmap Bytes (stored DiamondSmelt);
  bs_diamond_by_number : gmap Z (stored DiamondSmelt);
}.

Definition bs_read {K} `{Countable K} {A} (m : gmap K (stored A)) (k : K)
    : option A * goerror :=
  match m !! k with
  | None => (None, None)
  | Some (Readable a) => (Some a, None)
  | Some (Unreadable e) => (None, Some e)
  end.

Definition ReadDiamond (bs : BlockStore) (d : Bytes) := bs_read (bs_diamond bs) d.
Definition ReadDiamondByNumber (bs : BlockStore) (n : Z) :=
  bs_read (bs_diamond_by_number bs) n.

(** ** Leaving a method

    A method body either goes on with a value ([Next]) or leaves the method
    ([Exit]): by a [return] with the method's result, or by a [panic]. *)

Inductive exit (R : Type) : Type :=
| Returned (r : R)
| Panicked (msg : string).
Arguments Returned {R} r.
Arguments Panicked {R} msg.

Inductive step (R A : Type) : Type :=
| Next (a : A)
| Exit (x : exit R).
Arguments Next {R A} a.
Arguments Exit {R A} x.

(** ** The chain state

    Modelled from the spec: the implementation behind
    [interfaces.ChainStateOperation] is the key/value store collaborator, not
    part of the sources at hand.  The spec (section 4.4) lists its
    operations; the state below holds what they read and write.  The
    operations of this in-memory state serve every read and write, so the
    errors they return are [nil]; the block store alone can fail a read
    (see [stored]). *)

Section ChainStateModel.
Context `{Ext : Externals}.

Record ChainState : Type := {
  pending_block_height : Z;
  (* the (hash, height) pairs recorded by ContainTxHash, newest first *)
  tx_hashes : list (Bytes * Z);
  diamonds : gmap Bytes Diamond;
  lastest_diamond : option DiamondSmelt;
  pending_submit_store_diamond : option DiamondSmelt;
  diamond_lendings : gmap Bytes DiamondLending;
  total_supply : TotalSupply;
  block_store : option BlockStore;
  hac_balance : gmap Bytes Amount;
  diamond_balance : gmap Bytes Z;
}.

Definition set_tx_hashes (v : list (Bytes * Z)) (s : ChainState) : ChainState :=
  {| pending_block_height := pending_block_height s; tx_hashes := v;
     diamonds := diamonds s; lastest_diamond := lastest_diamond s;
     pending_submit_store_diamond := pending_submit_store_diamond s;
     diamond_lendings := diamond_lendings s; total_supply := total_supply s;
     block_store := block_store s; hac_balance := hac_balance s;
     diamond_balance := diamond_balance s |}.

Definition set_diamonds (v : gmap Bytes Diamond) (s : ChainState) : ChainState :=
  {| pending_block_height := pending_block_height s; tx_hashes := tx_hashes s;
     diamonds := v; lastest_diamond := lastest_diamond s;
     pending_submit_store_diamond := pending_submit_store_diamond s;
     diamond_lendings := diamond_lendings s; total_supply := total_supply s;
     block_store := block_store s; hac_balance := hac_balance s;
     diamond_balance := diamond_balance s |}.

Definition set_lastest_diamond (v : option DiamondSmelt) (s : ChainState) : ChainState :=
  {| pending_block_height := pending_block_height s; tx_hashes := tx_hashes s;
     diamonds := diamonds s; lastest_diamond := v;
     pending_submit_store_diamond := pending_submit_store_diamond s;
     diamond_lendings := diamond_lendings s; total_supply := total_supply s;
     block_store := block_store s; hac_balance := hac_balance s;
     diamond_balance := diamond_balance s |}.

Definition set_pending_submit_store_diamond (v : option DiamondSmelt)
    (s : ChainState) : ChainState :=
  {| pending_block_height := pending_block_height s; tx_hashes := tx_hashes s;
     diamonds := diamonds s; lastest_diamond := lastest_diamond s;
     pending_submit_store_diamond := v;
     diamond_lendings := diamond_lendings s; total_supply := total_supply s;
     block_store := block_store s; hac_balance := hac_balance s;
     diamond_balance := diamond_balance s |}.

Definition set_diamond_lendings (v : gmap Bytes DiamondLending)
    (s : ChainState) : ChainState :=
  {| pending_block_height := pending_block_height s; tx_hashes := tx_hashes s;
     diamonds := diamonds s; lastest_diamond := lastest_diamond s;
     pending_submit_store_diamond := pending_submit_store_diamond s;
     diamond_lendings := v; total_supply := total_supply s;
     block_store := block_store s; hac_balance := hac_balance s;
     diamond_balance := diamond_balance s |}.

Definition set_total_supply (v : TotalSupply) (s : ChainState) : ChainState :=
  {| pending_block_height := pending_block_height s; tx_hashes := tx_hashes s;
     diamonds := diamonds s; lastest_diamond := lastest_diamond s;
     pending_submit_store_diamond := pending_submit_store_diamond s;
     diamond_lendings := diamond_lendings s; total_supply := v;
     block_store := block_store s; hac_balance := hac_balance s;
     diamond_balance := diamond_balance s |}.

Definition set_hac_balance (v : gmap Bytes Amount) (s : ChainState) : ChainState :=
  {| pending_block_height := pending_block_height s; tx_hashes := tx_hashes s;
     diamonds := diamonds s; lastest_diamond := lastest_diamond s;
     pending_submit_store_diamond := pending_submit_store_diamond s;
     diamond_lendings := diamond_lendings s; total_supply := total_supply s;
     block_store := block_store s; hac_balance := v;
     diamond_balance := diamond_balance s |}.

Definition set_diamond_balance (v : gmap Bytes Z) (s : ChainState) : ChainState :=
  {| pending_block_height := pending_block_height s; tx_hashes := tx_hashes s;
     diamonds := diamonds s; lastest_diamond := lastest_diamond s;
     pending_submit_store_diamond := pending_submit_store_diamond s;
     diamond_lendings := diamond_lendings s; total_supply := total_supply s;
     block_store := block_store s; hac_balance := hac_balance s;
     diamond_balance := v |}.

(** *** The monad of a method body

    A body threads the chain state.  The state reached so far is kept when
    the body leaves the method, as the mutations of a Go method are when it
    returns an error. *)

Definition M (R A : Type) : Type := ChainState -> step R A * ChainState.

Definition ret {R A} (a : A) : M R A := fun s => (Next a, s).

Definition bind {R A B} (m : M R A) (k : A -> M R B) : M R B :=
  fun s =>
    match m s with
    | (Next a, s') => k a s'
    | (Exit x, s') => (Exit x, s')
    end.

Definition return_ {R A} (r : R) : M R A := fun s => (Exit (Returned r), s).

Definition panic {R A} (msg : string) : M R A := fun s => (Exit (Panicked msg), s).

(** [if c { return r }]. *)
Definition return_if {R} (c : bool) (r : R) : M R unit :=
  if c then return_ r else ret tt.

(** [if e != nil { return e }]. *)
Definition return_if_err (e : goerror) : M goerror unit :=
  match e with
  | Some _ => return_ e
  | None => ret tt
  end.

(** Calling a method: its body's last value is what it returns. *)
Definition call {R} (body : M R R) (s : ChainState) : exit R * ChainState :=
  match body s with
  | (Next r, s') => (Returned r, s')
  | (Exit x, s') => (x, s')
  end.

(** A [for] loop over a slice, with the variables the loop updates. *)
Fixpoint for_each {R A B} (l : list A) (acc : B) (body : A -> B -> M R B) : M R B :=
  match l with
  | [] => ret acc
  | x :: r => bind (body x acc) (fun acc' => for_each r acc' body)
  end.

End ChainStateModel.

Notation "'let*' p ':=' m 'in' k" := (bind m (fun p => k))
  (at level 10, p pattern, m at level 100, k at level 200).
Notation "m ';;' k" := (bind m (fun _ => k))
  (at level 100, k at level 200, right associativity).

(** *** The operations of [interfaces.ChainStateOperation] *)

Section StateOperations.
Context `{Ext : Externals}.
Context {R : Type}.

Definition GetPendingBlockHeight : M R Z :=
  fun s => (Next (pending_block_height s), s).

Definition CheckTxHash (hx : Bytes) : M R (bool * goerror) :=
  fun s => (Next (existsb (fun p => bytes_Equal (fst p) hx) (tx_hashes s), None), s).

Definition ContainTxHash (hx : Bytes) (height : Z) : M R goerror :=
  fun s => (Next None, set_tx_hashes ((hx, height) :: tx_hashes s) s).

Definition state_Diamond (d : Bytes) : M R (option Diamond) :=
  fun s => (Next (diamonds s !! d), s).

Definition DiamondSet (d : Bytes) (item : Diamond) : M R goerror :=
  fun s => (Next None, set_diamonds (<[d := item]> (diamonds s)) s).

Definition DiamondDel (d : Bytes) : M R goerror :=
  fun s => (Next None, set_diamonds (delete d (diamonds s)) s).

Definition ReadLastestDiamond : M R (option DiamondSmelt * goerror) :=
  fun s => (Next (lastest_diamond s, None), s).

Definition SetLastestDiamond (smelt : option DiamondSmelt) : M R goerror :=
  fun s => (Next None, set_lastest_diamond smelt s).

Definition GetPendingSubmitStoreDiamond : M R (option DiamondSmelt * goerror) :=
  fun s => (Next (pending_submit_store_diamond s, None), s).

Definition SetPendingSubmitStoreDiamond (smelt : option DiamondSmelt) : M R goerror :=
  fun s => (Next None, set_pending_submit_store_diamond smelt s).

Definition state_DiamondLending (id : Bytes) : M R (option DiamondLending) :=
  fun s => (Next (diamond_lendings s !! id), s).

Definition DiamondLendingCreate (id : Bytes) (c : DiamondLending) : M R goerror :=
  fun s => (Next None, set_diamond_lendings (<[id := c]> (diamond_lendings s)) s).

Definition DiamondLendingUpdate (id : Bytes) (c : DiamondLending) : M R goerror :=
  fun s => (Next None, set_diamond_lendings (<[id := c]> (diamond_lendings s)) s).

Definition DiamondLendingDelete (id : Bytes) : M R goerror :=
  fun s => (Next None, set_diamond_lendings (delete id (diamond_lendings s)) s).

Definition ReadTotalSupply : M R (TotalSupply * goerror) :=
  fun s => (Next (total_supply s, None), s).

Definition UpdateSetTotalSupply (ts : TotalSupply) : M R goerror :=
  fun s => (Next None, set_total_supply ts s).

Definition state_BlockStore : M R (option BlockStore) :=
  fun s => (Next (block_store s), s).

(** *** Balance helpers

    Modelled from the spec: [DoAddBalanceFromChainState] and its three
    siblings live in a file of the [actions] package that is not part of the
    sources at hand.  The spec: each takes an address and an amount or count,
    and fails if the resulting balance would be negative.  An address with no
    entry holds the empty amount and no diamond. *)

Definition DoAddBalanceFromChainState (addr : Bytes) (amt : Amount) : M R goerror :=
  fun s =>
    match Amount_Add (default NewEmptyAmount (hac_balance s !! addr)) amt with
    | inl total => (Next None, set_hac_balance (<[addr := total]> (hac_balance s)) s)
    | inr e => (Next (Some e), s)
    end.

Definition DoSubBalanceFromChainState (addr : Bytes) (amt : Amount) : M R goerror :=
  fun s =>
    let bal := default NewEmptyAmount (hac_balance s !! addr) in
    if Amount_LessThan bal amt then
      (Next (Some (Errorf "address %s balance %s not enough."
                     [ArgStr (Address_ToReadable addr); ArgStr (Amount_ToFinString bal)])), s)
    else
      match Amount_Sub bal amt with
      | inl rest => (Next None, set_hac_balance (<[addr := rest]> (hac_balance s)) s)
      | inr e => (Next (Some e), s)
      end.

Definition DoAddDiamondFromChainState (addr : Bytes) (n : Z) : M R goerror :=
  fun s =>
    let bal := default 0 (diamond_balance s !! addr) in
    (Next None, set_diamond_balance (<[addr := bal + n]> (diamond_balance s)) s).

Definition DoSubDiamondFromChainState (addr : Bytes) (n : Z) : M R goerror :=
  fun s =>
    let bal := default 0 (diamond_balance s !! addr) in
    if bal <? n then
      (Next (Some (Errorf "address %s diamond balance %d not enough."
                     [ArgStr (Address_ToReadable addr); ArgInt bal])), s)
    else (Next None, set_diamond_balance (<[addr := bal - n]> (diamond_balance s)) s).

End StateOperations.

(** ** Field codec

    Modelled from the spec: the [Parse] methods of the [fields] types are not
    part of the sources at hand.  The spec (section 4.1): integers are
    big-endian and fixed-width, [parse(buf, offset)] gives the new offset and
    the value and fails with [unexpected_eof] if [buf] is too short.  A failed
    parse gives offset 0 and leaves the receiver as it was. *)

Definition Bytes_Parse (n : nat) (elm : Bytes) (buf : Bytes) (seek : Z)
    : Bytes * (Z * goerror) :=
  if seek + Z.of_nat n <=? Z.of_nat (length buf) then
    (take n (drop (Z.to_nat seek) buf), (uint32 (seek + Z.of_nat n), None))
  else (elm, (0, Some (Errorf "unexpected_eof" []))).

Definition VarInt_Parse (n : nat) (elm : Z) (buf : Bytes) (seek : Z)
    : Z * (Z * goerror) :=
  if seek + Z.of_nat n <=? Z.of_nat (length buf) then
    (of_big_endian (take n (drop (Z.to_nat seek) buf)),
     (uint32 (seek + Z.of_nat n), None))
  else (elm, (0, Some (Errorf "unexpected_eof" []))).

(** ** actions/diamond.go *)

Record Action_4_DiamondCreate : Type := {
  a4_Diamond : Bytes;
  a4_Number : Z;
  a4_PrevHash : Bytes;
  a4_Nonce : Bytes;
  a4_Address : Bytes;
  a4_belone_trs : option Transaction;
}.

Record Action_5_DiamondTransfer : Type := {
  a5_Diamond : Bytes;
  a5_Address : Bytes;
  a5_trs : option Transaction;
}.

Record Action_6_OutfeeQuantityDiamondTransfer : Type := {
  a6_FromAddress : Bytes;
  a6_ToAddress : Bytes;
  a6_DiamondCount : Z;
  a6_Diamonds : list Bytes;
  a6_trs : option Transaction;
}.

Definition Action_4_Parse (elm : Action_4_DiamondCreate) (buf : Bytes) (seek : Z)
    : Action_4_DiamondCreate * (Z * goerror) :=
  let '(diamond, (moveseek1, _)) := Bytes_Parse 6 (a4_Diamond elm) buf seek in
  let '(number, (moveseek2, _)) := VarInt_Parse 3 (a4_Number elm) buf moveseek1 in
  let '(prevhash, (moveseek3, _)) := Bytes_Parse 32 (a4_PrevHash elm) buf moveseek2 in
  let '(nonce, (moveseek4, _)) := Bytes_Parse 8 (a4_Nonce elm) buf moveseek3 in
  let '(address, (moveseek5, _)) := Bytes_Parse 21 (a4_Address elm) buf moveseek4 in
  ({| a4_Diamond := diamond; a4_Number := number; a4_PrevHash := prevhash;
      a4_Nonce := nonce; a4_Address := address;
      a4_belone_trs := a4_belone_trs elm |},
   (moveseek5, None)).

Definition Action_5_Parse (elm : Action_5_DiamondTransfer) (buf : Bytes) (seek : Z)
    : Action_5_DiamondTransfer * (Z * goerror) :=
  let '(diamond, (moveseek1, _)) := Bytes_Parse 6 (a5_Diamond elm) buf seek in
  let '(address, (moveseek2, _)) := Bytes_Parse 21 (a5_Address elm) buf moveseek1 in
  ({| a5_Diamond := diamond; a5_Address := address; a5_trs := a5_trs elm |},
   (moveseek2, None)).

(** The loop of [Action_6.Parse]: each element starts as [fields.Bytes6{}]. *)
Fixpoint Action_6_Parse_diamonds (n : nat) (buf : Bytes) (seek : Z) : list Bytes * Z :=
  match n with
  | O => ([], seek)
  | S k =>
      let '(d, (seek1, _)) := Bytes_Parse 6 [] buf seek in
      let '(ds, seek2) := Action_6_Parse_diamonds k buf seek1 in
      (d :: ds, seek2)
  end.

Definition Action_6_Parse (elm : Action_6_OutfeeQuantityDiamondTransfer)
    (buf : Bytes) (seek : Z)
    : Action_6_OutfeeQuantityDiamondTransfer * (Z * goerror) :=
  let '(from, (seek1, _)) := Bytes_Parse 21 (a6_FromAddress elm) buf seek in
  let '(to, (seek2, _)) := Bytes_Parse 21 (a6_ToAddress elm) buf seek1 in
  let '(count, (seek3, _)) := VarInt_Parse 1 (a6_DiamondCount elm) buf seek2 in
  let '(ds, seek4) := Action_6_Parse_diamonds (Z.to_nat count) buf seek3 in
  ({| a6_FromAddress := from; a6_ToAddress := to; a6_DiamondCount := count;
      a6_Diamonds := ds; a6_trs := a6_trs elm |},
   (seek4, None)).

Section DiamondActions.
Context `{Ext : Externals}.

Definition Action_4_WriteinChainState (act : Action_4_DiamondCreate)
    : M goerror goerror :=
  let* blkhei := GetPendingBlockHeight in
  return_if (negb (blkhei mod 5 =? 0))
    (Some (Errorf "{BACKTOPOOL} Diamond must be in block height multiple of 5." [])) ;;
  let* (lastdiamond, err) := ReadLastestDiamond in
  return_if_err err ;;
  match lastdiamond with
  | Some ld =>
      let prevdiamondnum := uint32 (smelt_Number ld) in
      let prevdiamondhash := ContainBlockHash ld in
      return_if (negb (bytes_Equal (a4_PrevHash act) prevdiamondhash))
        (Some (Errorf "Diamond prev hash must be <%s> but got <%s>."
                 [ArgStr (hex_EncodeToString prevdiamondhash);
                  ArgStr (hex_EncodeToString (a4_PrevHash act))])) ;;
      return_if (negb (uint32 (prevdiamondnum + 1) =? uint32 (a4_Number act)))
        (Some (Errorf "Diamond number must be <%d> but got <%d>."
                 [ArgInt (uint32 (prevdiamondnum + 1)); ArgInt (a4_Number act)]))
  | None => ret tt
  end ;;
  let (diamond_resbytes, diamond_str) :=
    x16rs_Diamond (uint32 (a4_Number act)) (a4_PrevHash act) (a4_Nonce act)
      (a4_Address act) in
  let (diamondstrval, isdia) := x16rs_IsDiamondHashResultString diamond_str in
  return_if (negb isdia)
    (Some (Errorf "String <%s> is not diamond." [ArgStr diamond_str])) ;;
  return_if (negb (String.eqb diamondstrval (string_of_Bytes (a4_Diamond act))))
    (Some (Errorf "Diamond need <%s> but got <%s>"
             [ArgBytes (a4_Diamond act); ArgStr diamondstrval])) ;;
  let difok := x16rs_CheckDiamondDifficulty (uint32 (a4_Number act)) diamond_resbytes in
  return_if (negb difok)
    (Some (Errorf "Diamond difficulty not meet the requirements." [])) ;;
  let* hasaddr := state_Diamond (a4_Diamond act) in
  return_if (bool_decide (is_Some hasaddr))
    (Some (Errorf "Diamond <%s> already exist."
             [ArgStr (string_of_Bytes (a4_Diamond act))])) ;;
  let* (pendingdiamond, e2) := GetPendingSubmitStoreDiamond in
  return_if_err e2 ;;
  match pendingdiamond with
  | Some pd =>
      return_ (Some (Errorf "This block height:%d has already exist diamond:<%s> ."
                       [ArgInt blkhei; ArgBytes (smelt_Diamond pd)]))
  | None => ret tt
  end ;;
  let diastore := {| Status := 0; Address := a4_Address act |} in
  let* e3 := DiamondSet (a4_Diamond act) diastore in
  return_if_err e3 ;;
  let diamondstore :=
    {| smelt_Diamond := a4_Diamond act;
       smelt_Number := a4_Number act;
       ContainBlockHeight := VarUint 5 blkhei;
       ContainBlockHash := [];
       PrevContainBlockHash := a4_PrevHash act;
       MinerAddress := a4_Address act;
       smelt_Nonce := a4_Nonce act;
       AverageBidBurnPrice := 0 |} in
  let* e4 := SetLastestDiamond (Some diamondstore) in
  return_if_err e4 ;;
  let* e5 := SetPendingSubmitStoreDiamond (Some diamondstore) in
  return_if_err e5 ;;
  ret None.

Definition Action_4_RecoverChainState (act : Action_4_DiamondCreate)
    : M goerror goerror :=
  let* e1 := DiamondDel (a4_Diamond act) in
  return_if_err e1 ;;
  let* chainstore := state_BlockStore in
  match chainstore with
  | None => return_ (Some (Errorf "not find BlockStore object." []))
  | Some store =>
      let (prevDiamond, e2) :=
        ReadDiamondByNumber store (uint32 (uint32 (a4_Number act) - 1)) in
      return_if (bool_decide (is_Some e2)) e1 ;;
      let* e3 := SetLastestDiamond prevDiamond in
      return_if_err e3 ;;
      ret None
  end.

Definition Action_5_WriteinChainState (act : Action_5_DiamondTransfer)
    : M goerror goerror :=
  match a5_trs act with
  | None => panic "Action belong to transaction not be nil !"
  | Some trs =>
      let trsMainAddress := GetAddress trs in
      return_if (bytes_Equal (a5_Address act) trsMainAddress)
        (Some (Errorf "Cannot transfer to self." [])) ;;
      let* diaitem := state_Diamond (a5_Diamond act) in
      match diaitem with
      | None =>
          return_ (Some (Errorf "Diamond <%s> not exist."
                           [ArgStr (string_of_Bytes (a5_Diamond act))]))
      | Some item =>
          return_if (negb (bytes_Equal (Address item) trsMainAddress))
            (Some (Errorf "Diamond <%s> not belong to belone_trs address."
                     [ArgStr (string_of_Bytes (a5_Diamond act))])) ;;
          let item := {| Status := Status item; Address := a5_Address act |} in
          let* err := DiamondSet (a5_Diamond act) item in
          return_if_err err ;;
          ret None
      end
  end.

Definition Action_5_RecoverChainState (act : Action_5_DiamondTransfer)
    : M goerror goerror :=
  match a5_trs act with
  | None => panic "Action belong to transaction not be nil !"
  | Some trs =>
      let* diaitem := state_Diamond (a5_Diamond act) in
      match diaitem with
      | None =>
          return_ (Some (Errorf "Diamond <%s> not exist."
                           [ArgStr (string_of_Bytes (a5_Diamond act))]))
      | Some item =>
          let item := {| Status := Status item; Address := GetAddress trs |} in
          let* err := DiamondSet (a5_Diamond act) item in
          return_if_err err ;;
          ret None
      end
  end.

Definition Action_6_WriteinChainState (act : Action_6_OutfeeQuantityDiamondTransfer)
    : M goerror goerror :=
  match a6_trs act with
  | None => panic "Action belong to transaction not be nil !"
  | Some _ =>
      return_if (negb (a6_DiamondCount act =? Z.of_nat (length (a6_Diamonds act))))
        (Some (Errorf "Diamonds number quantity count error" [])) ;;
      return_if (bytes_Equal (a6_FromAddress act) (a6_ToAddress act))
        (Some (Errorf "Cannot transfer to self." [])) ;;
      for_each (a6_Diamonds act) tt (fun diamond _ =>
        let* diaitem := state_Diamond diamond in
        match diaitem with
        | None =>
            return_ (Some (Errorf "Quantity Diamond <%s> not exist."
                             [ArgStr (string_of_Bytes diamond)]))
        | Some item =>
            return_if (negb (bytes_Equal (Address item) (a6_FromAddress act)))
              (Some (Errorf "Diamond <%s> not belong to address '%s'"
                       [ArgStr (string_of_Bytes diamond);
                        ArgStr (Address_ToReadable (a6_FromAddress act))])) ;;
            let item := {| Status := Status item; Address := a6_ToAddress act |} in
            let* _ := DiamondSet diamond item in
            ret tt
        end) ;;
      ret None
  end.

Definition Action_6_RecoverChainState (act : Action_6_OutfeeQuantityDiamondTransfer)
    : M goerror goerror :=
  match a6_trs act with
  | None => panic "Action belong to transaction not be nil !"
  | Some _ =>
      for_each (a6_Diamonds act) tt (fun diamond _ =>
        let* diaitem := state_Diamond diamond in
        match diaitem with
        | None =>
            return_ (Some (Errorf "Diamond <%s> not exist."
                             [ArgStr (string_of_Bytes diamond)]))
        | Some item =>
            let item := {| Status := Status item; Address := a6_FromAddress act |} in
            let* err := DiamondSet diamond item in
            return_if_err err
        end) ;;
      ret None
  end.

End DiamondActions.

(** ** The system-lending actions 15 and 16 *)

(** The declared borrow period, in blocks. *)
Definition DiamondsSystemLendingBorrowPeriodBlockNumber : Z := 10000.

(** The id check both actions start with:
    [len(id) != DiamondLendingIdLength || id[0] == 0 || id[len-1] == 0]. *)
Definition lending_id_format_error (id : Bytes) : bool :=
  negb (Z.of_nat (length id) =? DiamondLendingIdLength)
  || (Z_of_byte (nth 0 id "000"%byte) =? 0)
  || (Z_of_byte (nth (Z.to_nat (DiamondLendingIdLength - 1)) id "000"%byte) =? 0).

Section LendingActions.
Context `{Ext : Externals}.

Record Action_15_DiamondsSystemLendingCreate : Type := {
  a15_LendingID : Bytes;
  a15_MortgageDiamondList : DiamondListMaxLen200;
  a15_LoanTotalAmount : Amount;
  a15_BorrowPeriod : Z;
  a15_belong_trs : option Transaction;
}.

Record Action_16_DiamondsSystemLendingRansom : Type := {
  a16_LendingID : Bytes;
  a16_RansomAmount : Amount;
  a16_belong_trs : option Transaction;
}.

(** The body of the mortgage loop of action 15 for one diamond;
    [totalLoanHAC] is the [int64] the loop adds up. *)
Definition Action_15_mortgage_one (feeAddr : Bytes) (diamond : Bytes)
    (totalLoanHAC : Z) : M goerror Z :=
  let* diaitem := state_Diamond diamond in
  match diaitem with
  | None =>
      return_ (Some (Errorf "Diamond <%s> not find." [ArgStr (string_of_Bytes diamond)]))
  | Some item =>
      return_if (negb (Status item =? DiamondStatusNormal))
        (Some (Errorf "Diamond <%s> has been mortgaged and cannot be transferred."
                 [ArgStr (string_of_Bytes diamond)])) ;;
      return_if (negb (bytes_Equal (Address item) feeAddr))
        (Some (Errorf "Diamond <%s> not belong to address '%s'"
                 [ArgStr (string_of_Bytes diamond);
                  ArgStr (Address_ToReadable feeAddr)])) ;;
      let item := {| Status := DiamondStatusLendingSystem; Address := Address item |} in
      let* e5 := DiamondSet diamond item in
      return_if_err e5 ;;
      let* store := state_BlockStore in
      match store with
      | None => panic "invalid memory address or nil pointer dereference"
      | Some store =>
          let (diasmelt, e6) := ReadDiamond store diamond in
          return_if (bool_decide (is_Some e6)) e5 ;;
          match diasmelt with
          | None =>
              return_ (Some (Errorf "Diamond <%s> not exist."
                               [ArgStr (string_of_Bytes diamond)]))
          | Some smelt =>
              ret (int64 (totalLoanHAC + int64 (AverageBidBurnPrice smelt)))
          end
      end
  end.

Definition Action_15_WriteinChainState (TestDebugLocalDevelopmentMark : bool)
    (act : Action_15_DiamondsSystemLendingCreate) : M goerror goerror :=
  return_if (negb TestDebugLocalDevelopmentMark) (Some (Errorf "mainnet not yet" [])) ;;
  match a15_belong_trs act with
  | None => panic "Action belong to transaction not be nil !"
  | Some trs =>
      let feeAddr := GetAddress trs in
      return_if (lending_id_format_error (a15_LendingID act))
        (Some (Errorf "Diamond Lending Id format error." [])) ;;
      let* dmdlendObj := state_DiamondLending (a15_LendingID act) in
      return_if (bool_decide (is_Some dmdlendObj))
        (Some (Errorf "Diamond Lending <%d> already exist."
                 [ArgStr (hex_EncodeToString (a15_LendingID act))])) ;;
      let dianum := Count (a15_MortgageDiamondList act) in
      let diamonds := Diamonds (a15_MortgageDiamondList act) in
      return_if ((dianum =? 0) || negb (dianum =? Z.of_nat (length diamonds)))
        (Some (Errorf "Diamonds quantity error" [])) ;;
      return_if (200 <? dianum)
        (Some (Errorf "Diamonds quantity cannot over 200" [])) ;;
      return_if ((a15_BorrowPeriod act <? 1) || (20 <? a15_BorrowPeriod act))
        (Some (Errorf "BorrowPeriod must between 1 ~ 20" [])) ;;
      let* totalLoanHAC := for_each diamonds 0 (Action_15_mortgage_one feeAddr) in
      let totalAmt := NewAmountByUnit248 totalLoanHAC in
      return_if (negb (Amount_Equal totalAmt (a15_LoanTotalAmount act)))
        (Some (Errorf "LoanTotalAmountMei <%s> and <%s> not match."
                 [ArgStr (Amount_ToFinString totalAmt);
                  ArgStr (Amount_ToFinString (a15_LoanTotalAmount act))])) ;;
      let* e9 := DoSubDiamondFromChainState feeAddr (VarUint 3 dianum) in
      return_if_err e9 ;;
      let* e10 := DoAddBalanceFromChainState feeAddr (a15_LoanTotalAmount act) in
      return_if_err e10 ;;
      let* paddingHei := GetPendingBlockHeight in
      let dlsto :=
        {| IsRansomed := false;
           CreateBlockHeight := VarUint 5 paddingHei;
           MainAddress := feeAddr;
           MortgageDiamondList := a15_MortgageDiamondList act;
           LoanTotalAmountMei := VarUint 4 totalLoanHAC;
           BorrowPeriod := a15_BorrowPeriod act |} in
      let* e11 := DiamondLendingCreate (a15_LendingID act) dlsto in
      return_if_err e11 ;;
      let* (totalsupply, e20) := ReadTotalSupply in
      return_if_err e20 ;;
      let totalsupply :=
        DoAdd totalsupply
          TotalSupplyStoreTypeOfSystemLendingDiamondCurrentMortgageCount
          (float64 dianum) in
      let totalsupply :=
        DoAdd totalsupply
          TotalSupplyStoreTypeOfSystemLendingDiamondCumulationLoanHacAmount
          (Amount_ToMei (a15_LoanTotalAmount act)) in
      let* e21 := UpdateSetTotalSupply totalsupply in
      return_if_err e21 ;;
      ret None
  end.

Definition Action_15_RecoverChainState (TestDebugLocalDevelopmentMark : bool)
    (act : Action_15_DiamondsSystemLendingCreate) : M goerror goerror :=
  return_if (negb TestDebugLocalDevelopmentMark) (Some (Errorf "mainnet not yet" [])) ;;
  match a15_belong_trs act with
  | None => panic "Action belong to transaction not be nil !"
  | Some trs =>
      let feeAddr := GetAddress trs in
      for_each (Diamonds (a15_MortgageDiamondList act)) tt (fun diamond _ =>
        let* diaitem := state_Diamond diamond in
        match diaitem with
        | None => panic "invalid memory address or nil pointer dereference"
        | Some diaitem =>
            let diaitem := {| Status := DiamondStatusNormal; Address := Address diaitem |} in
            let* e5 := DiamondSet diamond diaitem in
            return_if_err e5
        end) ;;
      let dianum := Count (a15_MortgageDiamondList act) in
      let* e9 := DoAddDiamondFromChainState feeAddr (VarUint 3 dianum) in
      return_if_err e9 ;;
      let* e10 := DoSubBalanceFromChainState feeAddr (a15_LoanTotalAmount act) in
      return_if_err e10 ;;
      let* (totalsupply, e20) := ReadTotalSupply in
      return_if_err e20 ;;
      let totalsupply :=
        DoSub totalsupply
          TotalSupplyStoreTypeOfSystemLendingDiamondCurrentMortgageCount
          (float64 dianum) in
      let totalsupply :=
        DoSub totalsupply
          TotalSupplyStoreTypeOfSystemLendingDiamondCumulationLoanHacAmount
          (Amount_ToMei (a15_LoanTotalAmount act)) in
      let* e21 := UpdateSetTotalSupply totalsupply in
      return_if_err e21 ;;
      ret None
  end.

(** The borrow period in blocks that [Action_16.WriteinChainState] works
    with: the declared constant, overridden under the development mark. *)
Definition Action_16_dslbpbn (declared : Z) (TestDebugLocalDevelopmentMark : bool) : Z :=
  if TestDebugLocalDevelopmentMark then 50 else declared.

(** The ransom in [qian] that [Action_16.WriteinChainState] computes in
    [int64] and [uint64], for a contract and a pending height. *)
Definition Action_16_realRansom1qian (dslbpbn : Z) (dmdlendObj : DiamondLending)
    (paddingHeight : Z) : Z :=
  let ransomBlockNumberBase := uint64 (uint64 (BorrowPeriod dmdlendObj) * dslbpbn) in
  let privateHeight := uint64 (uint64 (CreateBlockHeight dmdlendObj) + ransomBlockNumberBase) in
  let realRansom1qian :=
    int64 (int64 (1000 + int64 (5 * int64 (BorrowPeriod dmdlendObj)))
           * int64 (LoanTotalAmountMei dmdlendObj)) in
  let publicHeight := uint64 (privateHeight + ransomBlockNumberBase) in
  if publicHeight <? paddingHeight then
    let subcount := int64 (uint64 (paddingHeight - publicHeight) / dslbpbn) in
    let maxsub := int64 (int64 (BorrowPeriod dmdlendObj) * 2) in
    let subcount := if maxsub <? subcount then maxsub else subcount in
    int64 (realRansom1qian
           - int64 (int64 (5 * subcount) * int64 (LoanTotalAmountMei dmdlendObj)))
  else realRansom1qian.

Definition Action_16_privateHeight (dslbpbn : Z) (dmdlendObj : DiamondLending) : Z :=
  uint64 (uint64 (CreateBlockHeight dmdlendObj)
          + uint64 (uint64 (BorrowPeriod dmdlendObj) * dslbpbn)).

(** [Action_16.WriteinChainState]; [declared] is the constant
    [DiamondsSystemLendingBorrowPeriodBlockNumber] the body starts from. *)
Definition Action_16_WriteinChainState_with (declared : Z)
    (TestDebugLocalDevelopmentMark : bool)
    (act : Action_16_DiamondsSystemLendingRansom) : M goerror goerror :=
  return_if (negb TestDebugLocalDevelopmentMark) (Some (Errorf "mainnet not yet" [])) ;;
  let dslbpbn := Action_16_dslbpbn declared TestDebugLocalDevelopmentMark in
  match a16_belong_trs act with
  | None => panic "Action belong to transaction not be nil !"
  | Some trs =>
      let* paddingHeight := GetPendingBlockHeight in
      let feeAddr := GetAddress trs in
      return_if (lending_id_format_error (a16_LendingID act))
        (Some (Errorf "Diamond Lending Id format error." [])) ;;
      let* dmdlendObj := state_DiamondLending (a16_LendingID act) in
      match dmdlendObj with
      | None =>
          return_ (Some (Errorf "Diamond Lending <%d> not exist."
                           [ArgStr (hex_EncodeToString (a16_LendingID act))]))
      | Some dmdlendObj =>
          return_if (IsRansomed dmdlendObj)
            (Some (Errorf "Diamond Lending <%d> has been redeemed."
                     [ArgStr (hex_EncodeToString (a16_LendingID act))])) ;;
          let privateHeight := Action_16_privateHeight dslbpbn dmdlendObj in
          return_if ((paddingHeight <=? privateHeight)
                     && negb (bytes_Equal feeAddr (MainAddress dmdlendObj)))
            (Some (Errorf "It can only be redeemed privately by the mortgagor %s before the blockheight %d"
                     [ArgStr (Address_ToReadable (MainAddress dmdlendObj));
                      ArgInt privateHeight])) ;;
          let realRansom1qian :=
            Action_16_realRansom1qian dslbpbn dmdlendObj paddingHeight in
          match NewAmountByBigIntWithUnit realRansom1qian 245 with
          | inr e1 => return_ (Some e1)
          | inl validRansomAmt =>
              return_if (Amount_LessThan (a16_RansomAmount act) validRansomAmt)
                (Some (Errorf "Valid ransom amount must not less than %s but got %s"
                         [ArgStr (Amount_ToFinString validRansomAmt);
                          ArgStr (Amount_ToFinString (a16_RansomAmount act))])) ;;
              let* e2 := DoAddBalanceFromChainState feeAddr (a16_RansomAmount act) in
              return_if_err e2 ;;
              let dianum := Count (MortgageDiamondList dmdlendObj) in
              for_each (Diamonds (MortgageDiamondList dmdlendObj)) tt (fun diamond _ =>
                let* diaitem := state_Diamond diamond in
                match diaitem with
                | None =>
                    return_ (Some (Errorf "diamond <%s> not find."
                                     [ArgStr (string_of_Bytes diamond)]))
                | Some diaitem =>
                    return_if (negb (Status diaitem =? DiamondStatusLendingSystem))
                      (Some (Errorf "diamond <%s> status is not [stores.DiamondStatusLendingSystem]."
                               [ArgStr (string_of_Bytes diamond)])) ;;
                    let diaitem := {| Status := DiamondStatusNormal; Address := feeAddr |} in
                    let* e5 := DiamondSet diamond diaitem in
                    return_if_err e5
                end) ;;
              let* e9 := DoSubDiamondFromChainState feeAddr (VarUint 3 dianum) in
              return_if_err e9 ;;
              let dmdlendObj :=
                {| IsRansomed := true;
                   CreateBlockHeight := CreateBlockHeight dmdlendObj;
                   MainAddress := MainAddress dmdlendObj;
                   MortgageDiamondList := MortgageDiamondList dmdlendObj;
                   LoanTotalAmountMei := LoanTotalAmountMei dmdlendObj;
                   BorrowPeriod := BorrowPeriod dmdlendObj |} in
              let* e10 := DiamondLendingUpdate (a16_LendingID act) dmdlendObj in
              return_if_err e10 ;;
              let* (totalsupply, e20) := ReadTotalSupply in
              return_if_err e20 ;;
              let totalsupply :=
                DoSub totalsupply
                  TotalSupplyStoreTypeOfSystemLendingDiamondCurrentMortgageCount
                  (float64 dianum) in
              let totalsupply :=
                DoAdd totalsupply
                  TotalSupplyStoreTypeOfSystemLendingDiamondCumulationRansomHacAmount
                  (Amount_ToMei (a16_RansomAmount act)) in
              let* e21 := UpdateSetTotalSupply totalsupply in
              return_if_err e21 ;;
              ret None
          end
      end
  end.

Definition Action_16_WriteinChainState :=
  Action_16_WriteinChainState_with DiamondsSystemLendingBorrowPeriodBlockNumber.

Definition Action_16_RecoverChainState (TestDebugLocalDevelopmentMark : bool)
    (act : Action_16_DiamondsSystemLendingRansom) : M goerror goerror :=
  return_if (negb TestDebugLocalDevelopmentMark) (Some (Errorf "mainnet not yet" [])) ;;
  match a16_belong_trs act with
  | None => panic "Action belong to transaction not be nil !"
  | Some trs =>
      let feeAddr := GetAddress trs in
      let* dmdlendObj := state_DiamondLending (a16_LendingID act) in
      match dmdlendObj with
      | None =>
          return_ (Some (Errorf "Diamond Lending <%d> not exist."
                           [ArgStr (hex_EncodeToString (a16_LendingID act))]))
      | Some dmdlendObj =>
          let* _ := DiamondLendingDelete (a16_LendingID act) in
          for_each (Diamonds (MortgageDiamondList dmdlendObj)) tt (fun diamond _ =>
            let* diaitem := state_Diamond diamond in
            match diaitem with
            | None => panic "invalid memory address or nil pointer dereference"
            | Some _ =>
                let diaitem :=
                  {| Status := DiamondStatusLendingSystem;
                     Address := MainAddress dmdlendObj |} in
                let* e5 := DiamondSet diamond diaitem in
                return_if_err e5
            end) ;;
          let dianum := Count (MortgageDiamondList dmdlendObj) in
          let* e9 := DoSubDiamondFromChainState feeAddr (VarUint 3 dianum) in
          return_if_err e9 ;;
          let* e10 := DoAddBalanceFromChainState feeAddr (a16_RansomAmount act) in
          return_if_err e10 ;;
          let* (totalsupply, e20) := ReadTotalSupply in
          return_if_err e20 ;;
          let totalsupply :=
            DoAdd totalsupply
              TotalSupplyStoreTypeOfSystemLendingDiamondCurrentMortgageCount
              (float64 dianum) in
          let totalsupply :=
            DoSub totalsupply
              TotalSupplyStoreTypeOfSystemLendingDiamondCumulationRansomHacAmount
              (Amount_ToMei (a16_RansomAmount act)) in
          let* e21 := UpdateSetTotalSupply totalsupply in
          return_if_err e21 ;;
          ret None
      end
  end.

End LendingActions.

(** ** Actions behind [interfaces.Action] *)

Section ActionDispatch.
Context `{Ext : Externals}.

Inductive Action : Type :=
| Act4 (a : Action_4_DiamondCreate)
| Act5 (a : Action_5_DiamondTransfer)
| Act6 (a : Action_6_OutfeeQuantityDiamondTransfer)
| Act15 (a : Action_15_DiamondsSystemLendingCreate)
| Act16 (a : Action_16_DiamondsSystemLendingRansom).

Definition Kind (a : Action) : Z :=
  match a with
  | Act4 _ => 4
  | Act5 _ => 5
  | Act6 _ => 6
  | Act15 _ => 15
  | Act16 _ => 16
  end.

Definition Action_WriteinChainState (mark : bool) (a : Action)
    (s : ChainState) : exit goerror * ChainState :=
  match a with
  | Act4 a => call (Action_4_WriteinChainState a) s
  | Act5 a => call (Action_5_WriteinChainState a) s
  | Act6 a => call (Action_6_WriteinChainState a) s
  | Act15 a => call (Action_15_WriteinChainState mark a) s
  | Act16 a => call (Action_16_WriteinChainState mark a) s
  end.

Definition Action_RecoverChainState (mark : bool) (a : Action)
    (s : ChainState) : exit goerror * ChainState :=
  match a with
  | Act4 a => call (Action_4_RecoverChainState a) s
  | Act5 a => call (Action_5_RecoverChainState a) s
  | Act6 a => call (Action_6_RecoverChainState a) s
  | Act15 a => call (Action_15_RecoverChainState mark a) s
  | Act16 a => call (Action_16_RecoverChainState mark a) s
  end.

(** Modelled from the spec: the transaction code is not part of the sources
    at hand; the spec has each transaction walk its actions in order, an
    error aborting the walk.  [apply_actions] is that walk, [revert_actions]
    the inverse walk. *)
Fixpoint apply_actions (mark : bool) (l : list Action) (s : ChainState)
    : exit goerror * ChainState :=
  match l with
  | [] => (Returned None, s)
  | a :: r =>
      match Action_WriteinChainState mark a s with
      | (Returned None, s') => apply_actions mark r s'
      | stop => stop
      end
  end.

Definition revert_actions (mark : bool) (l : list Action) (s : ChainState)
    : exit goerror * ChainState :=
  fold_left
    (fun (acc : exit goerror * ChainState) a =>
       match acc with
       | (Returned None, s') => Action_RecoverChainState mark a s'
       | stop => stop
       end)
    (rev l) (Returned None, s).

End ActionDispatch.

(** ** SHA-256 (FIPS 180-4), for the block hash

    [CalculateBlockHash] is declared in a file of the [blocks] package that
    is not part of the sources at hand; the hash function it applies is the
    standard one, written out here over 32-bit words in [Z]. *)

Module SHA256.

Definition w32 (z : Z) : Z := z mod 2 ^ 32.
Definition add32 (a b : Z) : Z := w32 (a + b).
Definition rotr (n x : Z) : Z := Z.lor (Z.shiftr x n) (w32 (Z.shiftl x (32 - n))).
Definition not32 (x : Z) : Z := Z.lxor x (2 ^ 32 - 1).

Definition Ch (x y z : Z) : Z := Z.lxor (Z.land x y) (Z.land (not32 x) z).
Definition Maj (x y z : Z) : Z :=
  Z.lxor (Z.lxor (Z.land x y) (Z.land x z)) (Z.land y z).
Definition Sigma0 (x : Z) : Z := Z.lxor (Z.lxor (rotr 2 x) (rotr 13 x)) (rotr 22 x).
Definition Sigma1 (x : Z) : Z := Z.lxor (Z.lxor (rotr 6 x) (rotr 11 x)) (rotr 25 x).
Definition sigma0 (x : Z) : Z := Z.lxor (Z.lxor (rotr 7 x) (rotr 18 x)) (Z.shiftr x 3).
Definition sigma1 (x : Z) : Z := Z.lxor (Z.lxor (rotr 17 x) (rotr 19 x)) (Z.shiftr x 10).

Definition K : list Z :=
  [
   1116352408; 1899447441; 3049323471; 3921009573; 961987163; 1508970993;
   2453635748; 2870763221; 3624381080; 310598401; 607225278; 1426881987;
   1925078388; 2162078206; 2614888103; 3248222580; 3835390401; 4022224774;
   264347078; 604807628; 770255983; 1249150122; 1555081692; 1996064986;
   2554220882; 2821834349; 2952996808; 3210313671; 3336571891; 3584528711;
   113926993; 338241895; 666307205; 773529912; 1294757372; 1396182291;
   1695183700; 1986661051; 2177026350; 2456956037; 2730485921; 2820302411;
   3259730800; 3345764771; 3516065817; 3600352804; 4094571909; 275423344;
   430227734; 506948616; 659060556; 883997877; 958139571; 1322822218;
   1537002063; 1747873779; 1955562222; 2024104815; 2227730452; 2361852424;
   2428436474; 2756734187; 3204031479; 3329325298
  ].

Definition H0 : list Z :=
  [
   1779033703; 3144134277; 1013904242; 2773480762; 1359893119; 2600822924;
   528734635; 1541459225
  ].

(** The message, the byte 0x80, zero bytes up to 56 modulo 64, and the
    length in bits as 8 bytes. *)
Definition pad (msg : list Z) : list Z :=
  let len := Z.of_nat (length msg) in
  let zeros := Z.to_nat ((55 - len) mod 64) in
  msg ++ [128] ++ repeat 0 zeros ++ map Z_of_byte (big_endian 8 (8 * len)).

(** The 32-bit words of a byte string, big-endian. *)
Fixpoint words (fuel : nat) (b : list Z) : list Z :=
  match fuel, b with
  | S k, b0 :: b1 :: b2 :: b3 :: r =>
      (((b0 * 256 + b1) * 256 + b2) * 256 + b3) :: words k r
  | _, _ => []
  end.

Definition st : Type := Z * Z * Z * Z * Z * Z * Z * Z.

(** One round: [w] holds the sixteen words of the schedule from the
    current one on. *)
Definition round (k : Z) (acc : st * list Z) : st * list Z :=
  let '((a, b, c, d, e, f, g, h), w) := acc in
  let wi := nth 0 w 0 in
  let t1 := add32 (add32 (add32 (add32 h (Sigma1 e)) (Ch e f g)) k) wi in
  let t2 := add32 (Sigma0 a) (Maj a b c) in
  let next :=
    add32 (add32 (add32 (sigma1 (nth 14 w 0)) (nth 9 w 0)) (sigma0 (nth 1 w 0))) wi in
  ((add32 t1 t2, a, b, c, add32 d t1, e, f, g), tail w ++ [next]).

Definition compress (hs : st) (block : list Z) : st :=
  let '(a, b, c, d, e, f, g, h) := hs in
  let '((a', b', c', d', e', f', g', h'), _) :=
    fold_left (fun acc k => round k acc) K (hs, block) in
  (add32 a a', add32 b b', add32 c c', add32 d d',
   add32 e e', add32 f f', add32 g g', add32 h h').

Fixpoint blocks (fuel : nat) (hs : st) (ws : list Z) : st :=
  match fuel with
  | O => hs
  | S k =>
      match ws with
      | [] => hs
      | _ => blocks k (compress hs (take 16 ws)) (drop 16 ws)
      end
  end.

Definition Sum256 (msg : Bytes) : Bytes :=
  let p := pad (map Z_of_byte msg) in
  let ws := words (length p) p in
  let init :=
    (nth 0 H0 0, nth 1 H0 0, nth 2 H0 0, nth 3 H0 0,
     nth 4 H0 0, nth 5 H0 0, nth 6 H0 0, nth 7 H0 0) in
  let '(a, b, c, d, e, f, g, h) := blocks (length ws) init ws in
  concat (map (big_endian 4) [a; b; c; d; e; f; g; h]).

End SHA256.

Definition DoubleSHA256 (b : Bytes) : Bytes := SHA256.Sum256 (SHA256.Sum256 b).

(** ** blocks/version1.go *)

(** Modelled from the spec: [transactions.Transaction_0_Coinbase] is declared
    outside the sources at hand; the spec gives it the miner address, a reward
    amount and the two fee fields the block fills in. *)
Record Transaction_0_Coinbase `{Ext : Externals} : Type := {
  cb_Address : Bytes;
  cb_Reward : Amount;
  TotalFeeUserPayed : Amount;
  TotalFeeMinerReceived : Amount;
}.

(** The methods of [interfaces.Transaction] the block calls, for the
    coinbase and for the other transaction types; their code is in the
    [transactions] package. *)
Class TransactionOps `{Ext : Externals} : Type := {
  OtherTransaction : Type;
  other_Type : OtherTransaction -> Z;
  other_Hash : OtherTransaction -> Bytes;
  other_GetFee : OtherTransaction -> Amount;
  other_GetFeeOfMinerRealReceived : OtherTransaction -> Amount;
  other_WriteInChainState : OtherTransaction -> ChainState -> exit goerror * ChainState;
  coinbase_Hash : Transaction_0_Coinbase -> Bytes;
  coinbase_GetFee : Transaction_0_Coinbase -> Amount;
  coinbase_GetFeeOfMinerRealReceived : Transaction_0_Coinbase -> Amount;
  coinbase_WriteInChainState :
    Transaction_0_Coinbase -> ChainState -> exit goerror * ChainState;
}.

Section Blocks.
Context `{Ext : Externals} `{Txs : !TransactionOps}.

(** A transaction as the block holds it: the constructor is the dynamic
    type, which the type assertion on [tx0] looks at. *)
Inductive BlockTransaction : Type :=
| TxCoinbase (c : Transaction_0_Coinbase)
| TxOther (t : OtherTransaction).

Definition tx_Type (tx : BlockTransaction) : Z :=
  match tx with
  | TxCoinbase _ => 0
  | TxOther t => other_Type t
  end.

Definition tx_Hash (tx : BlockTransaction) : Bytes :=
  match tx with
  | TxCoinbase c => coinbase_Hash c
  | TxOther t => other_Hash t
  end.

Definition tx_GetFee (tx : BlockTransaction) : Amount :=
  match tx with
  | TxCoinbase c => coinbase_GetFee c
  | TxOther t => other_GetFee t
  end.

Definition tx_GetFeeOfMinerRealReceived (tx : BlockTransaction) : Amount :=
  match tx with
  | TxCoinbase c => coinbase_GetFeeOfMinerRealReceived c
  | TxOther t => other_GetFeeOfMinerRealReceived t
  end.

Definition tx_WriteInChainState {R} (tx : BlockTransaction) : M R goerror :=
  fun s =>
    match (match tx with
           | TxCoinbase c => coinbase_WriteInChainState c s
           | TxOther t => other_WriteInChainState t s
           end) with
    | (Returned e, s') => (Next e, s')
    | (Panicked msg, s') => (Exit (Panicked msg), s')
    end.

Record Block_v1 : Type := {
  Height : Z;
  Timestamp : Z;
  PrevHash : Bytes;
  MrklRoot : Bytes;
  TransactionCount : Z;
  Nonce : Z;
  Difficulty : Z;
  WitnessStage : Z;
  Transactions : list BlockTransaction;
  (* cache data: nil until computed *)
  hash : option Bytes;
  originMark : string;
}.

Definition GetHeight (block : Block_v1) : Z := uint64 (Height block).

(** [Block_v1.WriteInChainState] writes the fee totals into the coinbase the
    block holds: the method's result is the error it returns together with
    the block's transactions as it leaves them. *)
Definition block_result : Type := list BlockTransaction * goerror.

(** [if e != nil { return e }] inside the block method. *)
Definition leave_if_err (txs : list BlockTransaction) (e : goerror)
    : M block_result unit :=
  match e with
  | Some _ => return_ (txs, e)
  | None => ret tt
  end.

(** The loop of [WriteInChainState] over the customer transactions, with
    the two fee totals it adds up. *)
Definition WriteInChainState_one (txs : list BlockTransaction) (blkhei : Z)
    (tx : BlockTransaction) (totals : Amount * Amount)
    : M block_result (Amount * Amount) :=
  let (totalfeeuserpay, totalfeeminergot) := totals in
  let txhx := tx_Hash tx in
  let* (ishav, e) := CheckTxHash txhx in
  leave_if_err txs e ;;
  return_if (ishav && negb (blkhei =? 63448))
    (txs, Some (Errorf "Tx <%s> is exist, block %d."
                  [ArgStr (hex_EncodeToString txhx)])) ;;
  let* e := ContainTxHash txhx blkhei in
  leave_if_err txs e ;;
  let* e := tx_WriteInChainState tx in
  leave_if_err txs e ;;
  let feepay := tx_GetFee tx in
  let feegot := tx_GetFeeOfMinerRealReceived tx in
  match Amount_Add totalfeeuserpay feepay with
  | inr e => return_ (txs, Some e)
  | inl totalfeeuserpay =>
      match Amount_Add totalfeeminergot feegot with
      | inr e => return_ (txs, Some e)
      | inl totalfeeminergot => ret (totalfeeuserpay, totalfeeminergot)
      end
  end.

Definition Block_v1_WriteInChainState (block : Block_v1) : M block_result block_result :=
  let txs := Transactions block in
  let blkhei := GetHeight block in
  let* (totalfeeuserpay, totalfeeminergot) :=
    for_each (tail txs) (NewEmptyAmount, NewEmptyAmount)
      (WriteInChainState_one txs blkhei) in
  match txs with
  | [] => return_ (txs, Some (Errorf "not find coinbase tx" []))
  | tx0 :: rest =>
      return_if (negb (tx_Type tx0 =? 0))
        (txs, Some (Errorf "transaction[0] not coinbase tx" [])) ;;
      match tx0 with
      | TxOther _ => return_ (txs, Some (Errorf "transaction[0] not coinbase tx" []))
      | TxCoinbase coinbase =>
          let coinbase :=
            {| cb_Address := cb_Address coinbase;
               cb_Reward := cb_Reward coinbase;
               TotalFeeUserPayed := totalfeeuserpay;
               TotalFeeMinerReceived := totalfeeminergot |} in
          let txs := TxCoinbase coinbase :: rest in
          let* e3 := tx_WriteInChainState (TxCoinbase coinbase) in
          leave_if_err txs e3 ;;
          ret (txs, None)
      end
  end.

(** *** The cached hash *)

(** Modelled from the spec: the [Serialize] methods of the header fields are
    in the [fields] package; the widths are those of the block wire format
    (spec, section 6). *)
Definition SerializeHead (block : Block_v1) : Bytes :=
  big_endian 1 1 ++ big_endian 8 (Height block) ++ big_endian 5 (Timestamp block)
  ++ PrevHash block ++ MrklRoot block ++ big_endian 4 (TransactionCount block).

Definition SerializeMeta (block : Block_v1) : Bytes :=
  big_endian 4 (Nonce block) ++ big_endian 4 (Difficulty block)
  ++ big_endian 2 (WitnessStage block).

Definition SerializeExcludeTransactions (block : Block_v1) : Bytes :=
  SerializeHead block ++ SerializeMeta block.

(** Modelled from the spec: [CalculateBlockHash] is declared outside the
    sources at hand; the spec gives the block hash as the double SHA-256 of
    header and meta. *)
Definition CalculateBlockHash (block : Block_v1) : Bytes :=
  DoubleSHA256 (SerializeExcludeTransactions block).

Definition set_hash (v : option Bytes) (block : Block_v1) : Block_v1 :=
  {| Height := Height block; Timestamp := Timestamp block;
     PrevHash := PrevHash block; MrklRoot := MrklRoot block;
     TransactionCount := TransactionCount block; Nonce := Nonce block;
     Difficulty := Difficulty block; WitnessStage := WitnessStage block;
     Transactions := Transactions block; hash := v;
     originMark := originMark block |}.

Definition hashFreshUnsafe (block : Block_v1) : Bytes * Block_v1 :=
  let h := CalculateBlockHash block in
  (h, set_hash (Some h) block).

(** [Hash]: the value returned and the block as the call leaves it. *)
Definition Hash (block : Block_v1) : Bytes * Block_v1 :=
  match hash block with
  | None => hashFreshUnsafe block
  | Some h => (h, block)
  end.

Definition HashFresh (block : Block_v1) : Bytes * Block_v1 := hashFreshUnsafe block.

Definition Fresh (block : Block_v1) : Block_v1 := set_hash None block.

Definition SetMrklRoot (root : Bytes) (block : Block_v1) : Block_v1 :=
  {| Height := Height block; Timestamp := Timestamp block;
     PrevHash := PrevHash block; MrklRoot := root;
     TransactionCount := TransactionCount block; Nonce := Nonce block;
     Difficulty := Difficulty block; WitnessStage := WitnessStage block;
     Transactions := Transactions block; hash := hash block;
     originMark := originMark block |}.

Definition SetNonce (n : Z) (block : Block_v1) : Block_v1 :=
  {| Height := Height block; Timestamp := Timestamp block;
     PrevHash := PrevHash block; MrklRoot := MrklRoot block;
     TransactionCount := TransactionCount block; Nonce := VarUint 4 n;
     Difficulty := Difficulty block; WitnessStage := WitnessStage block;
     Transactions := Transactions block; hash := hash block;
     originMark := originMark block |}.

(** [binary.BigEndian.Uint32] reads the first four bytes and panics on a
    shorter slice. *)
Definition SetNonceByte (nonce : Bytes) (block : Block_v1) : option Block_v1 :=
  if Z.of_nat (length nonce) <? 4 then None
  else Some (SetNonce (of_big_endian (take 4 nonce)) block).

Definition SetTrsList (trslist : list BlockTransaction) (block : Block_v1) : Block_v1 :=
  {| Height := Height block; Timestamp := Timestamp block;
     PrevHash := PrevHash block; MrklRoot := MrklRoot block;
     TransactionCount := TransactionCount block; Nonce := Nonce block;
     Difficulty := Difficulty block; WitnessStage := WitnessStage block;
     Transactions := trslist; hash := hash block;
     originMark := originMark block |}.

Definition AddTrs (trs : BlockTransaction) (block : Block_v1) : Block_v1 :=
  {| Height := Height block; Timestamp := Timestamp block;
     PrevHash := PrevHash block; MrklRoot := MrklRoot block;
     TransactionCount := VarUint 4 (TransactionCount block + 1);
     Nonce := Nonce block;
     Difficulty := Difficulty block; WitnessStage := WitnessStage block;
     Transactions := Transactions block ++ [trs]; hash := hash block;
     originMark := originMark block |}.

Definition AddTransaction (trs : BlockTransaction) (block : Block_v1) : Block_v1 :=
  AddTrs trs block.

Definition SetOriginMark (mark : string) (block : Block_v1) : Block_v1 :=
  {| Height := Height block; Timestamp := Timestamp block;
     PrevHash := PrevHash block; MrklRoot := MrklRoot block;
     TransactionCount := TransactionCount block; Nonce := Nonce block;
     Difficulty := Difficulty block; WitnessStage := WitnessStage block;
     Transactions := Transactions block; hash := hash block;
     originMark := mark |}.

(** The setters of the block, as one type. *)
Inductive mutation : Type :=
| MSetMrklRoot (root : Bytes)
| MSetNonce (n : Z)
| MSetTrsList (trslist : list BlockTransaction)
| MAddTrs (trs : BlockTransaction)
| MAddTransaction (trs : BlockTransaction)
| MSetOriginMark (mark : string).

Definition mutate (m : mutation) (block : Block_v1) : Block_v1 :=
  match m with
  | MSetMrklRoot root => SetMrklRoot root block
  | MSetNonce n => SetNonce n block
  | MSetTrsList l => SetTrsList l block
  | MAddTrs t => AddTrs t block
  | MAddTransaction t => AddTransaction t block
  | MSetOriginMark mark => SetOriginMark mark block
  end.

End Blocks.

(** ** A reference instance, to run the code on explicit inputs

    Amounts are exact integers, the number of units [10^0]: an amount built
    at unit [u] from [n] is [n * 10^u], so that the [(1000 + 5P) * L] the
    ransom builds at unit 245 is [L] at unit 248 plus 0.5 percent per
    period, as the comment in [Action_16.WriteinChainState] has it.  The
    oracle is a stand-in for [x16rs]: the literal of a candidate is spelled
    by the first six bytes of its nonce after ten zeros, and every digest
    meets the difficulty. *)

Definition diamond_alphabet : string := "WTYUIAHXVMEKBSZN".

Fixpoint in_alphabet (c : ascii) (alphabet : string) : bool :=
  match alphabet with
  | EmptyString => false
  | String a r => Ascii.eqb c a || in_alphabet c r
  end.

Fixpoint all_in_alphabet (s : string) : bool :=
  match s with
  | EmptyString => true
  | String c r => in_alphabet c diamond_alphabet && all_in_alphabet r
  end.

Definition reference_IsDiamondHashResultString (s : string) : string * bool :=
  let lit := String.substring 10 6 s in
  (lit,
   String.eqb (String.substring 0 10 s) "0000000000"
   && (String.length s =? 16)%nat
   && all_in_alphabet lit).

#[global] Instance reference_externals : Externals := {|
  Amount := Z;
  NewEmptyAmount := 0;
  NewAmountByUnit248 n := n * 10 ^ 248;
  NewAmountByBigIntWithUnit n u := inl (n * 10 ^ u);
  Amount_Equal := Z.eqb;
  Amount_LessThan := Z.ltb;
  Amount_Add a b := inl (a + b);
  Amount_Sub a b := inl (a - b);
  Amount_ToMei a := float64 (a / 10 ^ 248);
  Amount_ToFinString a := string_of_Z a;
  Address_ToReadable a := hex_EncodeToString a;
  DiamondStatusNormal := 1;
  DiamondStatusLendingSystem := 2;
  x16rs_Diamond number prevhash nonce address :=
    (SHA256.Sum256 (big_endian 4 number ++ prevhash ++ nonce ++ address),
     ("0000000000" ++ string_of_Bytes (take 6 nonce))%string);
  x16rs_IsDiamondHashResultString := reference_IsDiamondHashResultString;
  x16rs_CheckDiamondDifficulty _ _ := true;
|}.

(** A customer transaction of the reference instance: its hash, fees and
    address are given, and it walks its actions under the development
    mark. *)
Record reference_transaction : Type := {
  rt_hash : Bytes;
  rt_fee : Z;
  rt_fee_got : Z;
  rt_actions : list (@Action reference_externals);
}.

(** The coinbase of the reference instance pays the reward and the fees the
    miner received to the miner. *)
Definition reference_coinbase_write (c : @Transaction_0_Coinbase reference_externals)
    (s : @ChainState reference_externals)
    : exit goerror * @ChainState reference_externals :=
  call (DoAddBalanceFromChainState (cb_Address c)
          (cb_Reward c + TotalFeeMinerReceived c : @Amount reference_externals)) s.

#[global] Instance reference_transactions : @TransactionOps reference_externals := {|
  OtherTransaction := reference_transaction;
  other_Type _ := 2;
  other_Hash := rt_hash;
  other_GetFee := rt_fee;
  other_GetFeeOfMinerRealReceived := rt_fee_got;
  other_WriteInChainState t := apply_actions true (rt_actions t);
  coinbase_Hash c := DoubleSHA256 (cb_Address c);
  coinbase_GetFee _ := 0;
  coinbase_GetFeeOfMinerRealReceived _ := 0;
  coinbase_WriteInChainState := reference_coinbase_write;
|}.

(** ** Definitions the statements use *)

(** The ransom schedule in the words of the specification: the base amount
    [(1000 + 5P) * L], less [5 * k * L] past the public height, where [k] is
    the number of whole periods past it, capped at [2P]. *)
Definition spec_valid_ransom (B P L H0 H : Z) : Z :=
  let R0 := (1000 + 5 * P) * L in
  let public_height := H0 + 2 * P * B in
  if public_height <? H then
    let k := Z.min ((H - public_height) / B) (2 * P) in
    R0 - 5 * k * L
  else R0.

Section Predicates.
Context `{Ext : Externals}.

(** A body preserves an observation [f] of the chain state when no run of
    it, to the end or to a [return] or [panic], changes [f]. *)
Definition preserves {X R A} (f : ChainState -> X) (m : M R A) : Prop :=
  forall s, f (snd (m s)) = f s.

(** [wp m Q s]: the run of [m] from [s] ends, by [Next] or by [Exit], in a
    result and a state that satisfy [Q]. *)
Definition wp {R A} (m : M R A) (Q : step R A -> ChainState -> Prop)
    (s : ChainState) : Prop :=
  Q (fst (m s)) (snd (m s)).

Definition to_exit {R} (r : step R R) : exit R :=
  match r with
  | Next r => Returned r
  | Exit x => x
  end.

(** The smelt record and the state a successful [Action_4] leaves. *)
Definition Action_4_smelt (act : Action_4_DiamondCreate) (blkhei : Z) : DiamondSmelt :=
  {| smelt_Diamond := a4_Diamond act;
     smelt_Number := a4_Number act;
     ContainBlockHeight := VarUint 5 blkhei;
     ContainBlockHash := [];
     PrevContainBlockHash := a4_PrevHash act;
     MinerAddress := a4_Address act;
     smelt_Nonce := a4_Nonce act;
     AverageBidBurnPrice := 0 |}.

Definition Action_4_minted (act : Action_4_DiamondCreate) (s : ChainState) : ChainState :=
  let smelt := Action_4_smelt act (pending_block_height s) in
  set_pending_submit_store_diamond (Some smelt)
    (set_lastest_diamond (Some smelt)
       (set_diamonds
          (<[a4_Diamond act := {| Status := 0; Address := a4_Address act |}]>
             (diamonds s)) s)).

Definition is_Act4 (a : Action) : bool :=
  match a with
  | Act4 _ => true
  | _ => false
  end.

Fixpoint count_Act4 (l : list Action) : nat :=
  match l with
  | [] => 0
  | a :: r => ((if is_Act4 a then 1 else 0) + count_Act4 r)%nat
  end.

(** The state after the mortgage loop of action 15 has marked [d]. *)
Definition mortgaged (d : Bytes) (item : Diamond) (s : ChainState) : ChainState :=
  set_diamonds
    (<[d := {| Status := DiamondStatusLendingSystem; Address := Address item |}]>
       (diamonds s)) s.

(** The [totalLoanHAC] the mortgage loop of action 15 adds up in [int64]
    over the diamonds [l], from [acc], when the block store serves every
    read. *)
Fixpoint loan_sum (bs : BlockStore) (l : list Bytes) (acc : Z) : option Z :=
  match l with
  | [] => Some acc
  | d :: r =>
      match bs_diamond bs !! d with
      | Some (Readable smelt) =>
          loan_sum bs r (int64 (acc + int64 (AverageBidBurnPrice smelt)))
      | _ => None
      end
  end.

(** The price the block store holds for a diamond, and the sum of the
    prices of a list of diamonds. *)
Definition price_of (bs : BlockStore) (d : Bytes) : Z :=
  match bs_diamond bs !! d with
  | Some (Readable smelt) => AverageBidBurnPrice smelt
  | _ => 0
  end.

Definition price_sum (bs : BlockStore) (l : list Bytes) : Z :=
  foldr (fun d a => price_of bs d + a) 0 l.

(** The contract a successful action 15 persists. *)
Definition Action_15_contract (act : Action_15_DiamondsSystemLendingCreate)
    (trs : Transaction) (height total : Z) : DiamondLending :=
  {| IsRansomed := false;
     CreateBlockHeight := VarUint 5 height;
     MainAddress := GetAddress trs;
     MortgageDiamondList := a15_MortgageDiamondList act;
     LoanTotalAmountMei := VarUint 4 total;
     BorrowPeriod := a15_BorrowPeriod act |}.

(** [CheckTxHash] as a function of the state. *)
Definition recorded (s : ChainState) (hx : Bytes) : bool :=
  existsb (fun p => bytes_Equal (fst p) hx) (tx_hashes s).

Context `{Txs : !TransactionOps}.

(** The block method returned [nil]. *)
Definition block_succeeded (r : exit block_result * ChainState) : bool :=
  match r with
  | (Returned (_, None), _) => true
  | _ => false
  end.

(** The transactions of the [transactions] package leave the recorded
    hashes alone. *)
Definition transactions_keep_tx_hashes : Prop :=
  (forall t s, tx_hashes (snd (other_WriteInChainState t s)) = tx_hashes s)
  /\ (forall c s, tx_hashes (snd (coinbase_WriteInChainState c s)) = tx_hashes s).

End Predicates.

(** An [Action_4] as [new(Action_4_DiamondCreate)] gives it. *)
Definition Action_4_zero : Action_4_DiamondCreate :=
  {| a4_Diamond := []; a4_Number := 0; a4_PrevHash := []; a4_Nonce := [];
     a4_Address := []; a4_belone_trs := None |}.

(** ** Explicit inputs, over the reference instance *)

Definition alice : Bytes := "000"%byte :: repeat "001"%byte 20.
Definition bob : Bytes := "000"%byte :: repeat "002"%byte 20.
Definition diamond_1 : Bytes := Bytes_of_string "WTYUIA".
Definition diamond_2 : Bytes := Bytes_of_string "HXVMEK".
Definition lending_1 : Bytes := repeat "001"%byte 14.

Definition empty_block_store : BlockStore :=
  {| bs_diamond := ∅; bs_diamond_by_number := ∅ |}.

(** A contract of one diamond, 300 mei over one period, made at height 100. *)
Definition contract_1 : DiamondLending :=
  {| IsRansomed := false;
     CreateBlockHeight := 100;
     MainAddress := alice;
     MortgageDiamondList := {| Count := 1; Diamonds := [diamond_1] |};
     LoanTotalAmountMei := 300;
     BorrowPeriod := 1 |}.

(** Height 250, one period past the public height 200 of [contract_1]. *)
Definition state_mortgaged : @ChainState reference_externals :=
  {| pending_block_height := 250;
     tx_hashes := [];
     diamonds := {[ diamond_1 := {| Status := 2; Address := alice |} ]};
     lastest_diamond := None;
     pending_submit_store_diamond := None;
     diamond_lendings := {[ lending_1 := contract_1 ]};
     total_supply :=
       {| CurrentMortgageCount := 1; CumulationLoanHacAmount := 300;
          CumulationRansomHacAmount := 0 |};
     block_store := Some empty_block_store;
     hac_balance := {[ alice := 1000 * 10 ^ 248 ]};
     diamond_balance := {[ alice := 5 ]} |}.

Definition ransom_1 : @Action_16_DiamondsSystemLendingRansom reference_externals :=
  {| a16_LendingID := lending_1;
     a16_RansomAmount := 301500 * 10 ^ 245;
     a16_belong_trs := Some {| GetAddress := alice |} |}.

Definition ransom_low : @Action_16_DiamondsSystemLendingRansom reference_externals :=
  {| a16_LendingID := lending_1;
     a16_RansomAmount := 299999 * 10 ^ 245;
     a16_belong_trs := Some {| GetAddress := alice |} |}.

Definition after_ransom : @ChainState reference_externals :=
  snd (call (Action_16_WriteinChainState true ransom_1) state_mortgaged).

Definition after_revert : @ChainState reference_externals :=
  snd (call (Action_16_RecoverChainState true ransom_1) after_ransom).

(** Mining: diamond number 1 was minted in a block of hash [prev_hash_7];
    [mint_2] is a candidate for number 2 whose nonce spells [diamond_1]. *)
Definition prev_hash_7 : Bytes := repeat "007"%byte 32.

Definition smelt_1 : DiamondSmelt :=
  {| smelt_Diamond := diamond_2;
     smelt_Number := 1;
     ContainBlockHeight := 5;
     ContainBlockHash := prev_hash_7;
     PrevContainBlockHash := repeat "000"%byte 32;
     MinerAddress := bob;
     smelt_Nonce := diamond_2 ++ ["000"%byte; "000"%byte];
     AverageBidBurnPrice := 0 |}.

Definition mining_state (height : Z) : @ChainState reference_externals :=
  {| pending_block_height := height;
     tx_hashes := [];
     diamonds := {[ diamond_2 := {| Status := 0; Address := bob |} ]};
     lastest_diamond := Some smelt_1;
     pending_submit_store_diamond := None;
     diamond_lendings := ∅;
     total_supply :=
       {| CurrentMortgageCount := 0; CumulationLoanHacAmount := 0;
          CumulationRansomHacAmount := 0 |};
     block_store := Some empty_block_store;
     hac_balance := ∅;
     diamond_balance := {[ bob := 1 ]} |}.

Definition mint_2 : Action_4_DiamondCreate :=
  {| a4_Diamond := diamond_1;
     a4_Number := 2;
     a4_PrevHash := prev_hash_7;
     a4_Nonce := diamond_1 ++ ["000"%byte; "000"%byte];
     a4_Address := alice;
     a4_belone_trs := None |}.

Definition after_mint : @ChainState reference_externals :=
  snd (call (Action_4_WriteinChainState mint_2) (mining_state 10)).

(** Lending: two diamonds of [alice]; the block store serves the first and
    fails the read of the second. *)
Definition smelt_priced (d : Bytes) (price : Z) : DiamondSmelt :=
  {| smelt_Diamond := d;
     smelt_Number := 1;
     ContainBlockHeight := 5;
     ContainBlockHash := prev_hash_7;
     PrevContainBlockHash := repeat "000"%byte 32;
     MinerAddress := alice;
     smelt_Nonce := d ++ ["000"%byte; "000"%byte];
     AverageBidBurnPrice := price |}.

Definition store_error : error := Errorf "leveldb: closed" [].

Definition state_unreadable : @ChainState reference_externals :=
  {| pending_block_height := 100;
     tx_hashes := [];
     diamonds :=
       {[ diamond_1 := {| Status := 1; Address := alice |};
          diamond_2 := {| Status := 1; Address := alice |} ]};
     lastest_diamond := None;
     pending_submit_store_diamond := None;
     diamond_lendings := ∅;
     total_supply :=
       {| CurrentMortgageCount := 0; CumulationLoanHacAmount := 0;
          CumulationRansomHacAmount := 0 |};
     block_store :=
       Some {| bs_diamond :=
                 {[ diamond_1 := Readable (smelt_priced diamond_1 100);
                    diamond_2 := Unreadable store_error ]};
               bs_diamond_by_number := ∅ |};
     hac_balance := ∅;
     diamond_balance := {[ alice := 2 ]} |}.

Definition create_1 : @Action_15_DiamondsSystemLendingCreate reference_externals :=
  {| a15_LendingID := lending_1;
     a15_MortgageDiamondList := {| Count := 2; Diamonds := [diamond_1; diamond_2] |};
     a15_LoanTotalAmount := 100 * 10 ^ 248;
     a15_BorrowPeriod := 1;
     a15_belong_trs := Some {| GetAddress := alice |} |}.

(** A create of three diamonds: the first is served at price 100, the read
    of the second fails, the third does not exist; the loan asked for is
    5 mei. *)
Definition diamond_absent : Bytes := Bytes_of_string "NNNNNN".

Definition create_bad : @Action_15_DiamondsSystemLendingCreate reference_externals :=
  {| a15_LendingID := lending_1;
     a15_MortgageDiamondList :=
       {| Count := 3; Diamonds := [diamond_1; diamond_2; diamond_absent] |};
     a15_LoanTotalAmount := 5 * 10 ^ 248;
     a15_BorrowPeriod := 1;
     a15_belong_trs := Some {| GetAddress := alice |} |}.

Definition after_create_bad : @ChainState reference_externals :=
  snd (call (Action_15_WriteinChainState true create_bad) state_unreadable).

(** Blocks. *)
Definition tx_a : reference_transaction :=
  {| rt_hash := repeat "010"%byte 32; rt_fee := 1; rt_fee_got := 1; rt_actions := [] |}.

Definition coinbase_1 : @Transaction_0_Coinbase reference_externals :=
  {| cb_Address := bob; cb_Reward := 1;
     TotalFeeUserPayed := 0; TotalFeeMinerReceived := 0 |}.

Definition customer (t : reference_transaction)
    : @BlockTransaction reference_externals reference_transactions :=
  @TxOther reference_externals reference_transactions t.

Definition miner (c : @Transaction_0_Coinbase reference_externals)
    : @BlockTransaction reference_externals reference_transactions :=
  @TxCoinbase reference_externals reference_transactions c.

Definition block_at (height : Z)
    (txs : list (@BlockTransaction reference_externals reference_transactions))
    : @Block_v1 reference_externals reference_transactions :=
  {| Height := height;
     Timestamp := 0;
     PrevHash := repeat "000"%byte 32;
     MrklRoot := repeat "000"%byte 32;
     TransactionCount := Z.of_nat (length txs);
     Nonce := 0;
     Difficulty := 0;
     WitnessStage := 0;
     Transactions := txs;
     hash := None;
     originMark := "" |}.

(** A state in which [tx_a] is recorded at height 3. *)
Definition state_recorded : @ChainState reference_externals :=
  {| pending_block_height := 7;
     tx_hashes := [(rt_hash tx_a, 3)];
     diamonds := ∅;
     lastest_diamond := None;
     pending_submit_store_diamond := None;
     diamond_lendings := ∅;
     total_supply :=
       {| CurrentMortgageCount := 0; CumulationLoanHacAmount := 0;
          CumulationRansomHacAmount := 0 |};
     block_store := Some empty_block_store;
     hac_balance := ∅;
     diamond_balance := ∅ |}.

Definition block_0 : @Block_v1 reference_externals reference_transactions :=
  block_at 1 [].

(** A block at height 7 that holds [tx_a]. *)
Definition block_7 : @Block_v1 reference_externals reference_transactions :=
  block_at 7 [miner coinbase_1; customer tx_a].

(** The same block body at the grandfathered height. *)
Definition block_63448 : @Block_v1 reference_externals reference_transactions :=
  block_at 63448 [miner coinbase_1; customer tx_a].

(** The contract of the interest schedule of the specification: 1000 mei
    over 10 periods, made at height 0. *)
Definition contract_10 : DiamondLending :=
  {| IsRansomed := false;
     CreateBlockHeight := 0;
     MainAddress := alice;
     MortgageDiamondList := {| Count := 1; Diamonds := [diamond_1] |};
     LoanTotalAmountMei := 1000;
     BorrowPeriod := 10 |}.
(** ** More of [actions/diamond.go]: wire form

    Modelled from the spec: the [Size] and [Serialize] methods of the
    [fields] types are in the [fields] package.  A byte-slice field of
    width [n] has size [n] and is written as it is held; an integer field of
    width [n] is written big-endian in [n] bytes. *)

Definition Action_4_Size (elm : Action_4_DiamondCreate) : Z :=
  uint32 (2 + 6 + 3 + 32 + 8 + 21).

Definition Action_4_Serialize (elm : Action_4_DiamondCreate) : Bytes * goerror :=
  let kindByte := big_endian 2 4 in
  let diamondBytes := a4_Diamond elm in
  let numberBytes := big_endian 3 (a4_Number elm) in
  let prevBytes := a4_PrevHash elm in
  let nonceBytes := a4_Nonce elm in
  let addrBytes := a4_Address elm in
  (kindByte ++ diamondBytes ++ numberBytes ++ prevBytes ++ nonceBytes ++ addrBytes,
   None).

Definition Action_5_Size (elm : Action_5_DiamondTransfer) : Z :=
  uint32 (2 + 6 + 21).

Definition Action_5_Serialize (elm : Action_5_DiamondTransfer) : Bytes * goerror :=
  let kindByte := big_endian 2 5 in
  let diamondBytes := a5_Diamond elm in
  let addrBytes := a5_Address elm in
  (kindByte ++ diamondBytes ++ addrBytes, None).

Definition Action_6_Size (elm : Action_6_OutfeeQuantityDiamondTransfer) : Z :=
  uint32 (2 + 21 + 21 + 1 + uint32 (uint32 (Z.of_nat (length (a6_Diamonds elm))) * 6)).

Definition Action_6_Serialize (elm : Action_6_OutfeeQuantityDiamondTransfer)
    : Bytes * goerror :=
  if negb (a6_DiamondCount elm =? Z.of_nat (length (a6_Diamonds elm))) then
    ([], Some (Errorf "diamonds number quantity count error" []))
  else
    let kindByte := big_endian 2 6 in
    let addr1Bytes := a6_FromAddress elm in
    let addr2Bytes := a6_ToAddress elm in
    let countBytes := big_endian 1 (a6_DiamondCount elm) in
    (kindByte ++ addr1Bytes ++ addr2Bytes ++ countBytes ++ concat (a6_Diamonds elm),
     None).

(** [RequestSignAddresses]: actions 4 and 5 ask for no signature, action 6
    for that of the sender. *)
Definition Action_4_RequestSignAddresses (elm : Action_4_DiamondCreate) : list Bytes := [].
Definition Action_5_RequestSignAddresses (elm : Action_5_DiamondTransfer) : list Bytes := [].
Definition Action_6_RequestSignAddresses (elm : Action_6_OutfeeQuantityDiamondTransfer)
    : list Bytes :=
  [a6_FromAddress elm].

(** [SetBelongTransaction]. *)
Definition Action_5_SetBelongTransaction (t : option Transaction)
    (elm : Action_5_DiamondTransfer) : Action_5_DiamondTransfer :=
  {| a5_Diamond := a5_Diamond elm; a5_Address := a5_Address elm; a5_trs := t |}.

Definition Action_6_SetBelongTransaction (t : option Transaction)
    (elm : Action_6_OutfeeQuantityDiamondTransfer)
    : Action_6_OutfeeQuantityDiamondTransfer :=
  {| a6_FromAddress := a6_FromAddress elm; a6_ToAddress := a6_ToAddress elm;
     a6_DiamondCount := a6_DiamondCount elm; a6_Diamonds := a6_Diamonds elm;
     a6_trs := t |}.

(** ** Definitions the further statements use *)

Section TransferPredicates.
Context `{Ext : Externals}.

(** The state a successful [Action_5] leaves: the diamond under the
    receiver's address, its status as it was. *)
Definition Action_5_transferred (act : Action_5_DiamondTransfer) (item : Diamond)
    (s : ChainState) : ChainState :=
  set_diamonds
    (<[a5_Diamond act := {| Status := Status item; Address := a5_Address act |}]>
       (diamonds s)) s.

(** The diamonds of [m] with [f] applied to each diamond of [l] that [m]
    holds, in the order of the list. *)
Definition update_all (f : Diamond -> Diamond) (l : list Bytes) (m : gmap Bytes Diamond)
    : gmap Bytes Diamond :=
  foldl (fun m d =>
           match m !! d with
           | Some item => <[d := f item]> m
           | None => m
           end) m l.

(** The diamonds of [m] with the owner of each diamond of [l] set to
    [addr]. *)
Definition hand_over (addr : Bytes) (l : list Bytes) (m : gmap Bytes Diamond)
    : gmap Bytes Diamond :=
  update_all (fun item => {| Status := Status item; Address := addr |}) l m.

End TransferPredicates.

Section BatchTransferPredicates.
Context `{Ext : Externals}.

(** The loop of [Action_6.WriteinChainState] over the diamonds [l]. *)
Definition Action_6_transfer_loop (act : Action_6_OutfeeQuantityDiamondTransfer)
    (l : list Bytes) : M goerror unit :=
  for_each l tt (fun diamond _ =>
    let* diaitem := state_Diamond diamond in
    match diaitem with
    | None =>
        return_ (Some (Errorf "Quantity Diamond <%s> not exist."
                         [ArgStr (string_of_Bytes diamond)]))
    | Some item =>
        return_if (negb (bytes_Equal (Address item) (a6_FromAddress act)))
          (Some (Errorf "Diamond <%s> not belong to address '%s'"
                   [ArgStr (string_of_Bytes diamond);
                    ArgStr (Address_ToReadable (a6_FromAddress act))])) ;;
        let item := {| Status := Status item; Address := a6_ToAddress act |} in
        let* _ := DiamondSet diamond item in
        ret tt
    end).

(** The loop of [Action_6.RecoverChainState] over the diamonds [l]. *)
Definition Action_6_recover_loop (act : Action_6_OutfeeQuantityDiamondTransfer)
    (l : list Bytes) : M goerror unit :=
  for_each l tt (fun diamond _ =>
    let* diaitem := state_Diamond diamond in
    match diaitem with
    | None =>
        return_ (Some (Errorf "Diamond <%s> not exist."
                         [ArgStr (string_of_Bytes diamond)]))
    | Some item =>
        let item := {| Status := Status item; Address := a6_FromAddress act |} in
        let* err := DiamondSet diamond item in
        return_if_err err
    end).

(** Every diamond of [l] is in [m] under the address [addr]. *)
Definition owned_by (addr : Bytes) (m : gmap Bytes Diamond) (l : list Bytes) : Prop :=
  forall d, d ∈ l -> exists item, m !! d = Some item /\ Address item = addr.

End BatchTransferPredicates.

Section LendingPredicates.
Context `{Ext : Externals}.

(** The diamonds of [m] with each diamond of [l] set to the lending
    status, and with each set to the normal status. *)
Definition mortgage_all (l : list Bytes) (m : gmap Bytes Diamond) : gmap Bytes Diamond :=
  update_all
    (fun item => {| Status := DiamondStatusLendingSystem; Address := Address item |}) l m.

Definition release_all (l : list Bytes) (m : gmap Bytes Diamond) : gmap Bytes Diamond :=
  update_all
    (fun item => {| Status := DiamondStatusNormal; Address := Address item |}) l m.

(** The state a successful [Action_15] leaves, for the sum [total] of the
    prices and the balance [newbal] the loan adds up to. *)
Definition Action_15_lent (act : Action_15_DiamondsSystemLendingCreate)
    (trs : Transaction) (total : Z) (newbal : Amount) (s : ChainState) : ChainState :=
  let feeAddr := GetAddress trs in
  let dianum := Count (a15_MortgageDiamondList act) in
  set_total_supply
    (DoAdd
       (DoAdd (total_supply s)
          TotalSupplyStoreTypeOfSystemLendingDiamondCurrentMortgageCount
          (float64 dianum))
       TotalSupplyStoreTypeOfSystemLendingDiamondCumulationLoanHacAmount
       (Amount_ToMei (a15_LoanTotalAmount act)))
    (set_diamond_lendings
       (<[a15_LendingID act := Action_15_contract act trs (pending_block_height s) total]>
          (diamond_lendings s))
       (set_hac_balance (<[feeAddr := newbal]> (hac_balance s))
          (set_diamond_balance
             (<[feeAddr := default 0 (diamond_balance s !! feeAddr) - VarUint 3 dianum]>
                (diamond_balance s))
             (set_diamonds
                (mortgage_all (Diamonds (a15_MortgageDiamondList act)) (diamonds s)) s)))).

(** The loop of [Action_16.WriteinChainState] over the diamonds [l] of the
    contract, for the redeemer [feeAddr]. *)
Definition Action_16_ransom_loop (feeAddr : Bytes) (l : list Bytes) : M goerror unit :=
  for_each l tt (fun diamond _ =>
    let* diaitem := state_Diamond diamond in
    match diaitem with
    | None =>
        return_ (Some (Errorf "diamond <%s> not find."
                         [ArgStr (string_of_Bytes diamond)]))
    | Some diaitem =>
        return_if (negb (Status diaitem =? DiamondStatusLendingSystem))
          (Some (Errorf "diamond <%s> status is not [stores.DiamondStatusLendingSystem]."
                   [ArgStr (string_of_Bytes diamond)])) ;;
        let diaitem := {| Status := DiamondStatusNormal; Address := feeAddr |} in
        let* e5 := DiamondSet diamond diaitem in
        return_if_err e5
    end).

(** The diamonds of [m] with each diamond of [l] normal and under
    [feeAddr]. *)
Definition redeem_all (feeAddr : Bytes) (l : list Bytes) (m : gmap Bytes Diamond)
    : gmap Bytes Diamond :=
  foldl (fun m d => <[d := {| Status := DiamondStatusNormal; Address := feeAddr |}]> m) m l.

(** The contract as a successful [Action_16] stores it. *)
Definition ransomed (c : DiamondLending) : DiamondLending :=
  {| IsRansomed := true;
     CreateBlockHeight := CreateBlockHeight c;
     MainAddress := MainAddress c;
     MortgageDiamondList := MortgageDiamondList c;
     LoanTotalAmountMei := LoanTotalAmountMei c;
     BorrowPeriod := BorrowPeriod c |}.

(** The state a successful [Action_16] leaves, for the contract [c] it
    found and the balance [newbal] the ransom amount adds up to. *)
Definition Action_16_ransomed (act : Action_16_DiamondsSystemLendingRansom)
    (trs : Transaction) (c : DiamondLending) (newbal : Amount) (s : ChainState)
    : ChainState :=
  let feeAddr := GetAddress trs in
  let dianum := Count (MortgageDiamondList c) in
  set_total_supply
    (DoAdd
       (DoSub (total_supply s)
          TotalSupplyStoreTypeOfSystemLendingDiamondCurrentMortgageCount
          (float64 dianum))
       TotalSupplyStoreTypeOfSystemLendingDiamondCumulationRansomHacAmount
       (Amount_ToMei (a16_RansomAmount act)))
    (set_diamond_lendings (<[a16_LendingID act := ransomed c]> (diamond_lendings s))
       (set_diamond_balance
          (<[feeAddr := default 0 (diamond_balance s !! feeAddr) - VarUint 3 dianum]>
             (diamond_balance s))
          (set_diamonds
             (redeem_all feeAddr (Diamonds (MortgageDiamondList c)) (diamonds s))
             (set_hac_balance (<[feeAddr := newbal]> (hac_balance s)) s)))).

End LendingPredicates.

(** ** More of [blocks/version1.go] *)

Section BlockMethods.
Context `{Ext : Externals} `{Txs : !TransactionOps}.

(** Modelled from the spec: [fields.EmptyZeroBytes32] is declared in the
    [fields] package; a hash is 32 bytes. *)
Definition EmptyZeroBytes32 : Bytes := repeat "000"%byte 32.

(** [NewEmptyBlockV1]; [curt] is what [time.Now().Unix()] returns. *)
Definition NewEmptyBlockV1 (curt : Z) : Block_v1 :=
  {| Height := 0;
     Timestamp := VarUint 5 curt;
     PrevHash := EmptyZeroBytes32;
     MrklRoot := EmptyZeroBytes32;
     TransactionCount := 0;
     Nonce := 0;
     Difficulty := 0;
     WitnessStage := 0;
     Transactions := [];
     hash := None;
     originMark := "" |}.

Definition GetTimestamp (block : Block_v1) : Z := uint64 (Timestamp block).
Definition GetPrevHash (block : Block_v1) : Bytes := PrevHash block.
Definition GetDifficulty (block : Block_v1) : Z := uint32 (Difficulty block).
Definition GetWitnessStage (block : Block_v1) : Z := wrap 16 (WitnessStage block).
Definition GetNonce (block : Block_v1) : Z := uint32 (Nonce block).
Definition GetMrklRoot (block : Block_v1) : Bytes := MrklRoot block.
Definition GetTransactionCount (block : Block_v1) : Z := uint32 (TransactionCount block).

(** [binary.BigEndian.PutUint32] into four bytes. *)
Definition GetNonceByte (block : Block_v1) : Bytes :=
  big_endian 4 (uint32 (Nonce block)).

(** The count less the coinbase, in [uint32]. *)
Definition GetCustomerTransactionCount (block : Block_v1) : Z :=
  uint32 (uint32 (TransactionCount block) - 1).

Definition OriginMark (block : Block_v1) : string :=
  if String.eqb (originMark block) "" then "sync" else originMark block.

(** [NewEmptyBlockVersion1]: the new block, and the previous head as the
    call to its [Hash] leaves it; [None] is a [nil] head. *)
Definition NewEmptyBlockVersion1 (curt : Z) (prevBlockHead : option Block_v1)
    : Block_v1 * option Block_v1 :=
  let empty := NewEmptyBlockV1 curt in
  match prevBlockHead with
  | None => (empty, None)
  | Some prev =>
      let (h, prev) := Hash prev in
      ({| Height := VarUint 8 (uint64 (GetHeight prev + 1));
          Timestamp := Timestamp empty;
          PrevHash := h;
          MrklRoot := MrklRoot empty;
          TransactionCount := TransactionCount empty;
          Nonce := Nonce empty;
          Difficulty := VarUint 4 (GetDifficulty prev);
          WitnessStage := WitnessStage empty;
          Transactions := Transactions empty;
          hash := hash empty;
          originMark := originMark empty |},
       Some prev)
  end.

(** [CopyHeadMetaForMining]: head and meta of [block] on a new empty
    block; [append([]byte{}, b...)] is a copy of [b]. *)
Definition CopyHeadMetaForMining (curt : Z) (block : Block_v1) : Block_v1 :=
  let newblock := fst (NewEmptyBlockVersion1 curt None) in
  {| Height := Height block;
     Timestamp := Timestamp block;
     PrevHash := [] ++ PrevHash block;
     MrklRoot := [] ++ MrklRoot block;
     TransactionCount := TransactionCount block;
     Nonce := Nonce block;
     Difficulty := Difficulty block;
     WitnessStage := WitnessStage block;
     Transactions := Transactions newblock;
     hash := hash newblock;
     originMark := originMark newblock |}.

Definition GetTransactions (block : Block_v1) : list BlockTransaction :=
  Transactions block.

(** The stores [trsset[i] = v] of [SetTransactions], for the elements of
    [trslist] from index [i] on; [None] is the panic of an index out of
    range. *)
Fixpoint store_from (i : nat) (trslist : list BlockTransaction)
    (trsset : list (option BlockTransaction)) : option (list (option BlockTransaction)) :=
  match trslist with
  | [] => Some trsset
  | v :: r =>
      if (i <? length trsset)%nat then store_from (S i) r (<[i := Some v]> trsset)
      else None
  end.

(** [SetTransactions]: the slice it leaves in [block.Transactions], made
    with the length of the list the block holds, a [nil] entry as [None];
    [None] when it panics. *)
Definition SetTransactions (trslist : list BlockTransaction) (block : Block_v1)
    : option (list (option BlockTransaction)) :=
  let trsset := replicate (length (Transactions block)) None in
  store_from 0 trslist trsset.

(** [CopyForMining]: the copy of head and meta and the slice
    [SetTransactions] leaves in it; [None] when it panics.  [Copy] is the
    [Copy] method of the first transaction. *)
Definition CopyForMining (Copy : BlockTransaction -> BlockTransaction) (curt : Z)
    (block : Block_v1) : option (Block_v1 * list (option BlockTransaction)) :=
  let newblock := CopyHeadMetaForMining curt block in
  let trs := GetTransactions block in
  let newtrs :=
    match trs with
    | [] => trs
    | tx0 :: rest => [Copy tx0] ++ rest
    end in
  match SetTransactions newtrs newblock with
  | Some trsset => Some (newblock, trsset)
  | None => None
  end.

(** [VerifyNeedSigns]; [VerifyAllNeedSigns] is the method of the
    transactions it calls. *)
Fixpoint VerifyNeedSigns_range (VerifyAllNeedSigns : BlockTransaction -> bool * goerror)
    (txs : list BlockTransaction) : bool * goerror :=
  match txs with
  | [] => (true, None)
  | tx :: r =>
      let (ok, e) := VerifyAllNeedSigns tx in
      if negb ok || bool_decide (is_Some e) then (ok, e)
      else VerifyNeedSigns_range VerifyAllNeedSigns r
  end.

Definition VerifyNeedSigns (VerifyAllNeedSigns : BlockTransaction -> bool * goerror)
    (block : Block_v1) : bool * goerror :=
  VerifyNeedSigns_range VerifyAllNeedSigns (Transactions block).

(** [SerializeTransactions] without an iterator, as [SerializeBody] calls
    it; [Serialize] is the method of the transactions.  The loop runs over
    the first [uint32(len)] transactions. *)
Fixpoint SerializeTransactions_range (Serialize : BlockTransaction -> Bytes * goerror)
    (txs : list BlockTransaction) (buffer : Bytes) : Bytes * goerror :=
  match txs with
  | [] => (buffer, None)
  | trs :: r =>
      let (bi, e) := Serialize trs in
      match e with
      | Some _ => ([], e)
      | None => SerializeTransactions_range Serialize r (buffer ++ bi)
      end
  end.

Definition SerializeTransactions (Serialize : BlockTransaction -> Bytes * goerror)
    (block : Block_v1) : Bytes * goerror :=
  let trslen := uint32 (Z.of_nat (length (Transactions block))) in
  SerializeTransactions_range Serialize (take (Z.to_nat trslen) (Transactions block)) [].

Definition SerializeBody (Serialize : BlockTransaction -> Bytes * goerror)
    (block : Block_v1) : Bytes * goerror :=
  let b1 := SerializeMeta block in
  let (b2, e2) := SerializeTransactions Serialize block in
  match e2 with
  | Some _ => ([], e2)
  | None => (b1 ++ b2, None)
  end.

Definition Block_v1_Serialize (Serialize : BlockTransaction -> Bytes * goerror)
    (block : Block_v1) : Bytes * goerror :=
  let head := SerializeHead block in
  let (body, _) := SerializeBody Serialize block in
  (head ++ body, None).

(** [Size]; [tx_Size] is the method of the transactions.  The loop indexes
    the list up to the transaction count; [None] is the panic of an index
    out of range. *)
Fixpoint Size_range (tx_Size : BlockTransaction -> Z) (n : nat) (i : nat)
    (txs : list BlockTransaction) (totalsize : Z) : option Z :=
  match n with
  | O => Some totalsize
  | S k =>
      match txs !! i with
      | Some tx => Size_range tx_Size k (S i) txs (uint32 (totalsize + tx_Size tx))
      | None => None
      end
  end.

Definition Block_v1_Size (tx_Size : BlockTransaction -> Z) (block : Block_v1) : option Z :=
  let totalsize := uint32 (1 + 8 + 5 + 32 + 32 + 4 + 4 + 4 + 2) in
  Size_range tx_Size (Z.to_nat (uint32 (TransactionCount block))) 0
    (Transactions block) totalsize.

(** *** Reading head and meta

    Modelled from the spec: [BlockHeadSize] is declared in another file of
    the [blocks] package; it is the length of the head on the wire, the
    version byte included.  The fields are read by the codec of the
    [fields] package, at the widths of the block wire format. *)
Definition BlockHeadSize : Z := 1 + 8 + 5 + 32 + 32 + 4.

Definition set_head (height timestamp : Z) (prevhash mrklroot : Bytes) (count : Z)
    (block : Block_v1) : Block_v1 :=
  {| Height := height; Timestamp := timestamp; PrevHash := prevhash;
     MrklRoot := mrklroot; TransactionCount := count; Nonce := Nonce block;
     Difficulty := Difficulty block; WitnessStage := WitnessStage block;
     Transactions := Transactions block; hash := hash block;
     originMark := originMark block |}.

Definition set_meta (nonce difficulty witness : Z) (block : Block_v1) : Block_v1 :=
  {| Height := Height block; Timestamp := Timestamp block;
     PrevHash := PrevHash block; MrklRoot := MrklRoot block;
     TransactionCount := TransactionCount block; Nonce := nonce;
     Difficulty := difficulty; WitnessStage := witness;
     Transactions := Transactions block; hash := hash block;
     originMark := originMark block |}.

(** [ParseHead]: the block with the fields read so far, the offset and the
    error.  It does not read the version byte: [seek] is the offset of the
    height. *)
Definition ParseHead (block : Block_v1) (buf : Bytes) (seek : Z)
    : Block_v1 * (Z * goerror) :=
  if Z.of_nat (length buf) <? seek + BlockHeadSize - 1 then
    (block, (0, Some (Errorf "buf length error." [])))
  else
    let '(height, (m2, e)) := VarInt_Parse 8 (Height block) buf seek in
    let block :=
      set_head height (Timestamp block) (PrevHash block) (MrklRoot block)
        (TransactionCount block) block in
    match e with
    | Some _ => (block, (0, e))
    | None =>
    let '(timestamp, (m3, e)) := VarInt_Parse 5 (Timestamp block) buf m2 in
    let block :=
      set_head height timestamp (PrevHash block) (MrklRoot block)
        (TransactionCount block) block in
    match e with
    | Some _ => (block, (0, e))
    | None =>
    let '(prevhash, (m4, e)) := Bytes_Parse 32 (PrevHash block) buf m3 in
    let block :=
      set_head height timestamp prevhash (MrklRoot block) (TransactionCount block)
        block in
    match e with
    | Some _ => (block, (0, e))
    | None =>
    let '(mrklroot, (m5, e)) := Bytes_Parse 32 (MrklRoot block) buf m4 in
    let block :=
      set_head height timestamp prevhash mrklroot (TransactionCount block) block in
    match e with
    | Some _ => (block, (0, e))
    | None =>
    let '(count, (m6, e)) := VarInt_Parse 4 (TransactionCount block) buf m5 in
    let block := set_head height timestamp prevhash mrklroot count block in
    match e with
    | Some _ => (block, (0, e))
    | None => (block, (m6, None))
    end end end end end.

Definition ParseMeta (block : Block_v1) (buf : Bytes) (seek : Z)
    : Block_v1 * (Z * goerror) :=
  let '(nonce, (seek, e)) := VarInt_Parse 4 (Nonce block) buf seek in
  let block := set_meta nonce (Difficulty block) (WitnessStage block) block in
  match e with
  | Some _ => (block, (0, e))
  | None =>
  let '(difficulty, (seek, e)) := VarInt_Parse 4 (Difficulty block) buf seek in
  let block := set_meta nonce difficulty (WitnessStage block) block in
  match e with
  | Some _ => (block, (0, e))
  | None =>
  let '(witness, (seek, e)) := VarInt_Parse 2 (WitnessStage block) buf seek in
  let block := set_meta nonce difficulty witness block in
  match e with
  | Some _ => (block, (0, e))
  | None => (block, (seek, None))
  end end end.

Definition ParseExcludeTransactions (block : Block_v1) (buf : Bytes) (seek : Z)
    : Block_v1 * (Z * goerror) :=
  let '(block, (seek, e)) := ParseHead block buf seek in
  match e with
  | Some _ => (block, (0, e))
  | None =>
  let '(block, (seek, e)) := ParseMeta block buf seek in
  match e with
  | Some _ => (block, (0, e))
  | None => (block, (seek, None))
  end end.

(** The fee totals [WriteInChainState] adds up over the customer
    transactions. *)
Fixpoint add_fees (fee : BlockTransaction -> Amount) (l : list BlockTransaction)
    (acc : Amount) : Amount + error :=
  match l with
  | [] => inl acc
  | tx :: r =>
      match Amount_Add acc (fee tx) with
      | inl acc' => add_fees fee r acc'
      | inr e => inr e
      end
  end.

End BlockMethods.

(** ** Further explicit inputs *)

(** A batch transfer of the two diamonds of [alice] to [bob], and one that
    names a diamond that does not exist between them. *)
Definition batch_1 : Action_6_OutfeeQuantityDiamondTransfer :=
  {| a6_FromAddress := alice; a6_ToAddress := bob; a6_DiamondCount := 2;
     a6_Diamonds := [diamond_1; diamond_2];
     a6_trs := Some {| GetAddress := alice |} |}.

Definition batch_gap : Action_6_OutfeeQuantityDiamondTransfer :=
  {| a6_FromAddress := alice; a6_ToAddress := bob; a6_DiamondCount := 3;
     a6_Diamonds := [diamond_1; diamond_absent; diamond_2];
     a6_trs := Some {| GetAddress := alice |} |}.

(** Mining at height 10 on top of diamond 1, over a given block store: one
    that serves diamond number 1, and one that fails the read. *)
Definition block_store_1 : BlockStore :=
  {| bs_diamond := {[ diamond_2 := Readable smelt_1 ]};
     bs_diamond_by_number := {[ 1 := Readable smelt_1 ]} |}.

Definition block_store_closed : BlockStore :=
  {| bs_diamond := ∅;
     bs_diamond_by_number := {[ 1 := Unreadable store_error ]} |}.

Definition mining_state_on (bs : option BlockStore) : @ChainState reference_externals :=
  {| pending_block_height := 10;
     tx_hashes := [];
     diamonds := {[ diamond_2 := {| Status := 0; Address := bob |} ]};
     lastest_diamond := Some smelt_1;
     pending_submit_store_diamond := None;
     diamond_lendings := ∅;
     total_supply :=
       {| CurrentMortgageCount := 0; CumulationLoanHacAmount := 0;
          CumulationRansomHacAmount := 0 |};
     block_store := bs;
     hac_balance := ∅;
     diamond_balance := {[ bob := 1 ]} |}.

(** A chain that holds no diamond yet, and a candidate for it that calls
    itself number 77. *)
Definition mining_state_genesis : @ChainState reference_externals :=
  {| pending_block_height := 5;
     tx_hashes := [];
     diamonds := ∅;
     lastest_diamond := None;
     pending_submit_store_diamond := None;
     diamond_lendings := ∅;
     total_supply :=
       {| CurrentMortgageCount := 0; CumulationLoanHacAmount := 0;
          CumulationRansomHacAmount := 0 |};
     block_store := Some empty_block_store;
     hac_balance := ∅;
     diamond_balance := ∅ |}.

Definition mint_77 : Action_4_DiamondCreate :=
  {| a4_Diamond := diamond_1;
     a4_Number := 77;
     a4_PrevHash := prev_hash_7;
     a4_Nonce := diamond_1 ++ ["000"%byte; "000"%byte];
     a4_Address := alice;
     a4_belone_trs := None |}.

(** Two diamonds of [alice] over a block store that serves both, at prices
    100 and 200, and the create that mortgages them for 300. *)
Definition state_lendable : @ChainState reference_externals :=
  {| pending_block_height := 100;
     tx_hashes := [];
     diamonds :=
       {[ diamond_1 := {| Status := 1; Address := alice |};
          diamond_2 := {| Status := 1; Address := alice |} ]};
     lastest_diamond := None;
     pending_submit_store_diamond := None;
     diamond_lendings := ∅;
     total_supply :=
       {| CurrentMortgageCount := 0; CumulationLoanHacAmount := 0;
          CumulationRansomHacAmount := 0 |};
     block_store :=
       Some {| bs_diamond :=
                 {[ diamond_1 := Readable (smelt_priced diamond_1 100);
                    diamond_2 := Readable (smelt_priced diamond_2 200) ]};
               bs_diamond_by_number := ∅ |};
     hac_balance := ∅;
     diamond_balance := {[ alice := 2 ]} |}.

Definition create_ok : @Action_15_DiamondsSystemLendingCreate reference_externals :=
  {| a15_LendingID := lending_1;
     a15_MortgageDiamondList := {| Count := 2; Diamonds := [diamond_1; diamond_2] |};
     a15_LoanTotalAmount := 300 * 10 ^ 248;
     a15_BorrowPeriod := 1;
     a15_belong_trs := Some {| GetAddress := alice |} |}.

Definition after_create_ok : @ChainState reference_externals :=
  snd (call (Action_15_WriteinChainState true create_ok) state_lendable).

(** More transactions and blocks: a second customer transaction, a block
    that starts with a customer transaction, and a stand-in for the
    [Serialize] and [Size] of the transactions, which fails on a
    transaction without a hash. *)
Definition tx_b : reference_transaction :=
  {| rt_hash := repeat "011"%byte 32; rt_fee := 2; rt_fee_got := 1; rt_actions := [] |}.

Definition tx_unhashed : reference_transaction :=
  {| rt_hash := []; rt_fee := 0; rt_fee_got := 0; rt_actions := [] |}.

Definition block_headless : @Block_v1 reference_externals reference_transactions :=
  block_at 7 [customer tx_a; customer tx_b].

Definition block_two : @Block_v1 reference_externals reference_transactions :=
  block_at 7 [miner coinbase_1; customer tx_a; customer tx_b].

Definition block_unhashed : @Block_v1 reference_externals reference_transactions :=
  block_at 7 [miner coinbase_1; customer tx_unhashed; customer tx_a].

Definition reference_Serialize
    (tx : @BlockTransaction reference_externals reference_transactions) : Bytes * goerror :=
  match tx with
  | TxCoinbase c => (cb_Address c, None)
  | TxOther t =>
      match rt_hash t with
      | [] => ([], Some (Errorf "transaction without hash" []))
      | _ => (rt_hash t, None)
      end
  end.

(** [coinbase_1] with the fees of [tx_a] and [tx_b] filled in. *)
Definition coinbase_paid : @Transaction_0_Coinbase reference_externals :=
  {| cb_Address := bob; cb_Reward := 1;
     TotalFeeUserPayed := 3; TotalFeeMinerReceived := 2 |}.

(** The wire form of a batch transfer of three diamonds, cut after the
    first diamond. *)
Definition batch_wire_cut : Bytes :=
  alice ++ bob ++ big_endian 1 3 ++ diamond_1.

Definition Action_6_zero : Action_6_OutfeeQuantityDiamondTransfer :=
  {| a6_FromAddress := []; a6_ToAddress := []; a6_DiamondCount := 0;
     a6_Diamonds := []; a6_trs := None |}.

(** The transfer of [diamond_1] from [alice] to [bob]. *)
Definition transfer_1 : Action_5_DiamondTransfer :=
  {| a5_Diamond := diamond_1; a5_Address := bob;
     a5_trs := Some {| GetAddress := alice |} |}.


(** * Proofs *)

(** ** Frame rules: what a body leaves alone *)

Section Frame.
Context `{Ext : Externals}.

Lemma preserves_ret {X R A} (f : ChainState -> X) (a : A) :
  preserves f (@ret _ R A a).
Proof. intros s. reflexivity. Qed.

Lemma preserves_return {X R A} (f : ChainState -> X) (r : R) :
  preserves f (@return_ _ R A r).
Proof. intros s. reflexivity. Qed.

Lemma preserves_panic {X R A} (f : ChainState -> X) msg :
  preserves f (@panic _ R A msg).
Proof. intros s. reflexivity. Qed.

Lemma preserves_return_if {X R} (f : ChainState -> X) (c : bool) (r : R) :
  preserves f (return_if c r).
Proof. intros s. destruct c; reflexivity. Qed.

Lemma preserves_return_if_err {X} (f : ChainState -> X) (e : goerror) :
  preserves f (return_if_err e).
Proof. intros s. destruct e; reflexivity. Qed.

Lemma preserves_bind {X R A B} (f : ChainState -> X) (m : M R A) (k : A -> M R B) :
  preserves f m -> (forall a, preserves f (k a)) -> preserves f (bind m k).
Proof.
  intros Hm Hk s. unfold bind. specialize (Hm s).
  destruct (m s) as [[a|x] s1]; simpl in *.
  - rewrite Hk. exact Hm.
  - exact Hm.
Qed.

Lemma preserves_for_each {X R A B} (f : ChainState -> X) (l : list A) (acc : B)
    (body : A -> B -> M R B) :
  (forall x b, preserves f (body x b)) -> preserves f (for_each l acc body).
Proof.
  intros Hb. revert acc. induction l as [|x l IH]; intros acc; simpl.
  - apply preserves_ret.
  - apply preserves_bind; [apply Hb | intros; apply IH].
Qed.

Lemma preserves_call {X R} (f : ChainState -> X) (m : M R R) s :
  preserves f m -> f (snd (call m s)) = f s.
Proof.
  intros Hm. unfold call. specialize (Hm s).
  destruct (m s) as [[a|x] s1]; exact Hm.
Qed.

End Frame.

(** A state operation against a field it does not write. *)
Ltac frame_op :=
  let s := fresh "s" in
  intros s;
  cbv beta iota zeta delta
    [GetPendingBlockHeight CheckTxHash ContainTxHash state_Diamond DiamondSet
     DiamondDel ReadLastestDiamond SetLastestDiamond GetPendingSubmitStoreDiamond
     SetPendingSubmitStoreDiamond state_DiamondLending DiamondLendingCreate
     DiamondLendingUpdate DiamondLendingDelete ReadTotalSupply UpdateSetTotalSupply
     state_BlockStore DoAddBalanceFromChainState DoSubBalanceFromChainState
     DoAddDiamondFromChainState DoSubDiamondFromChainState];
  repeat match goal with
         | |- context [match ?x with _ => _ end] => destruct x
         end;
  reflexivity.

(** Frame goals, by the structure of the body. *)
Ltac frame :=
  repeat first
    [ apply preserves_ret
    | apply preserves_return
    | apply preserves_panic
    | apply preserves_return_if
    | apply preserves_return_if_err
    | apply preserves_bind; [|intros]
    | apply preserves_for_each; intros
    | match goal with
      | |- preserves _ (match ?x with _ => _ end) => destruct x
      end
    | solve [frame_op] ].

(** ** Rules for runs of a body *)

Section WP.
Context `{Ext : Externals}.

Lemma wp_ret {R A} (a : A) (Q : step R A -> ChainState -> Prop) s :
  Q (Next a) s -> wp (ret a) Q s.
Proof. exact (fun H => H). Qed.

Lemma wp_return {R A} (r : R) (Q : step R A -> ChainState -> Prop) s :
  Q (Exit (Returned r)) s -> wp (return_ r) Q s.
Proof. exact (fun H => H). Qed.

Lemma wp_panic {R A} msg (Q : step R A -> ChainState -> Prop) s :
  Q (Exit (Panicked msg)) s -> wp (panic msg) Q s.
Proof. exact (fun H => H). Qed.

Lemma wp_bind {R A B} (m : M R A) (k : A -> M R B) Q s :
  wp m (fun r s1 => match r with
                    | Next a => wp (k a) Q s1
                    | Exit x => Q (Exit x) s1
                    end) s ->
  wp (bind m k) Q s.
Proof.
  unfold wp, bind. destruct (m s) as [[a|x] s1]; simpl; intros H; exact H.
Qed.

Lemma wp_return_if {R} (c : bool) (r : R) (Q : step R unit -> ChainState -> Prop) s :
  (c = true -> Q (Exit (Returned r)) s) ->
  (c = false -> Q (Next tt) s) ->
  wp (return_if c r) Q s.
Proof. destruct c; unfold wp; simpl; auto. Qed.

Lemma wp_return_if_err (e : goerror) (Q : step goerror unit -> ChainState -> Prop) s :
  (forall e', e = Some e' -> Q (Exit (Returned e)) s) ->
  (e = None -> Q (Next tt) s) ->
  wp (return_if_err e) Q s.
Proof. destruct e; unfold wp; simpl; eauto. Qed.

Lemma wp_call {R} (m : M R R) (P : exit R * ChainState -> Prop) s :
  wp m (fun r s1 => P (to_exit r, s1)) s -> P (call m s).
Proof.
  unfold wp, call. destruct (m s) as [[a|x] s1]; simpl; intros H; exact H.
Qed.

Lemma wp_run {R A} (m : M R A) s (x : step R A * ChainState) :
  wp m (fun r s1 => (r, s1) = x) s -> m s = x.
Proof. unfold wp. destruct (m s). exact (fun H => H). Qed.

Lemma wp_op {R A} (m : M R A) (Q : step R A -> ChainState -> Prop) s r s1 :
  m s = (r, s1) -> Q r s1 -> wp m Q s.
Proof. unfold wp. intros ->. exact (fun H => H). Qed.

Lemma for_each_app {R A B} (l1 l2 : list A) (acc : B) (body : A -> B -> M R B) s :
  for_each (l1 ++ l2) acc body s
  = bind (for_each l1 acc body) (fun acc' => for_each l2 acc' body) s.
Proof.
  revert acc s. induction l1 as [|x l1 IH]; intros acc s; simpl.
  - reflexivity.
  - unfold bind. destruct (body x acc s) as [[a|e] s1]; [|reflexivity].
    rewrite IH. reflexivity.
Qed.

End WP.

(** Reads of a field after a write of a field. *)
Ltac state_simpl :=
  cbn [pending_block_height tx_hashes diamonds lastest_diamond
       pending_submit_store_diamond diamond_lendings total_supply block_store
       hac_balance diamond_balance set_tx_hashes set_diamonds set_lastest_diamond
       set_pending_submit_store_diamond set_diamond_lendings set_total_supply
       set_hac_balance set_diamond_balance negb andb orb].

(** One step of a [wp] goal, by the head of the body; a test whose value a
    hypothesis gives is decided by it. *)
Ltac wp_step :=
  cbv beta iota; state_simpl;
  lazymatch goal with
  | |- wp (bind _ _) _ _ => apply wp_bind
  | |- wp (ret _) _ _ => apply wp_ret
  | |- wp (return_ _) _ _ => apply wp_return
  | |- wp (panic _) _ _ => apply wp_panic
  | |- wp (return_if true _) _ _ => apply wp_return
  | |- wp (return_if false _) _ _ => apply wp_ret
  | |- wp (return_if ?c _) _ _ =>
      first [ match goal with H : c = _ |- _ => rewrite H end
            | apply wp_return_if; intros ? ]
  | |- wp (return_if_err None) _ _ => apply wp_ret
  | |- wp (return_if_err _) _ _ => apply wp_return_if_err; [intros ? ?|intros ?]
  | |- wp (match ?x with _ => _ end) _ _ =>
      first [ match goal with H : x = _ |- _ => rewrite H end
            | destruct x eqn:? ]
  | |- wp (let (_, _) := ?x in _) _ _ =>
      first [ match goal with H : x = _ |- _ => rewrite H end
            | destruct x eqn:? ]
  | |- wp ?m _ ?s =>
      first [ match goal with H : m s = _ |- _ => eapply wp_op; [exact H|] end
            | eapply wp_op; [reflexivity|] ]
  end;
  cbv beta iota; state_simpl.

(** The monad and the state operations, unfolded. *)
Ltac munfold :=
  cbv beta iota zeta delta
    [call bind ret return_ return_if return_if_err panic
     GetPendingBlockHeight CheckTxHash ContainTxHash state_Diamond DiamondSet
     DiamondDel ReadLastestDiamond SetLastestDiamond GetPendingSubmitStoreDiamond
     SetPendingSubmitStoreDiamond state_DiamondLending DiamondLendingCreate
     DiamondLendingUpdate DiamondLendingDelete ReadTotalSupply UpdateSetTotalSupply
     state_BlockStore].

(** Boolean tests in hypotheses, as propositions. *)
Ltac tests :=
  repeat match goal with
         | H : negb _ = false |- _ => apply negb_false_iff in H
         | H : negb _ = true |- _ => apply negb_true_iff in H
         | H : bool_decide _ = true |- _ => apply bool_decide_eq_true in H
         | H : bool_decide _ = false |- _ => apply bool_decide_eq_false in H
         | H : bytes_Equal _ _ = true |- _ => apply bool_decide_eq_true in H
         | H : bytes_Equal _ _ = false |- _ => apply bool_decide_eq_false in H
         | H : (_ =? _) = true |- _ => apply Z.eqb_eq in H
         | H : (_ =? _) = false |- _ => apply Z.eqb_neq in H
         end.

(** ** Fixed-width arithmetic *)

Lemma uint32_small z : 0 <= z < 2 ^ 32 -> uint32 z = z.
Proof. intros. unfold uint32, wrap. apply Z.mod_small. lia. Qed.

Lemma uint64_small z : 0 <= z < 2 ^ 64 -> uint64 z = z.
Proof. intros. unfold uint64, wrap. apply Z.mod_small. lia. Qed.

Lemma int64_small z : - 2 ^ 63 <= z < 2 ^ 63 -> int64 z = z.
Proof. intros. unfold int64. rewrite Z.mod_small; lia. Qed.

(** ** Action 16: the ransom schedule *)

Lemma Action_16_privateHeight_spec B c :
  2 <= B <= 10000 -> 0 <= BorrowPeriod c < 2 ^ 8 -> 0 <= CreateBlockHeight c < 2 ^ 40 ->
  Action_16_privateHeight B c = CreateBlockHeight c + BorrowPeriod c * B.
Proof.
  intros HB HP HH. unfold Action_16_privateHeight.
  rewrite (uint64_small (BorrowPeriod c)) by lia.
  rewrite (uint64_small (CreateBlockHeight c)) by lia.
  rewrite (uint64_small (BorrowPeriod c * B)) by nia.
  apply uint64_small. nia.
Qed.

(** No conversion of the computation wraps: the code's [int64] and [uint64]
    value is the schedule of the specification. *)
Lemma Action_16_realRansom1qian_spec B c H :
  2 <= B <= 10000 -> 0 <= BorrowPeriod c < 2 ^ 8 -> 0 <= CreateBlockHeight c < 2 ^ 40 ->
  0 <= LoanTotalAmountMei c < 2 ^ 32 -> 0 <= H < 2 ^ 64 ->
  Action_16_realRansom1qian B c H =
    spec_valid_ransom B (BorrowPeriod c) (LoanTotalAmountMei c) (CreateBlockHeight c) H.
Proof.
  intros HB HP HH HL HHt.
  unfold Action_16_realRansom1qian, spec_valid_ransom.
  set (P := BorrowPeriod c) in *. set (L := LoanTotalAmountMei c) in *.
  set (H0 := CreateBlockHeight c) in *.
  rewrite (uint64_small P) by lia.
  rewrite (uint64_small H0) by lia.
  rewrite (uint64_small (P * B)) by nia.
  rewrite (uint64_small (H0 + P * B)) by nia.
  rewrite (uint64_small (H0 + P * B + P * B)) by nia.
  rewrite (int64_small P) by lia.
  rewrite (int64_small L) by lia.
  rewrite (int64_small (5 * P)) by lia.
  rewrite (int64_small (1000 + 5 * P)) by lia.
  rewrite (int64_small ((1000 + 5 * P) * L)) by nia.
  rewrite (int64_small (P * 2)) by lia.
  replace (H0 + 2 * P * B) with (H0 + P * B + P * B) by lia.
  set (pub := H0 + P * B + P * B).
  assert (Hpub : 0 <= pub) by (unfold pub; nia).
  clearbody pub.
  destruct (pub <? H) eqn:Hlt; [|reflexivity].
  apply Z.ltb_lt in Hlt.
  rewrite (uint64_small (H - pub)) by lia.
  assert (Hq : 0 <= (H - pub) / B < 2 ^ 63).
  { split; [apply Z.div_pos; lia | apply Z.div_lt_upper_bound; lia]. }
  rewrite (int64_small ((H - pub) / B)) by lia.
  set (q := (H - pub) / B) in *.
  assert (Hk : (if P * 2 <? q then P * 2 else q) = Z.min q (2 * P)).
  { destruct (P * 2 <? q) eqn:E; [apply Z.ltb_lt in E | apply Z.ltb_ge in E]; lia. }
  rewrite Hk.
  set (k := Z.min q (2 * P)).
  assert (0 <= k <= 2 * P) by (unfold k; lia).
  rewrite (int64_small (5 * k)) by lia.
  rewrite (int64_small (5 * k * L)) by nia.
  apply int64_small. nia.
Qed.

Section Ransom.
Context `{Ext : Externals}.

(** C2.  For a contract with period [P], principal [L] mei and creation
    height [H0], at pending height [H]: the amount [Action_16] computes is
    [(1000 + 5P) * L], less [5 * k * L] with
    [k = min ((H - public_height) / B) (2P)] once [H] is past
    [public_height = H0 + 2PB]; the action is rejected when
    [H <= H0 + P * B] and the redeemer is not the main address, and when the
    ransom amount is less than that amount at unit 245. *)
Theorem Action_16_required_ransom (mark : bool)
    (act : Action_16_DiamondsSystemLendingRansom) (s : ChainState)
    (trs : Transaction) (c : DiamondLending) :
  a16_belong_trs act = Some trs ->
  diamond_lendings s !! a16_LendingID act = Some c ->
  0 <= BorrowPeriod c < 2 ^ 8 ->
  0 <= CreateBlockHeight c < 2 ^ 40 ->
  0 <= LoanTotalAmountMei c < 2 ^ 32 ->
  0 <= pending_block_height s < 2 ^ 64 ->
  let B := Action_16_dslbpbn DiamondsSystemLendingBorrowPeriodBlockNumber mark in
  let P := BorrowPeriod c in
  let L := LoanTotalAmountMei c in
  let H0 := CreateBlockHeight c in
  let H := pending_block_height s in
  let R := spec_valid_ransom B P L H0 H in
  Action_16_realRansom1qian B c H = R
  /\ (H <= H0 + P * B -> GetAddress trs <> MainAddress c ->
      exists e, call (Action_16_WriteinChainState mark act) s = (Returned (Some e), s))
  /\ (forall v, NewAmountByBigIntWithUnit R 245 = inl v ->
      Amount_LessThan (a16_RansomAmount act) v = true ->
      exists e, call (Action_16_WriteinChainState mark act) s = (Returned (Some e), s)).
Proof.
  intros Htrs Hc HP HH0 HL HH B P L H0 H R.
  assert (HB : 2 <= B <= 10000).
  { unfold B, Action_16_dslbpbn, DiamondsSystemLendingBorrowPeriodBlockNumber.
    destruct mark; lia. }
  assert (HR : Action_16_realRansom1qian B c H = R)
    by (apply Action_16_realRansom1qian_spec; assumption).
  assert (Hpriv : Action_16_privateHeight B c = H0 + P * B)
    by (apply Action_16_privateHeight_spec; assumption).
  split; [exact HR|].
  unfold Action_16_WriteinChainState, Action_16_WriteinChainState_with.
  fold B. rewrite Htrs.
  destruct mark; [|split; intros; eexists; reflexivity].
  change (negb true) with false. munfold.
  destruct (lending_id_format_error (a16_LendingID act)) eqn:Hid.
  { split; intros; eexists; reflexivity. }
  rewrite Hc.
  destruct (IsRansomed c) eqn:Hran.
  { split; intros; eexists; reflexivity. }
  fold H. rewrite Hpriv, HR.
  split.
  - intros Hle Hne. eexists.
    replace (H <=? H0 + P * B) with true by (symmetry; apply Z.leb_le; exact Hle).
    unfold bytes_Equal. rewrite bool_decide_eq_false_2 by exact Hne.
    reflexivity.
  - intros v Hv Hlt.
    destruct ((H <=? H0 + P * B) && negb (bytes_Equal (GetAddress trs) (MainAddress c)))
      eqn:Hp.
    + eexists. reflexivity.
    + eexists. rewrite Hv, Hlt. reflexivity.
Qed.

End Ransom.

(** The schedule of [contract_1] at height 250, and an offer below it. *)
Lemma Action_16_required_ransom_witness :
  Action_16_realRansom1qian 50 contract_1 250 = 300000
  /\ exists e,
       call (Action_16_WriteinChainState true ransom_low) state_mortgaged
       = (Returned (Some e), state_mortgaged).
Proof.
  destruct (Action_16_required_ransom true ransom_low state_mortgaged
              {| GetAddress := alice |} contract_1) as (HR & _ & Hlow).
  - reflexivity.
  - vm_compute. reflexivity.
  - simpl. lia.
  - simpl. lia.
  - simpl. lia.
  - simpl. lia.
  - split.
    + exact HR.
    + apply (Hlow (300000 * 10 ^ 245)); reflexivity.
Defined.

Section Period.
Context `{Ext : Externals}.

(** C10.  Whatever constant is declared, a run of [Action_16] either stops
    at the development-mark gate or is the run with a period of 50 blocks:
    the mark that opens the gate is the mark that sets the period. *)
Theorem Action_16_period_is_50 (declared : Z) (mark : bool)
    (act : Action_16_DiamondsSystemLendingRansom) (s : ChainState) :
  call (Action_16_WriteinChainState_with declared mark act) s =
    (if mark then call (Action_16_WriteinChainState_with 50 true act) s
     else (Returned (Some (Errorf "mainnet not yet" [])), s))
  /\ Action_16_dslbpbn declared true = 50.
Proof.
  split.
  - destruct mark; reflexivity.
  - reflexivity.
Qed.

End Period.

(** ** Action 4: diamond mining *)

Section Mining.
Context `{Ext : Externals}.

(** A successful [Action_4] found the height a multiple of 5, the slot of
    the block empty and the literal free, and leaves [Action_4_minted]. *)
Lemma Action_4_success_inv act s s' :
  call (Action_4_WriteinChainState act) s = (Returned None, s') ->
  pending_block_height s mod 5 = 0
  /\ pending_submit_store_diamond s = None
  /\ diamonds s !! a4_Diamond act = None
  /\ s' = Action_4_minted act s.
Proof.
  pattern (call (Action_4_WriteinChainState act) s).
  apply wp_call. unfold Action_4_WriteinChainState.
  repeat wp_step; intros Heq; try discriminate Heq.
  all: injection Heq as <-.
  all: tests.
  all: repeat split; try reflexivity; try assumption.
  all: match goal with
       | H : ¬ is_Some ?x |- ?x = None =>
           destruct x; [exfalso; apply H; eauto | reflexivity]
       end.
Qed.

Lemma Action_4_success act s digest str :
  pending_block_height s mod 5 = 0 ->
  match lastest_diamond s with
  | Some ld =>
      a4_PrevHash act = ContainBlockHash ld
      /\ uint32 (uint32 (smelt_Number ld) + 1) = uint32 (a4_Number act)
  | None => True
  end ->
  x16rs_Diamond (uint32 (a4_Number act)) (a4_PrevHash act) (a4_Nonce act)
    (a4_Address act) = (digest, str) ->
  x16rs_IsDiamondHashResultString str = (string_of_Bytes (a4_Diamond act), true) ->
  x16rs_CheckDiamondDifficulty (uint32 (a4_Number act)) digest = true ->
  diamonds s !! a4_Diamond act = None ->
  pending_submit_store_diamond s = None ->
  call (Action_4_WriteinChainState act) s = (Returned None, Action_4_minted act s).
Proof.
  intros Hh Hld Hx Hlit Hdif Hnew Hslot.
  pattern (call (Action_4_WriteinChainState act) s).
  apply wp_call. unfold Action_4_WriteinChainState.
  rewrite Hx, Hlit, Hdif, String.eqb_refl.
  assert (Hh' : negb (pending_block_height s mod 5 =? 0) = false)
    by (apply negb_false_iff, Z.eqb_eq, Hh).
  repeat wp_step; try reflexivity; try congruence.
  all: exfalso; tests.
  all: repeat match goal with
         | H : is_Some _ |- _ => destruct H as [? ?]
         end.
  all: try congruence.
  all: destruct Hld; congruence.
Qed.

(** C3.  [Action_4] at a pending height that is not a multiple of 5 returns
    an error whose message starts with [{BACKTOPOOL}]; at a multiple of 5,
    with a number other than the last diamond's plus one or a previous hash
    other than the hash of the block that holds the last diamond, it returns
    an error of validation; with every precondition met it returns [nil],
    the diamond is recorded with the action's address as its owner, and the
    number of the last diamond has gone up by one. *)
Theorem Action_4_mining_rules (act : Action_4_DiamondCreate) (s : ChainState) :
  let h := pending_block_height s in
  (h mod 5 <> 0 ->
   exists e,
     call (Action_4_WriteinChainState act) s = (Returned (Some e), s)
     /\ strings_HasPrefix (Error e) "{BACKTOPOOL}" = true)
  /\ (forall ld,
        h mod 5 = 0 ->
        lastest_diamond s = Some ld ->
        0 <= smelt_Number ld < 2 ^ 24 ->
        0 <= a4_Number act < 2 ^ 24 ->
        a4_Number act <> smelt_Number ld + 1
        \/ a4_PrevHash act <> ContainBlockHash ld ->
        exists e,
          call (Action_4_WriteinChainState act) s = (Returned (Some e), s)
          /\ strings_HasPrefix (Error e) "{BACKTOPOOL}" = false)
  /\ (forall ld digest str,
        h mod 5 = 0 ->
        lastest_diamond s = Some ld ->
        0 <= smelt_Number ld < 2 ^ 24 ->
        0 <= a4_Number act < 2 ^ 24 ->
        a4_PrevHash act = ContainBlockHash ld ->
        a4_Number act = smelt_Number ld + 1 ->
        x16rs_Diamond (a4_Number act) (a4_PrevHash act) (a4_Nonce act)
          (a4_Address act) = (digest, str) ->
        x16rs_IsDiamondHashResultString str = (string_of_Bytes (a4_Diamond act), true) ->
        x16rs_CheckDiamondDifficulty (a4_Number act) digest = true ->
        diamonds s !! a4_Diamond act = None ->
        pending_submit_store_diamond s = None ->
        exists s' ld',
          call (Action_4_WriteinChainState act) s = (Returned None, s')
          /\ Address <$> diamonds s' !! a4_Diamond act = Some (a4_Address act)
          /\ lastest_diamond s' = Some ld'
          /\ smelt_Number ld' = smelt_Number ld + 1).
Proof.
  intros h. split; [|split].
  - intros Hh.
    exists (Errorf "{BACKTOPOOL} Diamond must be in block height multiple of 5." []).
    split; [|reflexivity].
    pattern (call (Action_4_WriteinChainState act) s).
    apply wp_call. unfold Action_4_WriteinChainState.
    repeat wp_step; try reflexivity; exfalso.
    all: match goal with
         | H : negb (_ =? 0) = false |- _ =>
             apply negb_false_iff, Z.eqb_eq in H; exact (Hh H)
         end.
  - intros ld Hh Hld Hr1 Hr2 Hbad.
    assert (Hh' : negb (pending_block_height s mod 5 =? 0) = false)
      by (apply negb_false_iff, Z.eqb_eq, Hh).
    destruct (bytes_Equal (a4_PrevHash act) (ContainBlockHash ld)) eqn:Hp.
    + exists (Errorf "Diamond number must be <%d> but got <%d>."
                [ArgInt (uint32 (uint32 (smelt_Number ld) + 1)); ArgInt (a4_Number act)]).
      split; [|reflexivity].
      pattern (call (Action_4_WriteinChainState act) s).
      apply wp_call. unfold Action_4_WriteinChainState.
      assert (Hp' : negb (bytes_Equal (a4_PrevHash act) (ContainBlockHash ld)) = false)
        by (rewrite Hp; reflexivity).
      repeat wp_step; try reflexivity; exfalso.
      all: match goal with
           | H : negb (uint32 _ =? _) = false |- _ =>
               apply negb_false_iff, Z.eqb_eq in H;
               rewrite (uint32_small (smelt_Number ld)) in H by lia;
               rewrite !uint32_small in H by lia
           end.
      all: apply bool_decide_eq_true in Hp.
      all: destruct Hbad; congruence.
    + exists (Errorf "Diamond prev hash must be <%s> but got <%s>."
                [ArgStr (hex_EncodeToString (ContainBlockHash ld));
                 ArgStr (hex_EncodeToString (a4_PrevHash act))]).
      split; [|reflexivity].
      pattern (call (Action_4_WriteinChainState act) s).
      apply wp_call. unfold Action_4_WriteinChainState.
      assert (Hp' : negb (bytes_Equal (a4_PrevHash act) (ContainBlockHash ld)) = true)
        by (rewrite Hp; reflexivity).
      repeat wp_step; reflexivity.
  - intros ld digest str Hh Hld Hr1 Hr2 Hp Hn Hx Hlit Hdif Hnew Hslot.
    exists (Action_4_minted act s), (Action_4_smelt act (pending_block_height s)).
    split; [|split; [|split]].
    + apply (Action_4_success act s digest str); try assumption.
      * rewrite Hld. split; [exact Hp|].
        rewrite (uint32_small (smelt_Number ld)) by lia.
        rewrite !uint32_small by lia. lia.
      * rewrite uint32_small by lia. exact Hx.
      * rewrite uint32_small by lia. exact Hdif.
    + simpl. rewrite lookup_insert_eq. reflexivity.
    + reflexivity.
    + simpl. exact Hn.
Qed.

Lemma Action_5_preserves_slot a :
  preserves pending_submit_store_diamond (Action_5_WriteinChainState a).
Proof. unfold Action_5_WriteinChainState. frame. Qed.

Lemma Action_6_preserves_slot a :
  preserves pending_submit_store_diamond (Action_6_WriteinChainState a).
Proof. unfold Action_6_WriteinChainState. frame. Qed.

Lemma Action_15_preserves_slot mark a :
  preserves pending_submit_store_diamond (Action_15_WriteinChainState mark a).
Proof. unfold Action_15_WriteinChainState, Action_15_mortgage_one. frame. Qed.

Lemma Action_16_preserves_slot mark a :
  preserves pending_submit_store_diamond (Action_16_WriteinChainState mark a).
Proof. unfold Action_16_WriteinChainState, Action_16_WriteinChainState_with. frame. Qed.

Lemma Action_WriteinChainState_height mark a :
  forall s, pending_block_height (snd (Action_WriteinChainState mark a s))
            = pending_block_height s.
Proof.
  intros s. destruct a; simpl; apply preserves_call.
  - unfold Action_4_WriteinChainState. frame.
  - unfold Action_5_WriteinChainState. frame.
  - unfold Action_6_WriteinChainState. frame.
  - unfold Action_15_WriteinChainState, Action_15_mortgage_one. frame.
  - unfold Action_16_WriteinChainState, Action_16_WriteinChainState_with. frame.
Qed.

(** A successful action and the slot of the block: action 4 takes the empty
    slot; the other actions leave the slot as it is. *)
Lemma Action_WriteinChainState_slot mark a s s' :
  Action_WriteinChainState mark a s = (Returned None, s') ->
  pending_block_height s' = pending_block_height s
  /\ match a with
     | Act4 _ =>
         pending_submit_store_diamond s = None
         /\ is_Some (pending_submit_store_diamond s')
         /\ pending_block_height s mod 5 = 0
     | _ => pending_submit_store_diamond s' = pending_submit_store_diamond s
     end.
Proof.
  intros H. split.
  - replace s' with (snd (Action_WriteinChainState mark a s)) by (rewrite H; reflexivity).
    apply Action_WriteinChainState_height.
  - destruct a; simpl in H.
    + apply Action_4_success_inv in H as (Hh & Hs & _ & ->).
      repeat split; [exact Hs | eexists; reflexivity | exact Hh].
    + replace s' with (snd (call (Action_5_WriteinChainState a) s))
        by (rewrite H; reflexivity).
      apply preserves_call, Action_5_preserves_slot.
    + replace s' with (snd (call (Action_6_WriteinChainState a) s))
        by (rewrite H; reflexivity).
      apply preserves_call, Action_6_preserves_slot.
    + replace s' with (snd (call (Action_15_WriteinChainState mark a) s))
        by (rewrite H; reflexivity).
      apply preserves_call, Action_15_preserves_slot.
    + replace s' with (snd (call (Action_16_WriteinChainState mark a) s))
        by (rewrite H; reflexivity).
      apply preserves_call, Action_16_preserves_slot.
Qed.

Lemma apply_actions_one_mint mark l : forall s s',
  apply_actions mark l s = (Returned None, s') ->
  pending_block_height s' = pending_block_height s
  /\ (is_Some (pending_submit_store_diamond s) ->
      count_Act4 l = 0%nat /\ is_Some (pending_submit_store_diamond s'))
  /\ (pending_submit_store_diamond s = None ->
      (count_Act4 l <= 1)%nat
      /\ (count_Act4 l = 1%nat ->
          pending_block_height s mod 5 = 0 /\ is_Some (pending_submit_store_diamond s'))).
Proof.
  induction l as [|a l IH]; intros s s' H; simpl in H.
  - injection H as <-. simpl. repeat split; auto; try (intros; discriminate).
  - destruct (Action_WriteinChainState mark a s) as [[[e|]|msg] s1] eqn:Ha;
      try discriminate H.
    apply Action_WriteinChainState_slot in Ha as [Hh1 Ha].
    apply IH in H as (Hh2 & Hsome & Hnone).
    split; [congruence|].
    destruct a; simpl in *;
      try (rewrite Ha in *; rewrite Hh1 in *; split; assumption).
    destruct Ha as (Hs0 & Hs1 & Hmod).
    destruct (Hsome Hs1) as [Hc Hs'].
    split.
    + intros [? Hx]. congruence.
    + intros _. rewrite Hc. split; [lia|]. intros _. split; assumption.
Qed.

(** C6.  A successful [Action_4] found the slot of the block empty and the
    height a multiple of 5, and leaves the slot set; on a state whose slot
    is set every [Action_4] returns an error; so among actions applied one
    after the other from an empty slot, all with success, at most one is an
    [Action_4], and if there is one the height is a multiple of 5. *)
Theorem one_diamond_per_block :
  (forall act s s',
      call (Action_4_WriteinChainState act) s = (Returned None, s') ->
      pending_submit_store_diamond s = None
      /\ is_Some (pending_submit_store_diamond s')
      /\ pending_block_height s mod 5 = 0)
  /\ (forall act s pd,
        pending_submit_store_diamond s = Some pd ->
        exists e, call (Action_4_WriteinChainState act) s = (Returned (Some e), s))
  /\ (forall mark l s s',
        pending_submit_store_diamond s = None ->
        apply_actions mark l s = (Returned None, s') ->
        (count_Act4 l <= 1)%nat
        /\ (count_Act4 l = 1%nat ->
            pending_block_height s mod 5 = 0
            /\ is_Some (pending_submit_store_diamond s'))).
Proof.
  split; [|split].
  - intros act s s' H. apply Action_4_success_inv in H as (Hh & Hs & _ & ->).
    repeat split; [exact Hs | eexists; reflexivity | exact Hh].
  - intros act s pd Hpd.
    pattern (call (Action_4_WriteinChainState act) s).
    apply wp_call. unfold Action_4_WriteinChainState.
    repeat wp_step; try (eexists; reflexivity).
  - intros mark l s s' Hs Hrun.
    apply apply_actions_one_mint in Hrun as (_ & _ & Hnone). exact (Hnone Hs).
Qed.

End Mining.

(** [mint_2] at height 10 on top of diamond 1, and at height 11. *)
Lemma Action_4_mining_rules_witness :
  (exists s' ld',
     call (Action_4_WriteinChainState mint_2) (mining_state 10) = (Returned None, s')
     /\ Address <$> diamonds s' !! diamond_1 = Some alice
     /\ lastest_diamond s' = Some ld'
     /\ smelt_Number ld' = 2)
  /\ (exists e,
        call (Action_4_WriteinChainState mint_2) (mining_state 11)
        = (Returned (Some e), mining_state 11)
        /\ strings_HasPrefix (Error e) "{BACKTOPOOL}" = true).
Proof.
  split.
  - apply (proj2 (proj2 (Action_4_mining_rules mint_2 (mining_state 10))) smelt_1
             (SHA256.Sum256
                (big_endian 4 2 ++ prev_hash_7 ++ a4_Nonce mint_2 ++ alice))
             "0000000000WTYUIA"%string).
    + reflexivity.
    + reflexivity.
    + vm_compute. split; [discriminate|reflexivity].
    + vm_compute. split; [discriminate|reflexivity].
    + reflexivity.
    + reflexivity.
    + reflexivity.
    + reflexivity.
    + reflexivity.
    + vm_compute. reflexivity.
    + reflexivity.
  - apply (proj1 (Action_4_mining_rules mint_2 (mining_state 11))).
    vm_compute. discriminate.
Defined.

(** One mint at height 10, and a second candidate on the state it leaves. *)
Lemma one_diamond_per_block_witness :
  ((count_Act4 [Act4 mint_2] <= 1)%nat /\ pending_block_height (mining_state 10) mod 5 = 0)
  /\ exists e,
       call (Action_4_WriteinChainState mint_2) after_mint = (Returned (Some e), after_mint).
Proof.
  destruct (@one_diamond_per_block reference_externals) as (_ & Hsecond & Hseq).
  split.
  - destruct (Hseq true [Act4 mint_2] (mining_state 10)
                (snd (apply_actions true [Act4 mint_2] (mining_state 10)))) as [Hle Hone].
    + reflexivity.
    + rewrite (surjective_pairing (apply_actions true [Act4 mint_2] (mining_state 10))) at 1.
      f_equal; vm_compute; reflexivity.
    + split; [exact Hle|]. apply Hone. reflexivity.
  - apply (Hsecond mint_2 after_mint (Action_4_smelt mint_2 10)).
    vm_compute. reflexivity.
Defined.

(** ** The block: recorded transaction hashes *)

Section BlockApply.
Context `{Ext : Externals} `{Txs : !TransactionOps}.

Lemma recorded_spec s hx : recorded s hx = true <-> hx ∈ map fst (tx_hashes s).
Proof.
  unfold recorded. rewrite existsb_exists. rewrite list_elem_of_In, in_map_iff.
  split.
  - intros [p [Hin Heq]]. apply bool_decide_eq_true in Heq. eauto.
  - intros [p [Heq Hin]]. exists p. split; [exact Hin|].
    apply bool_decide_eq_true. exact Heq.
Qed.

Lemma tx_WriteInChainState_keeps {R} tx s :
  transactions_keep_tx_hashes ->
  tx_hashes (snd (@tx_WriteInChainState _ _ R tx s)) = tx_hashes s.
Proof.
  intros [Ho Hc]. unfold tx_WriteInChainState.
  destruct tx as [c|t].
  - specialize (Hc c s). destruct (coinbase_WriteInChainState c s) as [[e|msg] s1]; exact Hc.
  - specialize (Ho t s). destruct (other_WriteInChainState t s) as [[e|msg] s1]; exact Ho.
Qed.

Lemma wp_leave_if_err txs (e : goerror)
    (Q : step block_result unit -> ChainState -> Prop) s :
  (forall e', e = Some e' -> Q (Exit (Returned (txs, e))) s) ->
  (e = None -> Q (Next tt) s) ->
  wp (leave_if_err txs e) Q s.
Proof. destruct e; unfold wp; simpl; eauto. Qed.

Lemma wp_tx_WriteInChainState {R} tx (Q : step R goerror -> ChainState -> Prop) s :
  transactions_keep_tx_hashes ->
  (forall e s1, tx_hashes s1 = tx_hashes s -> Q (Next e) s1) ->
  (forall msg s1, tx_hashes s1 = tx_hashes s -> Q (Exit (Panicked msg)) s1) ->
  wp (tx_WriteInChainState tx) Q s.
Proof.
  intros Hk Hn Hp. unfold wp.
  pose proof (@tx_WriteInChainState_keeps R tx s Hk) as Hf.
  unfold tx_WriteInChainState in *.
  destruct tx as [c|t].
  - destruct (coinbase_WriteInChainState c s) as [[e|msg] s1]; simpl in *; auto.
  - destruct (other_WriteInChainState t s) as [[e|msg] s1]; simpl in *; auto.
Qed.

(** One turn of the loop: it goes on only past the check of the hash, and
    then the hash is recorded; it never leaves the method with [nil]. *)
Lemma WriteInChainState_one_next txs h tx totals s :
  transactions_keep_tx_hashes ->
  wp (WriteInChainState_one txs h tx totals)
    (fun r s1 =>
       match r with
       | Next _ =>
           tx_hashes s1 = (tx_Hash tx, h) :: tx_hashes s
           /\ (h <> 63448 -> recorded s (tx_Hash tx) = false)
       | Exit (Returned (_, None)) => False
       | Exit _ => True
       end) s.
Proof.
  intros Hk. unfold WriteInChainState_one. destruct totals as [u g].
  do 3 wp_step. apply wp_leave_if_err; [discriminate|intros _].
  do 2 wp_step; [exact I|].
  do 3 wp_step. apply wp_leave_if_err; [discriminate|intros _].
  wp_step. apply wp_tx_WriteInChainState; [exact Hk| |intros; exact I].
  intros e s1 Hs1. wp_step.
  apply wp_leave_if_err; [intros e' ->; exact I|intros ->].
  repeat wp_step; try exact I.
  simpl in Hs1. split; [exact Hs1|].
  intros Hh. fold (recorded s (tx_Hash tx)) in H.
  apply andb_false_iff in H as [H|H]; [exact H|].
  apply negb_false_iff, Z.eqb_eq in H. contradiction.
Qed.

(** The loop, by induction on the transactions: when it goes through, it
    has recorded the hash of each, and at a height other than 63448 the
    hashes are distinct and none was recorded before. *)
Lemma WriteInChainState_loop txs h l : forall totals s,
  transactions_keep_tx_hashes ->
  wp (for_each l totals (WriteInChainState_one txs h))
    (fun r s1 =>
       match r with
       | Next _ =>
           tx_hashes s1 = rev (map (fun tx => (tx_Hash tx, h)) l) ++ tx_hashes s
           /\ (h <> 63448 ->
               NoDup (map tx_Hash l)
               /\ forall tx, tx ∈ l -> recorded s (tx_Hash tx) = false)
       | Exit (Returned (_, None)) => False
       | Exit _ => True
       end) s.
Proof.
  induction l as [|tx l IH]; intros totals s Hk; simpl.
  - apply wp_ret. split; [reflexivity|]. intros _. split; [constructor|].
    intros tx Hin. inversion Hin.
  - apply wp_bind.
    pose proof (WriteInChainState_one_next txs h tx totals s Hk) as H1.
    unfold wp in *.
    destruct (WriteInChainState_one txs h tx totals s) as [[t1|x] s1]; simpl in *;
      [|exact H1].
    destruct H1 as [Hs1 Hr1].
    specialize (IH t1 s1 Hk).
    destruct (for_each l t1 (WriteInChainState_one txs h) s1) as [[t2|x] s2];
      simpl in *; [|exact IH].
    destruct IH as [Hs2 Hr2]. split.
    + rewrite Hs2, Hs1. rewrite <- app_assoc. reflexivity.
    + intros Hh. destruct (Hr2 Hh) as [Hnd Hall]. specialize (Hr1 Hh).
      assert (Hfresh : forall tx', tx' ∈ l -> tx_Hash tx' <> tx_Hash tx).
      { intros tx' Hin Heq. specialize (Hall tx' Hin).
        assert (recorded s1 (tx_Hash tx') = true); [|congruence].
        apply recorded_spec. rewrite Hs1, Heq. simpl. left. }
      split.
      * constructor; [|exact Hnd].
        intros Hin. apply list_elem_of_In, in_map_iff in Hin as [tx' [Heq Hin]].
        apply (Hfresh tx'); [apply list_elem_of_In; exact Hin|exact Heq].
      * intros tx' Hin. apply elem_of_cons in Hin as [->|Hin]; [exact Hr1|].
        specialize (Hall tx' Hin).
        destruct (recorded s (tx_Hash tx')) eqn:E; [|reflexivity].
        apply recorded_spec in E.
        assert (recorded s1 (tx_Hash tx') = true); [|congruence].
        apply recorded_spec. rewrite Hs1. simpl. right. exact E.
Qed.

Lemma Block_v1_WriteInChainState_success block s :
  transactions_keep_tx_hashes ->
  block_succeeded (call (Block_v1_WriteInChainState block) s) = true ->
  let h := GetHeight block in
  let l := tail (Transactions block) in
  tx_hashes (snd (call (Block_v1_WriteInChainState block) s))
    = rev (map (fun tx => (tx_Hash tx, h)) l) ++ tx_hashes s
  /\ (h <> 63448 ->
      NoDup (map tx_Hash l) /\ forall tx, tx ∈ l -> recorded s (tx_Hash tx) = false).
Proof.
  intros Hk. cbv zeta.
  pose proof (WriteInChainState_loop (Transactions block) (GetHeight block)
                (tail (Transactions block)) (NewEmptyAmount, NewEmptyAmount) s Hk) as HL.
  pattern (call (Block_v1_WriteInChainState block) s).
  apply wp_call. unfold Block_v1_WriteInChainState. cbv zeta.
  apply wp_bind. unfold wp at 1. unfold wp in HL.
  destruct (for_each (tail (Transactions block)) (NewEmptyAmount, NewEmptyAmount)
              (WriteInChainState_one (Transactions block) (GetHeight block)) s)
    as [[[u g]|x] s1]; simpl in HL |- *.
  - destruct (Transactions block) as [|tx0 rest] eqn:Htxs.
    + wp_step. simpl. discriminate.
    + wp_step. wp_step; [simpl; discriminate|].
      destruct tx0 as [cb|t]; [|wp_step; simpl; discriminate].
      wp_step. apply wp_tx_WriteInChainState; [exact Hk| |intros; simpl in *; discriminate].
      intros e s2 Hs2. wp_step.
      apply wp_leave_if_err; [intros e' ->; simpl; discriminate|intros ->].
      wp_step. simpl. intros _. rewrite Hs2. exact HL.
  - simpl. destruct x as [[txs [e|]]|msg]; simpl; try discriminate. contradiction.
Qed.

(** C4.  At a height other than 63448, a block with a customer transaction
    whose hash the chain state has recorded is not applied with success;
    a block applied with success has customer transactions of distinct
    hashes, and leaves no hash recorded twice if none was before. *)
Theorem Block_v1_rejects_recorded_tx (block : Block_v1) (s : ChainState) :
  transactions_keep_tx_hashes ->
  GetHeight block <> 63448 ->
  (forall tx,
      tx ∈ tail (Transactions block) ->
      recorded s (tx_Hash tx) = true ->
      block_succeeded (call (Block_v1_WriteInChainState block) s) = false)
  /\ (block_succeeded (call (Block_v1_WriteInChainState block) s) = true ->
      NoDup (map tx_Hash (tail (Transactions block)))
      /\ (NoDup (map fst (tx_hashes s)) ->
          NoDup (map fst (tx_hashes (snd (call (Block_v1_WriteInChainState block) s)))))).
Proof.
  intros Hk Hh. split.
  - intros tx Hin Hrec.
    destruct (block_succeeded (call (Block_v1_WriteInChainState block) s)) eqn:E;
      [|reflexivity].
    apply (Block_v1_WriteInChainState_success block s Hk) in E as [_ E].
    destruct (E Hh) as [_ Hall]. rewrite (Hall tx Hin) in Hrec. discriminate Hrec.
  - intros E.
    apply (Block_v1_WriteInChainState_success block s Hk) in E as [-> E].
    destruct (E Hh) as [Hnew Hall]. split; [exact Hnew|]. intros Hnd.
    rewrite map_app, map_rev, map_map. simpl.
    apply NoDup_app. split; [|split].
    + apply NoDup_ListNoDup, List.NoDup_rev, NoDup_ListNoDup. exact Hnew.
    + intros hx Hin Hold.
      apply list_elem_of_In, in_rev, in_map_iff in Hin as [tx [<- Hin]].
      apply list_elem_of_In in Hin.
      apply recorded_spec in Hold. rewrite (Hall tx Hin) in Hold. discriminate Hold.
    + exact Hnd.
Qed.

End BlockApply.

Section ActionsKeepHashes.
Context `{Ext : Externals}.

Lemma Action_WriteinChainState_tx_hashes mark a s :
  tx_hashes (snd (Action_WriteinChainState mark a s)) = tx_hashes s.
Proof.
  destruct a; simpl; apply preserves_call.
  - unfold Action_4_WriteinChainState. frame.
  - unfold Action_5_WriteinChainState. frame.
  - unfold Action_6_WriteinChainState. frame.
  - unfold Action_15_WriteinChainState, Action_15_mortgage_one. frame.
  - unfold Action_16_WriteinChainState, Action_16_WriteinChainState_with. frame.
Qed.

Lemma apply_actions_tx_hashes mark l : forall s,
  tx_hashes (snd (apply_actions mark l s)) = tx_hashes s.
Proof.
  induction l as [|a l IH]; intros s; simpl; [reflexivity|].
  pose proof (Action_WriteinChainState_tx_hashes mark a s) as Ha.
  destruct (Action_WriteinChainState mark a s) as [[[e|]|msg] s1]; simpl in *;
    try exact Ha.
  rewrite IH. exact Ha.
Qed.

End ActionsKeepHashes.

Lemma reference_transactions_keep :
  @transactions_keep_tx_hashes reference_externals reference_transactions.
Proof.
  split.
  - intros t s. apply (@apply_actions_tx_hashes reference_externals).
  - intros c s. change (coinbase_WriteInChainState c s) with (reference_coinbase_write c s).
    unfold reference_coinbase_write. apply preserves_call. frame.
Qed.

(** [block_7] holds [tx_a]; [state_recorded] has it recorded. *)
Lemma Block_v1_rejects_recorded_tx_witness :
  block_succeeded (call (Block_v1_WriteInChainState block_7) state_recorded) = false.
Proof.
  apply (proj1 (Block_v1_rejects_recorded_tx block_7 state_recorded
                  reference_transactions_keep
                  ltac:(vm_compute; discriminate)) (customer tx_a)).
  - apply list_elem_of_In. simpl. left. reflexivity.
  - vm_compute. reflexivity.
Defined.

(** ** Action 15: the mortgage loop *)

Section Mortgage.
Context `{Ext : Externals}.

(** What one turn of the mortgage loop does, by the way it ends: it goes on
    with the price added, or leaves with [nil] on a failed read, the diamond
    marked in both cases; it leaves in no other way but with an error or a
    panic. *)
Lemma Action_15_mortgage_one_spec feeAddr d acc s :
  wp (Action_15_mortgage_one feeAddr d acc)
    (fun r s1 =>
       match r with
       | Next acc' =>
           exists item bs smelt,
             diamonds s !! d = Some item
             /\ Status item = DiamondStatusNormal
             /\ Address item = feeAddr
             /\ block_store s = Some bs
             /\ bs_diamond bs !! d = Some (Readable smelt)
             /\ acc' = int64 (acc + int64 (AverageBidBurnPrice smelt))
             /\ s1 = mortgaged d item s
       | Exit (Returned None) =>
           exists item bs e,
             diamonds s !! d = Some item
             /\ Status item = DiamondStatusNormal
             /\ Address item = feeAddr
             /\ block_store s = Some bs
             /\ bs_diamond bs !! d = Some (Unreadable e)
             /\ s1 = mortgaged d item s
       | Exit _ => True
       end) s.
Proof.
  unfold Action_15_mortgage_one.
  repeat wp_step; try exact I.
  all: match goal with
       | H : ReadDiamond ?b ?d = _ |- _ =>
           unfold ReadDiamond, bs_read in H;
           destruct (bs_diamond b !! d) as [[smelt|e]|] eqn:Hbs;
           simplify_eq
       end.
  all: tests.
  all: try match goal with
         | H : is_Some None |- _ => destruct H; discriminate
         | H : ¬ is_Some (Some _) |- _ => exfalso; apply H; eauto
         end.
  all: simpl in *.
  all: try solve [eexists _, _, _; repeat split; try eassumption; reflexivity].
Qed.

Lemma Action_15_mortgage_one_unreadable feeAddr d acc s item bs e :
  diamonds s !! d = Some item ->
  Status item = DiamondStatusNormal ->
  Address item = feeAddr ->
  block_store s = Some bs ->
  bs_diamond bs !! d = Some (Unreadable e) ->
  Action_15_mortgage_one feeAddr d acc s = (Exit (Returned None), mortgaged d item s).
Proof.
  intros Hd Hst Haddr Hbs He.
  assert (Hread : ReadDiamond bs d = (None, Some e))
    by (unfold ReadDiamond, bs_read; rewrite He; reflexivity).
  assert (Hc1 : negb (Status item =? DiamondStatusNormal) = false)
    by (rewrite Hst, Z.eqb_refl; reflexivity).
  assert (Hc2 : negb (bytes_Equal (Address item) feeAddr) = false).
  { unfold bytes_Equal. rewrite bool_decide_eq_true_2 by exact Haddr. reflexivity. }
  assert (Hc3 : bool_decide (is_Some (Some e)) = true)
    by (apply bool_decide_eq_true; eauto).
  apply wp_run. unfold Action_15_mortgage_one.
  repeat wp_step. reflexivity.
Qed.

(** The diamonds a run of the loop has got through are in the lending
    status, and so is whatever was before. *)
Lemma Action_15_loop_status feeAddr l : forall acc s acc' s1 x,
  for_each l acc (Action_15_mortgage_one feeAddr) s = (Next acc', s1) ->
  x ∈ l \/ Status <$> diamonds s !! x = Some DiamondStatusLendingSystem ->
  Status <$> diamonds s1 !! x = Some DiamondStatusLendingSystem.
Proof.
  induction l as [|d l IH]; intros acc s acc' s1 x Hrun Hx; simpl in Hrun.
  - injection Hrun as <- <-. destruct Hx as [Hx|Hx]; [inversion Hx|exact Hx].
  - unfold bind in Hrun.
    pose proof (Action_15_mortgage_one_spec feeAddr d acc s) as H1. unfold wp in H1.
    destruct (Action_15_mortgage_one feeAddr d acc s) as [[a|ex] s0]; [|discriminate Hrun].
    simpl in H1. destruct H1 as (item & bs & smelt & Hd & _ & _ & _ & _ & _ & ->).
    apply (IH _ _ _ _ x Hrun).
    destruct (decide (x = d)) as [->|Hne].
    + right. simpl. rewrite lookup_insert_eq. reflexivity.
    + destruct Hx as [Hx|Hx].
      * apply elem_of_cons in Hx as [Hx|Hx]; [contradiction|left; exact Hx].
      * right. simpl. rewrite lookup_insert_ne by congruence. exact Hx.
Qed.

(** C9.  When the read of the block store fails for a mortgaged diamond [d],
    after the diamonds [pre] before it went through, [Action_15] returns
    [nil]: [d] and the diamonds of [pre] are in the lending status, and the
    balances, the lending contracts and the supply counters are those of
    the state the action started from. *)
Theorem Action_15_store_error_reports_success
    (act : Action_15_DiamondsSystemLendingCreate) (s s1 : ChainState)
    (trs : Transaction) (pre post : list Bytes) (d : Bytes) (acc : Z)
    (item : Diamond) (bs : BlockStore) (e : error) :
  a15_belong_trs act = Some trs ->
  lending_id_format_error (a15_LendingID act) = false ->
  diamond_lendings s !! a15_LendingID act = None ->
  Diamonds (a15_MortgageDiamondList act) = pre ++ d :: post ->
  Count (a15_MortgageDiamondList act) = Z.of_nat (length (pre ++ d :: post)) ->
  Count (a15_MortgageDiamondList act) <= 200 ->
  1 <= a15_BorrowPeriod act <= 20 ->
  for_each pre 0 (Action_15_mortgage_one (GetAddress trs)) s = (Next acc, s1) ->
  diamonds s1 !! d = Some item ->
  Status item = DiamondStatusNormal ->
  Address item = GetAddress trs ->
  block_store s1 = Some bs ->
  bs_diamond bs !! d = Some (Unreadable e) ->
  let s2 := mortgaged d item s1 in
  call (Action_15_WriteinChainState true act) s = (Returned None, s2)
  /\ (forall x, x ∈ pre ++ [d] ->
      Status <$> diamonds s2 !! x = Some DiamondStatusLendingSystem)
  /\ hac_balance s2 = hac_balance s
  /\ diamond_balance s2 = diamond_balance s
  /\ diamond_lendings s2 = diamond_lendings s
  /\ total_supply s2 = total_supply s.
Proof.
  intros Htrs Hid Hnew Hds Hcount H200 Hperiod Hpre Hd Hst Haddr Hbs He s2.
  assert (Hloop : for_each (pre ++ d :: post) 0 (Action_15_mortgage_one (GetAddress trs)) s
                  = (Exit (Returned None), s2)).
  { rewrite for_each_app. unfold bind. rewrite Hpre. simpl. unfold bind.
    rewrite (Action_15_mortgage_one_unreadable _ _ _ _ item bs e) by assumption.
    reflexivity. }
  assert (Hframe : forall {X} (f : ChainState -> X),
             preserves f (for_each pre 0 (Action_15_mortgage_one (GetAddress trs))) ->
             f s1 = f s).
  { intros X f Hf. specialize (Hf s). rewrite Hpre in Hf. exact Hf. }
  split; [|split; [|repeat split]].
  - pattern (call (Action_15_WriteinChainState true act) s).
    apply wp_call. unfold Action_15_WriteinChainState. rewrite Htrs, Hid, Hds.
    assert (Hc1 : (Count (a15_MortgageDiamondList act) =? 0)
                  || negb (Count (a15_MortgageDiamondList act)
                           =? Z.of_nat (length (pre ++ d :: post))) = false).
    { rewrite Hcount, Z.eqb_refl. rewrite length_app. simpl.
      apply orb_false_iff. split; [apply Z.eqb_neq; lia|reflexivity]. }
    assert (Hc2 : (200 <? Count (a15_MortgageDiamondList act)) = false)
      by (apply Z.ltb_ge; lia).
    assert (Hc3 : (a15_BorrowPeriod act <? 1) || (20 <? a15_BorrowPeriod act) = false).
    { apply orb_false_iff. split; apply Z.ltb_ge; lia. }
    assert (Hc0 : bool_decide (is_Some (diamond_lendings s !! a15_LendingID act)) = false).
    { rewrite Hnew. apply bool_decide_eq_false. intros [? ?]. discriminate. }
    repeat wp_step. reflexivity.
  - intros x Hx. unfold s2. simpl.
    destruct (decide (x = d)) as [->|Hne].
    + rewrite lookup_insert_eq. reflexivity.
    + rewrite lookup_insert_ne by congruence.
      apply (Action_15_loop_status _ _ _ _ _ _ x Hpre).
      apply elem_of_app in Hx as [Hx|Hx]; [left; exact Hx|].
      apply list_elem_of_singleton in Hx. contradiction.
  - unfold s2. simpl. apply Hframe. unfold Action_15_mortgage_one. frame.
  - unfold s2. simpl. apply Hframe. unfold Action_15_mortgage_one. frame.
  - unfold s2. simpl. apply Hframe. unfold Action_15_mortgage_one. frame.
  - unfold s2. simpl. apply Hframe. unfold Action_15_mortgage_one. frame.
Qed.

End Mortgage.

(** [create_1] on [state_unreadable]: the first diamond goes through, the
    read of the second fails. *)
Lemma Action_15_store_error_reports_success_witness :
  fst (call (Action_15_WriteinChainState true create_1) state_unreadable) = Returned None
  /\ diamond_lendings
       (snd (call (Action_15_WriteinChainState true create_1) state_unreadable))
     = diamond_lendings state_unreadable.
Proof.
  pose (s1 := snd (for_each [diamond_1] 0
                     (Action_15_mortgage_one alice) state_unreadable)).
  destruct (Action_15_store_error_reports_success create_1 state_unreadable s1
              {| GetAddress := alice |} [diamond_1] [] diamond_2 100
              {| Status := 1; Address := alice |}
              {| bs_diamond :=
                   {[ diamond_1 := Readable (smelt_priced diamond_1 100);
                      diamond_2 := Unreadable store_error ]};
                 bs_diamond_by_number := ∅ |}
              store_error) as (Hcall & _ & _ & _ & Hlend & _).
  - reflexivity.
  - vm_compute. reflexivity.
  - vm_compute. reflexivity.
  - reflexivity.
  - reflexivity.
  - simpl. lia.
  - simpl. lia.
  - unfold s1.
    rewrite (surjective_pairing
               (for_each [diamond_1] 0 (Action_15_mortgage_one alice) state_unreadable)) at 1.
    f_equal; vm_compute; reflexivity.
  - vm_compute. reflexivity.
  - reflexivity.
  - reflexivity.
  - reflexivity.
  - vm_compute. reflexivity.
  - rewrite Hcall. split; [reflexivity|exact Hlend].
Defined.

Section MortgageSuccess.
Context `{Ext : Externals}.

Lemma wp_DoSubDiamondFromChainState {R} addr n
    (Q : step R goerror -> ChainState -> Prop) s :
  (forall e, Q (Next (Some e)) s) ->
  Q (Next None)
    (set_diamond_balance
       (<[addr := default 0 (diamond_balance s !! addr) - n]> (diamond_balance s)) s) ->
  wp (DoSubDiamondFromChainState addr n) Q s.
Proof.
  intros He Hok. unfold wp, DoSubDiamondFromChainState.
  destruct (default 0 (diamond_balance s !! addr) <? n); simpl; auto.
Qed.

Lemma wp_DoAddBalanceFromChainState {R} addr amt
    (Q : step R goerror -> ChainState -> Prop) s :
  (forall e, Q (Next (Some e)) s) ->
  (forall total, Q (Next None) (set_hac_balance (<[addr := total]> (hac_balance s)) s)) ->
  wp (DoAddBalanceFromChainState addr amt) Q s.
Proof.
  intros He Hok. unfold wp, DoAddBalanceFromChainState.
  destruct (Amount_Add _ amt); simpl; auto.
Qed.

(** The mortgage loop as a whole, by the way it ends. *)
Lemma Action_15_loop_spec feeAddr l : forall acc s,
  DiamondStatusNormal <> DiamondStatusLendingSystem ->
  wp (for_each l acc (Action_15_mortgage_one feeAddr))
    (fun r s1 =>
       match r with
       | Next acc' =>
           NoDup l
           /\ (forall d, d ∈ l ->
               exists item,
                 diamonds s !! d = Some item
                 /\ Status item = DiamondStatusNormal
                 /\ Address item = feeAddr)
           /\ (forall d, d ∈ l ->
               Status <$> diamonds s1 !! d = Some DiamondStatusLendingSystem)
           /\ (l <> [] -> is_Some (block_store s))
           /\ (forall bs, block_store s = Some bs -> loan_sum bs l acc = Some acc')
       | Exit (Returned None) =>
           exists bs d e,
             block_store s = Some bs /\ d ∈ l /\ bs_diamond bs !! d = Some (Unreadable e)
       | Exit _ => True
       end) s.
Proof.
  induction l as [|d l IH]; intros acc s Hne.
  - apply wp_ret. split; [|split; [|split; [|split]]].
    + constructor.
    + intros d Hd. inversion Hd.
    + intros d Hd. inversion Hd.
    + intros H. contradiction.
    + reflexivity.
  - unfold wp. simpl. unfold bind.
    pose proof (Action_15_mortgage_one_spec feeAddr d acc s) as H1. unfold wp in H1.
    destruct (Action_15_mortgage_one feeAddr d acc s) as [[a|ex] s0] eqn:Hone; simpl in *.
    + destruct H1 as (item & bs & smelt & Hd & Hst & Haddr & Hbs & Hread & -> & ->).
      specialize (IH (int64 (acc + int64 (AverageBidBurnPrice smelt)))
                    (mortgaged d item s) Hne).
      unfold wp in IH.
      destruct (for_each l (int64 (acc + int64 (AverageBidBurnPrice smelt)))
                  (Action_15_mortgage_one feeAddr) (mortgaged d item s))
        as [[acc'|x] s1] eqn:Hrun; simpl in *.
      * destruct IH as (Hnd & Hall & Hstat & _ & Hsum).
        assert (Hfresh : d ∉ l).
        { intros Hin. destruct (Hall d Hin) as (item' & Hd' & Hst' & _).
          rewrite lookup_insert_eq in Hd'. injection Hd' as <-. simpl in Hst'.
          congruence. }
        split; [|split; [|split; [|split]]].
        -- constructor; assumption.
        -- intros x Hx. apply elem_of_cons in Hx as [->|Hx]; [eauto|].
           destruct (Hall x Hx) as (item' & Hd' & Hrest).
           rewrite lookup_insert_ne in Hd' by (intros ->; contradiction).
           eauto.
        -- intros x Hx.
           apply (Action_15_loop_status _ _ _ _ _ _ x Hrun).
           apply elem_of_cons in Hx as [->|Hx]; [right|left; exact Hx].
           simpl. rewrite lookup_insert_eq. reflexivity.
        -- intros _. eauto.
        -- intros bs' Hbs'. rewrite Hbs in Hbs'. injection Hbs' as <-.
           rewrite Hread. apply Hsum. exact Hbs.
      * destruct x as [[e|]|msg]; try exact I.
        destruct IH as (bs' & d' & e & Hbs' & Hin & He).
        exists bs', d', e. repeat split; [exact Hbs'| |exact He].
        apply elem_of_cons. right. exact Hin.
    + destruct ex as [[e|]|msg]; try exact I.
      destruct H1 as (item & bs & e & _ & _ & _ & Hbs & He & _).
      exists bs, d, e. repeat split; [exact Hbs| |exact He].
      apply elem_of_cons. left. reflexivity.
Qed.

(** When the two status constants differ and the block store fails no read
    of a listed diamond, [Action_15] returns [nil] only under the
    preconditions of the specification, and then every listed diamond is in
    the lending status and the contract is persisted, not ransomed. *)
Lemma Action_15_success_conditions act s s' :
  DiamondStatusNormal <> DiamondStatusLendingSystem ->
  (forall bs d e,
      block_store s = Some bs ->
      d ∈ Diamonds (a15_MortgageDiamondList act) ->
      bs_diamond bs !! d <> Some (Unreadable e)) ->
  call (Action_15_WriteinChainState true act) s = (Returned None, s') ->
  exists trs bs total,
    a15_belong_trs act = Some trs
    /\ lending_id_format_error (a15_LendingID act) = false
    /\ diamond_lendings s !! a15_LendingID act = None
    /\ 1 <= Count (a15_MortgageDiamondList act) <= 200
    /\ Count (a15_MortgageDiamondList act)
       = Z.of_nat (length (Diamonds (a15_MortgageDiamondList act)))
    /\ 1 <= a15_BorrowPeriod act <= 20
    /\ NoDup (Diamonds (a15_MortgageDiamondList act))
    /\ (forall d, d ∈ Diamonds (a15_MortgageDiamondList act) ->
        exists item,
          diamonds s !! d = Some item
          /\ Status item = DiamondStatusNormal
          /\ Address item = GetAddress trs)
    /\ block_store s = Some bs
    /\ loan_sum bs (Diamonds (a15_MortgageDiamondList act)) 0 = Some total
    /\ Amount_Equal (NewAmountByUnit248 total) (a15_LoanTotalAmount act) = true
    /\ (forall d, d ∈ Diamonds (a15_MortgageDiamondList act) ->
        Status <$> diamonds s' !! d = Some DiamondStatusLendingSystem)
    /\ diamond_lendings s' !! a15_LendingID act
       = Some (Action_15_contract act trs (pending_block_height s) total).
Proof.
  intros Hne Hreads.
  pattern (call (Action_15_WriteinChainState true act) s).
  apply wp_call. unfold Action_15_WriteinChainState.
  repeat wp_step; try (intros Heq; discriminate Heq).
  match goal with
  | H : a15_belong_trs act = Some ?x |- _ => rename x into trs
  end.
  pose proof (Action_15_loop_spec (GetAddress trs)
                (Diamonds (a15_MortgageDiamondList act)) 0 s Hne) as Hloop.
  assert (Hframe : forall {X} (f : ChainState -> X),
             preserves f (for_each (Diamonds (a15_MortgageDiamondList act)) 0
                            (Action_15_mortgage_one (GetAddress trs))) ->
             f (snd (for_each (Diamonds (a15_MortgageDiamondList act)) 0
                       (Action_15_mortgage_one (GetAddress trs)) s)) = f s).
  { intros X f Hf. apply Hf. }
  unfold wp at 1. unfold wp in Hloop.
  destruct (for_each (Diamonds (a15_MortgageDiamondList act)) 0
              (Action_15_mortgage_one (GetAddress trs)) s) as [[total|x] s1];
    simpl in Hloop, Hframe |- *.
  2:{ destruct x as [[e|]|msg]; intros Heq; try discriminate Heq.
      destruct Hloop as (bs & d & e & Hbs & Hin & He).
      exfalso. exact (Hreads bs d e Hbs Hin He). }
  destruct Hloop as (Hnd & Hall & Hstat & Hbs & Hsum).
  repeat first
    [ apply wp_DoSubDiamondFromChainState; [intros ?|]
    | apply wp_DoAddBalanceFromChainState; [intros ?|intros ?]
    | wp_step ];
    try (intros Heq; discriminate Heq).
  all: try match goal with
         | H : Some _ = None |- _ => discriminate H
         end.
  intros Heq. injection Heq as <-. state_simpl.
  tests.
  assert (Hh : pending_block_height s1 = pending_block_height s)
    by (apply Hframe; unfold Action_15_mortgage_one; frame).
  assert (Hb : block_store s1 = block_store s)
    by (apply Hframe; unfold Action_15_mortgage_one; frame).
  assert (Hcount : Count (a15_MortgageDiamondList act)
                   = Z.of_nat (length (Diamonds (a15_MortgageDiamondList act)))
                   /\ Count (a15_MortgageDiamondList act) <> 0).
  { match goal with
    | H : (Count _ =? 0) || _ = false |- _ => apply orb_false_iff in H as [Hz Hl]
    end.
    tests. split; assumption. }
  destruct Hcount as [Hlen Hnz].
  destruct Hbs as [bs Hbs].
  { intros Hnil. rewrite Hnil in Hlen. simpl in Hlen. contradiction. }
  exists trs, bs, total.
  repeat match goal with
         | H : _ || _ = false |- _ => apply orb_false_iff in H as [? ?]
         | H : (_ <? _) = false |- _ => apply Z.ltb_ge in H
         end.
  repeat split; try assumption; try lia.
  - match goal with
    | H : ¬ is_Some ?x |- ?x = None =>
        destruct x; [exfalso; apply H; eauto | reflexivity]
    end.
  - apply Hsum. exact Hbs.
  - rewrite lookup_insert_eq. unfold Action_15_contract. rewrite Hh. reflexivity.
Qed.

End MortgageSuccess.

(** C5, at an input the claim fails on.  [create_bad] lists a diamond that
    does not exist and asks for a loan that is not the sum of the prices,
    and the read of its second diamond fails: [Action_15] returns [nil],
    with no contract made and nothing paid. *)
Theorem Action_15_returns_nil_without_contract :
  fst (call (Action_15_WriteinChainState true create_bad) state_unreadable) = Returned None
  /\ diamonds state_unreadable !! diamond_absent = None
  /\ diamond_lendings after_create_bad !! lending_1 = None
  /\ hac_balance after_create_bad !! alice = None
  /\ diamond_balance after_create_bad !! alice = Some 2
  /\ Status <$> diamonds after_create_bad !! diamond_1 = Some 2
  /\ Status <$> diamonds after_create_bad !! diamond_2 = Some 2.
Proof. repeat split; vm_compute; reflexivity. Qed.

(** ** Apply and revert *)

Section Revert.
Context `{Ext : Externals}.

Lemma wp_frame {X R A} (f : ChainState -> X) (m : M R A)
    (Q : step R A -> ChainState -> Prop) s :
  preserves f m -> (forall r s1, f s1 = f s -> Q r s1) -> wp m Q s.
Proof. intros Hm HQ. unfold wp. apply HQ. apply Hm. Qed.

(** X3.  The revert of a successful [Action_5] gives the state back. *)
Lemma Action_5_revert_restores act s s1 :
  call (Action_5_WriteinChainState act) s = (Returned None, s1) ->
  call (Action_5_RecoverChainState act) s1 = (Returned None, s).
Proof.
  pattern (call (Action_5_WriteinChainState act) s).
  apply wp_call. unfold Action_5_WriteinChainState, Action_5_RecoverChainState.
  repeat wp_step; intros Heq; try discriminate Heq.
  injection Heq as <-. tests.
  match goal with
  | |- call ?m ?s0 = _ => pattern (call m s0)
  end.
  apply wp_call. do 2 wp_step. rewrite lookup_insert_eq.
  repeat wp_step. simpl. f_equal.
  rewrite insert_insert_eq.
  rewrite insert_id.
  - destruct s; reflexivity.
  - match goal with
    | H : diamonds s !! _ = Some _ |- _ => rewrite H
    end.
    destruct d; simpl in *. congruence.
Qed.

(** Action 16: a successful ransom found the contract; whatever a
    successful revert starts from, it leaves no contract under the id. *)
Lemma Action_16_apply_found_contract mark act s s1 :
  call (Action_16_WriteinChainState mark act) s = (Returned None, s1) ->
  is_Some (diamond_lendings s !! a16_LendingID act).
Proof.
  destruct (diamond_lendings s !! a16_LendingID act) as [c|] eqn:Hc; [eauto|].
  pattern (call (Action_16_WriteinChainState mark act) s).
  apply wp_call. unfold Action_16_WriteinChainState, Action_16_WriteinChainState_with.
  repeat wp_step; intros Heq; discriminate Heq.
Qed.

Lemma Action_16_revert_deletes_contract mark act s1 s2 :
  call (Action_16_RecoverChainState mark act) s1 = (Returned None, s2) ->
  diamond_lendings s2 !! a16_LendingID act = None.
Proof.
  pattern (call (Action_16_RecoverChainState mark act) s1).
  apply wp_call. unfold Action_16_RecoverChainState.
  do 2 wp_step; [intros Heq; discriminate Heq|].
  wp_step; [|wp_step; intros Heq; discriminate Heq].
  do 2 wp_step. wp_step; [|wp_step; intros Heq; discriminate Heq].
  do 2 wp_step.
  eapply (wp_frame diamond_lendings); [frame|].
  intros r s3 Hs3 Heq. simpl in Hs3.
  replace s2 with s3 by (destruct r; simpl in Heq; congruence).
  rewrite Hs3. apply lookup_delete_eq.
Qed.

End Revert.

(** C1, at an input the claim fails on.  The ransom [ransom_1] of
    [contract_1] is applied with success and reverted with success, and the
    state after the revert is not the state before the apply: the contract
    is gone, the redeemer holds the ransom amount twice over on top of the
    balance it had, and two diamonds less. *)
Theorem Action_16_revert_does_not_restore :
  fst (call (Action_16_WriteinChainState true ransom_1) state_mortgaged) = Returned None
  /\ fst (call (Action_16_RecoverChainState true ransom_1) after_ransom) = Returned None
  /\ diamond_lendings state_mortgaged !! lending_1 = Some contract_1
  /\ diamond_lendings after_revert !! lending_1 = None
  /\ hac_balance state_mortgaged !! alice = Some (1000 * 10 ^ 248)
  /\ hac_balance after_revert !! alice = Some (1000 * 10 ^ 248 + 2 * (301500 * 10 ^ 245))
  /\ diamond_balance state_mortgaged !! alice = Some 5
  /\ diamond_balance after_revert !! alice = Some 3.
Proof. repeat split; vm_compute; reflexivity. Qed.

(** ** The cached block hash *)

Section BlockHash.
Context `{Ext : Externals} `{Txs : !TransactionOps}.

(** C7, as the code has it.  [Hash] called again returns what it returned;
    a setter leaves the cache as it is, so that [Hash] after a setter still
    returns the hash from before; after [Fresh], and by [HashFresh], the
    hash is that of the header and meta the setter left. *)
Theorem Hash_is_cached_until_Fresh (block : Block_v1) (m : mutation) :
  fst (Hash (snd (Hash block))) = fst (Hash block)
  /\ fst (Hash (mutate m (snd (Hash block)))) = fst (Hash block)
  /\ fst (Hash (Fresh (mutate m (snd (Hash block)))))
     = CalculateBlockHash (mutate m block)
  /\ fst (HashFresh (mutate m (snd (Hash block))))
     = CalculateBlockHash (mutate m block).
Proof.
  unfold Hash, HashFresh, hashFreshUnsafe, Fresh.
  destruct (hash block) as [h|] eqn:Hh; simpl.
  - rewrite Hh. repeat split; destruct m; simpl; try rewrite Hh; reflexivity.
  - repeat split; destruct m; reflexivity.
Qed.

End BlockHash.

(** [Hash], [SetNonce 7], [Hash] on [block_0]: the second call returns the
    hash of the block with nonce 0, not the hash of the block as it is. *)
Lemma Hash_after_SetNonce_is_stale :
  hex_EncodeToString (fst (Hash (SetNonce 7 (snd (Hash block_0)))))
  = "4102a38f31200d480ad7c0d1f2209d7106a3ab3295f3872004e9c7da40ea88a4"%string
  /\ hex_EncodeToString (CalculateBlockHash (SetNonce 7 (snd (Hash block_0))))
     = "667cbf5a9135e165582d786e16f9e7fb60d635a434686267ae0c2209f32d42ab"%string.
Proof. split; vm_compute; reflexivity. Qed.

(** ** Parsing the diamond actions *)

(** C8, where the claim fails.  The [Parse] methods of actions 4, 5 and 6
    return no error for any buffer; on the empty buffer [Action_4.Parse]
    returns [nil] and leaves the action at its zero value. *)
Theorem action_Parse_never_fails :
  (forall elm buf seek, snd (snd (Action_4_Parse elm buf seek)) = None)
  /\ (forall elm buf seek, snd (snd (Action_5_Parse elm buf seek)) = None)
  /\ (forall elm buf seek, snd (snd (Action_6_Parse elm buf seek)) = None)
  /\ Action_4_Parse Action_4_zero [] 0 = (Action_4_zero, (0, None)).
Proof.
  repeat split.
  - intros. unfold Action_4_Parse.
    repeat match goal with
           | |- context [let '(_, _) := ?x in _] => destruct x as [? [? ?]]
           end.
    reflexivity.
  - intros. unfold Action_5_Parse.
    repeat match goal with
           | |- context [let '(_, _) := ?x in _] => destruct x as [? [? ?]]
           end.
    reflexivity.
  - intros. unfold Action_6_Parse.
    repeat match goal with
           | |- context [let '(_, _) := ?x in _] => destruct x as [? [? ?]]
           end.
    destruct (Action_6_Parse_diamonds _ _ _). reflexivity.
Qed.

Section LoanSum.
Context `{Ext : Externals}.

(** With prices of at most 32 bits the sum of the loop does not wrap. *)
Lemma loan_sum_exact bs l : forall acc total,
  loan_sum bs l acc = Some total ->
  (forall d, d ∈ l -> 0 <= price_of bs d < 2 ^ 32) ->
  0 <= acc ->
  acc + 2 ^ 32 * Z.of_nat (length l) < 2 ^ 63 ->
  total = acc + price_sum bs l.
Proof.
  induction l as [|d l IH]; intros acc total Hsum Hp Hacc Hlen; simpl in *.
  - injection Hsum as <-. unfold price_sum. simpl. lia.
  - assert (Hd : 0 <= price_of bs d < 2 ^ 32) by (apply Hp; left).
    unfold price_of in Hd.
    destruct (bs_diamond bs !! d) as [[smelt|e]|] eqn:Hread; try discriminate Hsum.
    rewrite (int64_small (AverageBidBurnPrice smelt)) in Hsum by lia.
    rewrite int64_small in Hsum by lia.
    apply IH in Hsum.
    + unfold price_sum in *. simpl. unfold price_of at 1. rewrite Hread. lia.
    + intros x Hx. apply Hp. right. exact Hx.
    + lia.
    + lia.
Qed.

End LoanSum.

(** ** The values of the specification's scenarios *)

(** The interest schedule: 1000 mei over 10 periods is 1,050,000 qian;
    three periods past the public height it is 15,000 less; thirty periods
    past it the discount is capped at 100,000. *)
Example schedule_base : Action_16_realRansom1qian 50 contract_10 1000 = 1050000.
Proof. reflexivity. Qed.

Example schedule_three_past : Action_16_realRansom1qian 50 contract_10 1150 = 1035000.
Proof. reflexivity. Qed.

Example schedule_capped : Action_16_realRansom1qian 50 contract_10 2500 = 950000.
Proof. reflexivity. Qed.

(** [contract_1] redeemed at its private height and one period past its
    public height. *)
Example schedule_lending_cycle : Action_16_realRansom1qian 50 contract_1 150 = 301500.
Proof. reflexivity. Qed.

Example schedule_dutch_auction : Action_16_realRansom1qian 50 contract_1 250 = 300000.
Proof. reflexivity. Qed.

(** At height 63448 a block that holds a recorded transaction is applied;
    at height 7 it is not. *)
Example block_63448_accepts_recorded_tx :
  block_succeeded (call (Block_v1_WriteInChainState block_63448) state_recorded) = true
  /\ block_succeeded (call (Block_v1_WriteInChainState block_7) state_recorded) = false.
Proof. split; vm_compute; reflexivity. Qed.

(** The error of a diamond at a height that is not a multiple of 5. *)
Example backtopool_message :
  fst (call (Action_4_WriteinChainState mint_2) (mining_state 11))
  = Returned (Some (Errorf "{BACKTOPOOL} Diamond must be in block height multiple of 5." [])).
Proof. vm_compute. reflexivity. Qed.
(** * Further properties of the code *)

(** ** More rules for runs *)

Section MoreRules.
Context `{Ext : Externals}.

Lemma set_diamonds_id (s : ChainState) : set_diamonds (diamonds s) s = s.
Proof. destruct s; reflexivity. Qed.

Lemma wp_wand {R A} (m : M R A) (Q Q' : step R A -> ChainState -> Prop) s :
  wp m Q s -> (forall r s1, Q r s1 -> Q' r s1) -> wp m Q' s.
Proof. unfold wp. intros H HQ. apply HQ. exact H. Qed.

Lemma bind_run {R A B} (m : M R A) (k : A -> M R B) s :
  bind m k s
  = match m s with
    | (Next a, s') => k a s'
    | (Exit x, s') => (Exit x, s')
    end.
Proof. reflexivity. Qed.

Lemma wp_for_each_app {R A B} (l1 l2 : list A) (acc : B) (body : A -> B -> M R B)
    (Q : step R B -> ChainState -> Prop) s :
  wp (bind (for_each l1 acc body) (fun acc' => for_each l2 acc' body)) Q s ->
  wp (for_each (l1 ++ l2) acc body) Q s.
Proof. unfold wp. rewrite for_each_app. exact (fun H => H). Qed.

Lemma wp_DoSubBalanceFromChainState {R} addr amt
    (Q : step R goerror -> ChainState -> Prop) s :
  (forall e, Q (Next (Some e)) s) ->
  (forall rest, Q (Next None) (set_hac_balance (<[addr := rest]> (hac_balance s)) s)) ->
  wp (DoSubBalanceFromChainState addr amt) Q s.
Proof.
  intros He Hok. unfold wp, DoSubBalanceFromChainState.
  destruct (Amount_LessThan _ amt); [apply He|].
  destruct (Amount_Sub _ amt); simpl; auto.
Qed.

(** The two diamond and balance helpers, by their cases. *)
Lemma wp_DoSubDiamond_cases {R} addr n
    (Q : step R goerror -> ChainState -> Prop) s :
  (forall e, Q (Next (Some e)) s) ->
  (n <= default 0 (diamond_balance s !! addr) ->
   Q (Next None)
     (set_diamond_balance
        (<[addr := default 0 (diamond_balance s !! addr) - n]> (diamond_balance s)) s)) ->
  wp (DoSubDiamondFromChainState addr n) Q s.
Proof.
  intros He Hok. unfold wp, DoSubDiamondFromChainState.
  destruct (default 0 (diamond_balance s !! addr) <? n) eqn:Hlt; simpl; [apply He|].
  apply Hok. apply Z.ltb_ge. exact Hlt.
Qed.

Lemma wp_DoAddBalance_cases {R} addr amt
    (Q : step R goerror -> ChainState -> Prop) s :
  (forall e, Q (Next (Some e)) s) ->
  (forall total,
      Amount_Add (default NewEmptyAmount (hac_balance s !! addr)) amt = inl total ->
      Q (Next None) (set_hac_balance (<[addr := total]> (hac_balance s)) s)) ->
  wp (DoAddBalanceFromChainState addr amt) Q s.
Proof.
  intros He Hok. unfold wp, DoAddBalanceFromChainState.
  destruct (Amount_Add _ amt) eqn:Hadd; simpl; [apply Hok; reflexivity|apply He].
Qed.

End MoreRules.

(** ** Actions 4, 5 and 6: what a run leaves *)

Section Transfer.
Context `{Ext : Externals}.

(** X1.  [Action_5] returns [nil] exactly when it belongs to a transaction,
    the receiver is not the transaction's address, and the diamond exists
    under the transaction's address; the state it leaves is the one it
    started from with the diamond under the receiver's address, the status
    of the diamond, whatever it is, kept. *)
Theorem Action_5_transfer_spec (act : Action_5_DiamondTransfer) (s s' : ChainState) :
  call (Action_5_WriteinChainState act) s = (Returned None, s')
  <-> exists trs item,
        a5_trs act = Some trs
        /\ a5_Address act <> GetAddress trs
        /\ diamonds s !! a5_Diamond act = Some item
        /\ Address item = GetAddress trs
        /\ s' = Action_5_transferred act item s.
Proof.
  pattern (call (Action_5_WriteinChainState act) s).
  apply wp_call. unfold Action_5_WriteinChainState.
  repeat wp_step.
  all: tests.
  all: simpl; split;
    [ intros Heq; try discriminate Heq
    | intros (trs & item & H1 & H2 & H3 & H4 & H5); simplify_eq ].
  - injection Heq as <-. eexists _, _. repeat split; try reflexivity; assumption.
  - reflexivity.
Qed.

(** X2.  A run of [Action_4] or of [Action_5] that does not return [nil]
    leaves the chain state as it found it: every check comes before the
    first write. *)
Theorem Action_4_5_failure_keeps_state :
  (forall (act : Action_4_DiamondCreate) (s : ChainState),
      fst (call (Action_4_WriteinChainState act) s) = Returned None
      \/ snd (call (Action_4_WriteinChainState act) s) = s)
  /\ (forall (act : Action_5_DiamondTransfer) (s : ChainState),
        fst (call (Action_5_WriteinChainState act) s) = Returned None
        \/ snd (call (Action_5_WriteinChainState act) s) = s).
Proof.
  split; intros act s.
  - pattern (call (Action_4_WriteinChainState act) s).
    apply wp_call. unfold Action_4_WriteinChainState.
    repeat wp_step; simpl; auto.
  - pattern (call (Action_5_WriteinChainState act) s).
    apply wp_call. unfold Action_5_WriteinChainState.
    repeat wp_step; simpl; auto.
Qed.

End Transfer.

(** [transfer_1] applied and reverted. *)
Lemma Action_5_revert_restores_witness :
  call (Action_5_RecoverChainState transfer_1)
    (snd (call (Action_5_WriteinChainState transfer_1) state_unreadable))
  = (Returned None, state_unreadable).
Proof.
  apply (Action_5_revert_restores transfer_1 state_unreadable).
  rewrite (surjective_pairing
             (call (Action_5_WriteinChainState transfer_1) state_unreadable)) at 1.
  f_equal; vm_compute; reflexivity.
Defined.
Section BatchTransfer.
Context `{Ext : Externals}.

Lemma update_all_cons f d l m :
  update_all f (d :: l) m
  = update_all f l
      match m !! d with
      | Some item => <[d := f item]> m
      | None => m
      end.
Proof. reflexivity. Qed.

(** For an [f] that applied twice is [f]: a listed diamond is changed by
    [f], an unlisted one is as it was. *)
Lemma update_all_lookup f l :
  (forall item, f (f item) = f item) ->
  forall m d,
    update_all f l m !! d = if decide (d ∈ l) then f <$> m !! d else m !! d.
Proof.
  intros Hf. induction l as [|x l IH]; intros m d.
  - simpl. destruct (decide (d ∈ [])) as [Hin|_]; [inversion Hin|reflexivity].
  - rewrite update_all_cons, IH.
    destruct (decide (d = x)) as [->|Hne].
    + rewrite (decide_True (P := x ∈ x :: l)) by left.
      destruct (m !! x) as [item|] eqn:Hx.
      * rewrite lookup_insert_eq. simpl. rewrite Hf.
        destruct (decide (x ∈ l)); reflexivity.
      * rewrite Hx. destruct (decide (x ∈ l)); reflexivity.
    + assert (Hm : match m !! x with
                   | Some item => <[x := f item]> m
                   | None => m
                   end !! d = m !! d).
      { destruct (m !! x); [rewrite lookup_insert_ne by congruence|]; reflexivity. }
      rewrite Hm.
      destruct (decide (d ∈ l)) as [Hin|Hnin].
      * rewrite decide_True by (right; exact Hin). reflexivity.
      * rewrite decide_False; [reflexivity|].
        intros Hin. apply elem_of_cons in Hin as [?|?]; contradiction.
Qed.

Lemma hand_over_lookup addr l m d :
  hand_over addr l m !! d
  = if decide (d ∈ l)
    then (fun item => {| Status := Status item; Address := addr |}) <$> m !! d
    else m !! d.
Proof. apply update_all_lookup. reflexivity. Qed.

Lemma owned_by_cons_inv addr m d l :
  owned_by addr m (d :: l) ->
  (exists item, m !! d = Some item /\ Address item = addr) /\ owned_by addr m l.
Proof.
  intros H. split; [apply H; left|]. intros x Hx. apply H. right. exact Hx.
Qed.

(** The loop goes through exactly when the list names no diamond twice and
    every diamond of it is under the sender's address; it never leaves the
    method with [nil]. *)
Lemma Action_6_transfer_loop_spec act l : forall s,
  a6_FromAddress act <> a6_ToAddress act ->
  wp (Action_6_transfer_loop act l)
    (fun r s1 =>
       match r with
       | Next _ =>
           NoDup l
           /\ owned_by (a6_FromAddress act) (diamonds s) l
           /\ s1 = set_diamonds (hand_over (a6_ToAddress act) l (diamonds s)) s
       | Exit (Returned None) => False
       | Exit _ => ~ (NoDup l /\ owned_by (a6_FromAddress act) (diamonds s) l)
       end) s.
Proof.
  induction l as [|d l IH]; intros s Hne.
  - apply wp_ret. split; [constructor|split].
    + intros d Hd. inversion Hd.
    + simpl. symmetry. apply set_diamonds_id.
  - unfold Action_6_transfer_loop. simpl. fold (Action_6_transfer_loop act l).
    repeat wp_step.
    + tests. intros [_ Ho]. apply owned_by_cons_inv in Ho as [(item & Hd & Ha) _].
      congruence.
    + tests.
      match goal with
      | |- wp _ _ ?s0 => eapply wp_wand; [exact (IH s0 Hne)|]
      end.
      simpl. intros r s1 Hr.
      assert (Hkeep : forall x, x <> d ->
                <[d := {| Status := Status d0; Address := a6_ToAddress act |}]>
                  (diamonds s) !! x = diamonds s !! x).
      { intros x Hx. apply lookup_insert_ne. congruence. }
      assert (Hfresh : owned_by (a6_FromAddress act)
                         (<[d := {| Status := Status d0; Address := a6_ToAddress act |}]>
                            (diamonds s)) l -> d ∉ l).
      { intros Ho Hin. destruct (Ho d Hin) as (item & Hd & Ha).
        rewrite lookup_insert_eq in Hd. injection Hd as <-. simpl in Ha. congruence. }
      destruct r as [[]|[[e|]|msg]].
      * destruct Hr as (Hnd & Ho & ->). split; [|split].
        -- constructor; [exact (Hfresh Ho)|exact Hnd].
        -- intros x Hx. apply elem_of_cons in Hx as [->|Hx]; [eauto|].
           destruct (Ho x Hx) as (item & Hd & Ha).
           rewrite Hkeep in Hd by (intros ->; exact (Hfresh Ho Hx)). eauto.
        -- reflexivity.
      * intros [Hnd Ho]. apply Hr. apply NoDup_cons in Hnd as [Hd Hnd].
        apply owned_by_cons_inv in Ho as [_ Ho].
        split; [exact Hnd|]. intros x Hx. destruct (Ho x Hx) as (item & Hx' & Ha).
        exists item. rewrite Hkeep by (intros ->; contradiction). eauto.
      * exact Hr.
      * intros [Hnd Ho]. apply Hr. apply NoDup_cons in Hnd as [Hd Hnd].
        apply owned_by_cons_inv in Ho as [_ Ho].
        split; [exact Hnd|]. intros x Hx. destruct (Ho x Hx) as (item & Hx' & Ha).
        exists item. rewrite Hkeep by (intros ->; contradiction). eauto.
    + intros [_ Ho]. apply owned_by_cons_inv in Ho as [(item & Hd & Ha) _].
      congruence.
Qed.

Lemma Action_6_transfer_loop_run act l s :
  a6_FromAddress act <> a6_ToAddress act ->
  NoDup l ->
  owned_by (a6_FromAddress act) (diamonds s) l ->
  Action_6_transfer_loop act l s
  = (Next tt, set_diamonds (hand_over (a6_ToAddress act) l (diamonds s)) s).
Proof.
  intros Hne Hnd Ho.
  pose proof (Action_6_transfer_loop_spec act l s Hne) as H. unfold wp in H.
  destruct (Action_6_transfer_loop act l s) as [[[]|[[e|]|msg]] s1]; simpl in H.
  - destruct H as (_ & _ & ->). reflexivity.
  - exfalso. apply H. split; assumption.
  - contradiction.
  - exfalso. apply H. split; assumption.
Qed.

(** What a successful [Action_6] found and what it leaves. *)
Lemma Action_6_success_inv act s s' :
  call (Action_6_WriteinChainState act) s = (Returned None, s') ->
  is_Some (a6_trs act)
  /\ a6_DiamondCount act = Z.of_nat (length (a6_Diamonds act))
  /\ a6_FromAddress act <> a6_ToAddress act
  /\ NoDup (a6_Diamonds act)
  /\ owned_by (a6_FromAddress act) (diamonds s) (a6_Diamonds act)
  /\ s' = set_diamonds (hand_over (a6_ToAddress act) (a6_Diamonds act) (diamonds s)) s.
Proof.
  pattern (call (Action_6_WriteinChainState act) s).
  apply wp_call. unfold Action_6_WriteinChainState.
  repeat wp_step; try (intros Heq; discriminate Heq).
  tests.
  eapply wp_wand;
    [exact (Action_6_transfer_loop_spec act (a6_Diamonds act) s ltac:(assumption))|].
  simpl. intros r s1 Hr.
  destruct r as [[]|[[e|]|msg]]; simpl; intros Heq; try discriminate Heq.
  - injection Heq as <-. destruct Hr as (Hnd & Ho & ->).
    repeat split; eauto.
  - contradiction.
Qed.

(** X4.  [Action_6] returns [nil] exactly when it belongs to a transaction,
    its count is the length of its list, sender and receiver differ, the
    list names no diamond twice and every diamond of it exists under the
    sender's address; it leaves every listed diamond under the receiver's
    address, status kept, and nothing else changed. *)
Theorem Action_6_transfer_spec (act : Action_6_OutfeeQuantityDiamondTransfer)
    (s s' : ChainState) :
  call (Action_6_WriteinChainState act) s = (Returned None, s')
  <-> is_Some (a6_trs act)
      /\ a6_DiamondCount act = Z.of_nat (length (a6_Diamonds act))
      /\ a6_FromAddress act <> a6_ToAddress act
      /\ NoDup (a6_Diamonds act)
      /\ owned_by (a6_FromAddress act) (diamonds s) (a6_Diamonds act)
      /\ s' = set_diamonds
                (hand_over (a6_ToAddress act) (a6_Diamonds act) (diamonds s)) s.
Proof.
  split; [apply Action_6_success_inv|].
  intros ([trs Htrs] & Hcount & Hne & Hnd & Ho & ->).
  assert (Hc1 : negb (a6_DiamondCount act =? Z.of_nat (length (a6_Diamonds act))) = false)
    by (apply negb_false_iff, Z.eqb_eq, Hcount).
  assert (Hc2 : bytes_Equal (a6_FromAddress act) (a6_ToAddress act) = false)
    by (apply bool_decide_eq_false; exact Hne).
  pattern (call (Action_6_WriteinChainState act) s).
  apply wp_call. unfold Action_6_WriteinChainState.
  rewrite Htrs. repeat wp_step.
  eapply wp_op; [exact (Action_6_transfer_loop_run act _ s Hne Hnd Ho)|].
  wp_step. reflexivity.
Qed.

(** X5.  [Action_6] is not all or nothing: when the diamonds [pre] of its
    list go through and the next one, [d], does not exist, it returns the
    error for [d] and leaves the diamonds of [pre] under the receiver's
    address. *)
Theorem Action_6_stops_midway (act : Action_6_OutfeeQuantityDiamondTransfer)
    (s : ChainState) (pre post : list Bytes) (d : Bytes) :
  is_Some (a6_trs act) ->
  a6_DiamondCount act = Z.of_nat (length (a6_Diamonds act)) ->
  a6_FromAddress act <> a6_ToAddress act ->
  a6_Diamonds act = pre ++ d :: post ->
  NoDup pre ->
  owned_by (a6_FromAddress act) (diamonds s) pre ->
  diamonds s !! d = None ->
  call (Action_6_WriteinChainState act) s
  = (Returned (Some (Errorf "Quantity Diamond <%s> not exist."
                       [ArgStr (string_of_Bytes d)])),
     set_diamonds (hand_over (a6_ToAddress act) pre (diamonds s)) s).
Proof.
  intros [trs Htrs] Hcount Hne Hl Hnd Ho Hd.
  assert (Hc1 : negb (a6_DiamondCount act =? Z.of_nat (length (a6_Diamonds act))) = false)
    by (apply negb_false_iff, Z.eqb_eq, Hcount).
  assert (Hc2 : bytes_Equal (a6_FromAddress act) (a6_ToAddress act) = false)
    by (apply bool_decide_eq_false; exact Hne).
  assert (Hfresh : d ∉ pre).
  { intros Hin. destruct (Ho d Hin) as (item & Hd' & _). congruence. }
  pattern (call (Action_6_WriteinChainState act) s).
  apply wp_call. unfold Action_6_WriteinChainState.
  assert (Hd1 : hand_over (a6_ToAddress act) pre (diamonds s) !! d = None).
  { rewrite hand_over_lookup, decide_False by exact Hfresh. exact Hd. }
  rewrite Hl in Hc1. rewrite Htrs, Hl. repeat wp_step.
  apply wp_for_each_app. apply wp_bind.
  eapply wp_op; [exact (Action_6_transfer_loop_run act pre s Hne Hnd Ho)|].
  cbn [for_each]. repeat wp_step. reflexivity.
Qed.

Lemma Action_6_recover_loop_run act l : forall s,
  (forall d, d ∈ l -> is_Some (diamonds s !! d)) ->
  Action_6_recover_loop act l s
  = (Next tt, set_diamonds (hand_over (a6_FromAddress act) l (diamonds s)) s).
Proof.
  induction l as [|d l IH]; intros s Hin.
  - simpl. unfold ret. rewrite set_diamonds_id. reflexivity.
  - destruct (Hin d) as [item Hd]; [left|].
    apply wp_run. unfold Action_6_recover_loop. simpl.
    fold (Action_6_recover_loop act l).
    repeat wp_step.
    eapply wp_op.
    { apply IH. intros x Hx. state_simpl.
      destruct (decide (x = d)) as [->|Hxd].
      - rewrite lookup_insert_eq. eauto.
      - rewrite lookup_insert_ne by congruence. apply Hin. right. exact Hx. }
    reflexivity.
Qed.

(** X6.  The revert of a successful [Action_6] gives the state back. *)
Theorem Action_6_revert_restores (act : Action_6_OutfeeQuantityDiamondTransfer)
    (s s1 : ChainState) :
  call (Action_6_WriteinChainState act) s = (Returned None, s1) ->
  call (Action_6_RecoverChainState act) s1 = (Returned None, s).
Proof.
  intros H. apply Action_6_success_inv in H as ([trs Htrs] & _ & _ & _ & Ho & ->).
  pattern (call (Action_6_RecoverChainState act)
             (set_diamonds
                (hand_over (a6_ToAddress act) (a6_Diamonds act) (diamonds s)) s)).
  apply wp_call. unfold Action_6_RecoverChainState.
  rewrite Htrs. repeat wp_step.
  eapply wp_op.
  { apply (Action_6_recover_loop_run act). intros d Hd. state_simpl.
    rewrite hand_over_lookup, decide_True by exact Hd.
    destruct (Ho d Hd) as (item & -> & _). simpl. eauto. }
  wp_step. simpl. f_equal. state_simpl.
  rewrite <- (set_diamonds_id s) at 3. 
  replace (hand_over (a6_FromAddress act) (a6_Diamonds act)
             (hand_over (a6_ToAddress act) (a6_Diamonds act) (diamonds s)))
    with (diamonds s); [destruct s; reflexivity|].
  apply map_eq. intros d. rewrite !hand_over_lookup.
  destruct (decide (d ∈ a6_Diamonds act)) as [Hd|Hd]; [|reflexivity].
  destruct (Ho d Hd) as (item & -> & <-). simpl. destruct item; reflexivity.
Qed.

End BatchTransfer.

(** [batch_gap] on the two diamonds of [alice]: the first is handed over,
    the second of the list is missing. *)
Lemma Action_6_stops_midway_witness :
  Address <$> diamonds (snd (call (Action_6_WriteinChainState batch_gap) state_unreadable))
              !! diamond_1 = Some bob
  /\ fst (call (Action_6_WriteinChainState batch_gap) state_unreadable)
     = Returned (Some (Errorf "Quantity Diamond <%s> not exist." [ArgStr "NNNNNN"%string])).
Proof.
  rewrite (Action_6_stops_midway batch_gap state_unreadable [diamond_1] [diamond_2]
             diamond_absent).
  - split; [vm_compute; reflexivity|reflexivity].
  - eexists. reflexivity.
  - reflexivity.
  - vm_compute. discriminate.
  - reflexivity.
  - apply NoDup_singleton.
  - intros d Hd. apply list_elem_of_singleton in Hd as ->.
    eexists. split; [vm_compute; reflexivity|reflexivity].
  - vm_compute. reflexivity.
Defined.

(** [batch_1] applied and reverted. *)
Lemma Action_6_revert_restores_witness :
  call (Action_6_RecoverChainState batch_1)
    (snd (call (Action_6_WriteinChainState batch_1) state_unreadable))
  = (Returned None, state_unreadable).
Proof.
  apply (Action_6_revert_restores batch_1 state_unreadable).
  rewrite (surjective_pairing (call (Action_6_WriteinChainState batch_1) state_unreadable))
    at 1.
  f_equal; vm_compute; reflexivity.
Defined.
Section MintRevert.
Context `{Ext : Externals}.

(** X7.  The revert of a successful [Action_4], over a block store that
    holds under the number before the action's what was the last diamond,
    removes the diamond and gives the last diamond back; the slot of the
    pending block keeps the reverted diamond. *)
Theorem Action_4_revert_after_mint (act : Action_4_DiamondCreate)
    (s s1 : ChainState) (bs : BlockStore) :
  call (Action_4_WriteinChainState act) s = (Returned None, s1) ->
  block_store s = Some bs ->
  ReadDiamondByNumber bs (uint32 (uint32 (a4_Number act) - 1))
  = (lastest_diamond s, None) ->
  call (Action_4_RecoverChainState act) s1
  = (Returned None,
     set_pending_submit_store_diamond
       (Some (Action_4_smelt act (pending_block_height s))) s).
Proof.
  intros H Hbs Hread.
  apply Action_4_success_inv in H as (_ & _ & Hnew & ->).
  assert (Hc : bool_decide (is_Some (@None error)) = false) by reflexivity.
  pattern (call (Action_4_RecoverChainState act) (Action_4_minted act s)).
  apply wp_call. unfold Action_4_RecoverChainState, Action_4_minted.
  repeat wp_step. simpl. f_equal.
  rewrite delete_insert_id by exact Hnew.
  destruct s; reflexivity.
Qed.

(** X8.  [Action_4.RecoverChainState] deletes the diamond before it looks
    at the block store: without a block store it returns an error, and when
    the read of the previous diamond fails it returns [nil]; in both cases
    the diamond is gone and the last diamond is the one it was. *)
Theorem Action_4_revert_store_failures (act : Action_4_DiamondCreate) (s : ChainState) :
  (block_store s = None ->
   call (Action_4_RecoverChainState act) s
   = (Returned (Some (Errorf "not find BlockStore object." [])),
      set_diamonds (delete (a4_Diamond act) (diamonds s)) s))
  /\ (forall bs e,
        block_store s = Some bs ->
        bs_diamond_by_number bs !! uint32 (uint32 (a4_Number act) - 1)
        = Some (Unreadable e) ->
        call (Action_4_RecoverChainState act) s
        = (Returned None, set_diamonds (delete (a4_Diamond act) (diamonds s)) s)).
Proof.
  split.
  - intros Hbs.
    pattern (call (Action_4_RecoverChainState act) s).
    apply wp_call. unfold Action_4_RecoverChainState.
    repeat wp_step. reflexivity.
  - intros bs e Hbs He.
    assert (Hread : ReadDiamondByNumber bs (uint32 (uint32 (a4_Number act) - 1))
                    = (None, Some e))
      by (unfold ReadDiamondByNumber, bs_read; rewrite He; reflexivity).
    assert (Hc : bool_decide (is_Some (Some e)) = true)
      by (apply bool_decide_eq_true; eauto).
    pattern (call (Action_4_RecoverChainState act) s).
    apply wp_call. unfold Action_4_RecoverChainState.
    repeat wp_step. reflexivity.
Qed.

(** X9.  On a chain that holds no diamond yet [Action_4] checks neither the
    number nor the previous hash of the candidate: with the height a
    multiple of 5, the oracle's literal and difficulty met, the literal free
    and the slot of the block empty, it mints whatever number it is given. *)
Theorem Action_4_first_diamond_unchecked (act : Action_4_DiamondCreate)
    (s : ChainState) (digest : Bytes) (str : string) :
  lastest_diamond s = None ->
  pending_block_height s mod 5 = 0 ->
  x16rs_Diamond (uint32 (a4_Number act)) (a4_PrevHash act) (a4_Nonce act)
    (a4_Address act) = (digest, str) ->
  x16rs_IsDiamondHashResultString str = (string_of_Bytes (a4_Diamond act), true) ->
  x16rs_CheckDiamondDifficulty (uint32 (a4_Number act)) digest = true ->
  diamonds s !! a4_Diamond act = None ->
  pending_submit_store_diamond s = None ->
  call (Action_4_WriteinChainState act) s = (Returned None, Action_4_minted act s).
Proof.
  intros Hld Hh Hx Hlit Hdif Hnew Hslot.
  apply (Action_4_success act s digest str); try assumption.
  rewrite Hld. exact I.
Qed.

End MintRevert.

(** [mint_2] applied and reverted over [block_store_1]. *)
Lemma Action_4_revert_after_mint_witness :
  call (Action_4_RecoverChainState mint_2)
    (snd (call (Action_4_WriteinChainState mint_2) (mining_state_on (Some block_store_1))))
  = (Returned None,
     set_pending_submit_store_diamond (Some (Action_4_smelt mint_2 10))
       (mining_state_on (Some block_store_1))).
Proof.
  apply (Action_4_revert_after_mint mint_2 (mining_state_on (Some block_store_1)) _
           block_store_1).
  - rewrite (surjective_pairing
               (call (Action_4_WriteinChainState mint_2)
                  (mining_state_on (Some block_store_1)))) at 1.
    f_equal; vm_compute; reflexivity.
  - reflexivity.
  - vm_compute. reflexivity.
Defined.

(** The revert of [mint_2] without a block store, and over a block store
    that fails the read of diamond number 1. *)
Lemma Action_4_revert_store_failures_witness :
  fst (call (Action_4_RecoverChainState mint_2) (mining_state_on None))
  = Returned (Some (Errorf "not find BlockStore object." []))
  /\ fst (call (Action_4_RecoverChainState mint_2)
            (mining_state_on (Some block_store_closed)))
     = Returned None.
Proof.
  split.
  - rewrite (proj1 (Action_4_revert_store_failures mint_2 (mining_state_on None)));
      reflexivity.
  - rewrite (proj2 (Action_4_revert_store_failures mint_2
                      (mining_state_on (Some block_store_closed)))
               block_store_closed store_error); [reflexivity|reflexivity|].
    vm_compute. reflexivity.
Defined.

(** [mint_77] on the chain without a diamond. *)
Lemma Action_4_first_diamond_unchecked_witness :
  call (Action_4_WriteinChainState mint_77) mining_state_genesis
  = (Returned None, Action_4_minted mint_77 mining_state_genesis).
Proof.
  apply (Action_4_first_diamond_unchecked mint_77 mining_state_genesis
           (SHA256.Sum256 (big_endian 4 77 ++ prev_hash_7 ++ a4_Nonce mint_77 ++ alice))
           "0000000000WTYUIA"%string).
  - reflexivity.
  - reflexivity.
  - reflexivity.
  - vm_compute. reflexivity.
  - reflexivity.
  - reflexivity.
  - reflexivity.
Defined.
Section Lend.
Context `{Ext : Externals}.

(** The mortgage loop over diamonds that are all there, normal, under the
    fee address and served by the block store. *)
Lemma Action_15_loop_run feeAddr bs l : forall acc s total,
  NoDup l ->
  (forall d, d ∈ l ->
     exists item,
       diamonds s !! d = Some item
       /\ Status item = DiamondStatusNormal
       /\ Address item = feeAddr) ->
  block_store s = Some bs ->
  loan_sum bs l acc = Some total ->
  for_each l acc (Action_15_mortgage_one feeAddr) s
  = (Next total, set_diamonds (mortgage_all l (diamonds s)) s).
Proof.
  induction l as [|d l IH]; intros acc s total Hnd Hall Hbs Hsum.
  - simpl in *. injection Hsum as <-. unfold ret. rewrite set_diamonds_id. reflexivity.
  - apply NoDup_cons in Hnd as [Hfresh Hnd].
    destruct (Hall d) as (item & Hd & Hst & Haddr); [left|].
    simpl in Hsum.
    destruct (bs_diamond bs !! d) as [[smelt|e]|] eqn:Hread; try discriminate Hsum.
    assert (Hrd : ReadDiamond bs d = (Some smelt, None))
      by (unfold ReadDiamond, bs_read; rewrite Hread; reflexivity).
    assert (Hc1 : negb (Status item =? DiamondStatusNormal) = false)
      by (rewrite Hst, Z.eqb_refl; reflexivity).
    assert (Hc2 : negb (bytes_Equal (Address item) feeAddr) = false).
    { unfold bytes_Equal. rewrite bool_decide_eq_true_2 by exact Haddr. reflexivity. }
    assert (Hc3 : bool_decide (is_Some (@None error)) = false) by reflexivity.
    apply wp_run. cbn [for_each]. apply wp_bind.
    unfold Action_15_mortgage_one at 1.
    repeat wp_step.
    eapply wp_op.
    { apply (IH _ _ total Hnd).
      - intros x Hx. state_simpl.
        rewrite lookup_insert_ne by (intros ->; contradiction).
        apply Hall. right. exact Hx.
      - exact Hbs.
      - exact Hsum. }
    state_simpl. unfold mortgage_all. rewrite (update_all_cons _ d l), Hd. reflexivity.
Qed.

(** X10.  When the action belongs to a transaction, the id is well formed
    and free, the count is the length of the list and between 1 and 200,
    the period is between 1 and 20, the list names no diamond twice, every
    diamond of it is normal and under the transaction's address, the block
    store serves the price of each, the sum of the prices at unit 248 is the
    loan asked for, and the address holds as many diamonds in its diamond
    balance as are listed: [Action_15] returns [nil] and leaves
    [Action_15_lent]: the diamonds in the lending status, the diamond
    balance less the count, the balance plus the loan, the contract stored
    and the two supply counters raised. *)
Theorem Action_15_lends (act : Action_15_DiamondsSystemLendingCreate)
    (s : ChainState) (trs : Transaction) (bs : BlockStore) (total : Z)
    (newbal : Amount) :
  a15_belong_trs act = Some trs ->
  lending_id_format_error (a15_LendingID act) = false ->
  diamond_lendings s !! a15_LendingID act = None ->
  Count (a15_MortgageDiamondList act)
  = Z.of_nat (length (Diamonds (a15_MortgageDiamondList act))) ->
  1 <= Count (a15_MortgageDiamondList act) <= 200 ->
  1 <= a15_BorrowPeriod act <= 20 ->
  NoDup (Diamonds (a15_MortgageDiamondList act)) ->
  (forall d, d ∈ Diamonds (a15_MortgageDiamondList act) ->
     exists item,
       diamonds s !! d = Some item
       /\ Status item = DiamondStatusNormal
       /\ Address item = GetAddress trs) ->
  block_store s = Some bs ->
  loan_sum bs (Diamonds (a15_MortgageDiamondList act)) 0 = Some total ->
  Amount_Equal (NewAmountByUnit248 total) (a15_LoanTotalAmount act) = true ->
  VarUint 3 (Count (a15_MortgageDiamondList act))
  <= default 0 (diamond_balance s !! GetAddress trs) ->
  Amount_Add (default NewEmptyAmount (hac_balance s !! GetAddress trs))
    (a15_LoanTotalAmount act) = inl newbal ->
  call (Action_15_WriteinChainState true act) s
  = (Returned None, Action_15_lent act trs total newbal s).
Proof.
  intros Htrs Hid Hnew Hcount Hn Hperiod Hnd Hall Hbs Hsum Heq Hbal Hadd.
  assert (Hc0 : bool_decide (is_Some (diamond_lendings s !! a15_LendingID act)) = false).
  { rewrite Hnew. apply bool_decide_eq_false. intros [? ?]. discriminate. }
  assert (Hc1 : (Count (a15_MortgageDiamondList act) =? 0)
                || negb (Count (a15_MortgageDiamondList act)
                         =? Z.of_nat (length (Diamonds (a15_MortgageDiamondList act))))
                = false).
  { apply orb_false_iff. split; [apply Z.eqb_neq; lia|].
    apply negb_false_iff, Z.eqb_eq, Hcount. }
  assert (Hc2 : (200 <? Count (a15_MortgageDiamondList act)) = false)
    by (apply Z.ltb_ge; lia).
  assert (Hc3 : (a15_BorrowPeriod act <? 1) || (20 <? a15_BorrowPeriod act) = false).
  { apply orb_false_iff. split; apply Z.ltb_ge; lia. }
  assert (Hc4 : negb (Amount_Equal (NewAmountByUnit248 total) (a15_LoanTotalAmount act))
                = false) by (rewrite Heq; reflexivity).
  pose proof (Action_15_loop_run (GetAddress trs) bs _ 0 s total Hnd Hall Hbs Hsum)
    as Hloop.
  pattern (call (Action_15_WriteinChainState true act) s).
  apply wp_call. unfold Action_15_WriteinChainState.
  rewrite Htrs, Hid.
  repeat wp_step.
  eapply wp_op.
  { unfold DoSubDiamondFromChainState. state_simpl.
    replace (default 0 (diamond_balance s !! GetAddress trs)
             <? VarUint 3 (Count (a15_MortgageDiamondList act))) with false
      by (symmetry; apply Z.ltb_ge; exact Hbal).
    reflexivity. }
  repeat wp_step.
  eapply wp_op.
  { unfold DoAddBalanceFromChainState. state_simpl. rewrite Hadd. reflexivity. }
  repeat wp_step. reflexivity.
Qed.

(** X11.  [Action_15.RecoverChainState] never touches the lending
    contracts: a contract stored under the action's id is still there when
    it has run, and the create it was the revert of is refused as already
    there. *)
Theorem Action_15_revert_keeps_contract (mark : bool)
    (act : Action_15_DiamondsSystemLendingCreate) (s : ChainState)
    (trs : Transaction) (c : DiamondLending) :
  a15_belong_trs act = Some trs ->
  lending_id_format_error (a15_LendingID act) = false ->
  diamond_lendings s !! a15_LendingID act = Some c ->
  let s2 := snd (call (Action_15_RecoverChainState mark act) s) in
  diamond_lendings s2 = diamond_lendings s
  /\ call (Action_15_WriteinChainState true act) s2
     = (Returned (Some (Errorf "Diamond Lending <%d> already exist."
                          [ArgStr (hex_EncodeToString (a15_LendingID act))])), s2).
Proof.
  intros Htrs Hid Hc s2.
  assert (Hkeep : diamond_lendings s2 = diamond_lendings s).
  { unfold s2. apply preserves_call. unfold Action_15_RecoverChainState. frame. }
  split; [exact Hkeep|].
  assert (Hc0 : bool_decide (is_Some (diamond_lendings s2 !! a15_LendingID act)) = true).
  { rewrite Hkeep, Hc. apply bool_decide_eq_true. eauto. }
  pattern (call (Action_15_WriteinChainState true act) s2).
  apply wp_call. unfold Action_15_WriteinChainState.
  rewrite Htrs, Hid.
  repeat wp_step. reflexivity.
Qed.

(** The loop of [Action_15.RecoverChainState] over diamonds that are all
    there. *)
Lemma Action_15_recover_loop_run l : forall s,
  (forall d, d ∈ l -> is_Some (diamonds s !! d)) ->
  for_each (R := goerror) l tt (fun diamond _ =>
    let* diaitem := state_Diamond diamond in
    match diaitem with
    | None => panic "invalid memory address or nil pointer dereference"
    | Some diaitem =>
        let diaitem := {| Status := DiamondStatusNormal; Address := Address diaitem |} in
        let* e5 := DiamondSet diamond diaitem in
        return_if_err e5
    end) s
  = (Next tt, set_diamonds (release_all l (diamonds s)) s).
Proof.
  induction l as [|d l IH]; intros s Hin.
  - simpl. unfold ret. rewrite set_diamonds_id. reflexivity.
  - destruct (Hin d) as [item Hd]; [left|].
    apply wp_run. cbn [for_each]. apply wp_bind.
    repeat wp_step.
    eapply wp_op.
    { apply IH. intros x Hx. state_simpl.
      destruct (decide (x = d)) as [->|Hxd].
      - rewrite lookup_insert_eq. eauto.
      - rewrite lookup_insert_ne by congruence. apply Hin. right. exact Hx. }
    state_simpl. unfold release_all. rewrite (update_all_cons _ d l), Hd. reflexivity.
Qed.

(** A successful [Action_15] leaves [Action_15_lent]: the diamond balance
    held the count and the loan added up. *)
Lemma Action_15_success_state act s s1 :
  DiamondStatusNormal <> DiamondStatusLendingSystem ->
  (forall bs d e,
      block_store s = Some bs ->
      d ∈ Diamonds (a15_MortgageDiamondList act) ->
      bs_diamond bs !! d <> Some (Unreadable e)) ->
  call (Action_15_WriteinChainState true act) s = (Returned None, s1) ->
  exists trs bs total newbal,
    a15_belong_trs act = Some trs
    /\ (forall d, d ∈ Diamonds (a15_MortgageDiamondList act) ->
        exists item,
          diamonds s !! d = Some item
          /\ Status item = DiamondStatusNormal
          /\ Address item = GetAddress trs)
    /\ block_store s = Some bs
    /\ loan_sum bs (Diamonds (a15_MortgageDiamondList act)) 0 = Some total
    /\ VarUint 3 (Count (a15_MortgageDiamondList act))
       <= default 0 (diamond_balance s !! GetAddress trs)
    /\ Amount_Add (default NewEmptyAmount (hac_balance s !! GetAddress trs))
         (a15_LoanTotalAmount act) = inl newbal
    /\ s1 = Action_15_lent act trs total newbal s.
Proof.
  intros Hne Hreads Hrun.
  destruct (Action_15_success_conditions act s s1 Hne Hreads Hrun)
    as (trs & bs & total & Htrs & Hid & Hnew & Hn & Hcount & Hperiod & Hnd & Hall
        & Hbs & Hsum & Heq & _ & _).
  exists trs, bs, total.
  pose proof (Action_15_loop_run (GetAddress trs) bs _ 0 s total Hnd Hall Hbs Hsum)
    as Hloop.
  revert Hrun.
  pattern (call (Action_15_WriteinChainState true act) s).
  apply wp_call. unfold Action_15_WriteinChainState.
  rewrite Htrs, Hid.
  repeat first
    [ apply wp_DoSubDiamond_cases; [intros ?|intros Hbal]
    | apply wp_DoAddBalance_cases; [intros ?|intros newbal Hadd]
    | wp_step ];
    try (intros Hrun; discriminate Hrun).
  all: try match goal with
         | H : Some _ = None |- _ => discriminate H
         end.
  intros Hrun. injection Hrun as <-.
  exists newbal. state_simpl.
  repeat split; try assumption.
Qed.

(** X12.  When the two status constants differ and the block store fails
    no read of a listed diamond, [Action_15] returns [nil] only under the
    conditions that make it do so: it belongs to a transaction, the id is
    well formed and free, the count is the length of the list and between 1
    and 200, the period is between 1 and 20, no diamond is listed twice,
    each is normal and under the transaction's address, the prices add up
    to the loan asked for and the diamond balance holds the count.  The
    state it leaves is [Action_15_lent]. *)
Theorem Action_15_success_only (act : Action_15_DiamondsSystemLendingCreate)
    (s s1 : ChainState) :
  DiamondStatusNormal <> DiamondStatusLendingSystem ->
  (forall bs d e,
      block_store s = Some bs ->
      d ∈ Diamonds (a15_MortgageDiamondList act) ->
      bs_diamond bs !! d <> Some (Unreadable e)) ->
  call (Action_15_WriteinChainState true act) s = (Returned None, s1) ->
  exists trs bs total newbal,
    a15_belong_trs act = Some trs
    /\ lending_id_format_error (a15_LendingID act) = false
    /\ diamond_lendings s !! a15_LendingID act = None
    /\ Count (a15_MortgageDiamondList act)
       = Z.of_nat (length (Diamonds (a15_MortgageDiamondList act)))
    /\ 1 <= Count (a15_MortgageDiamondList act) <= 200
    /\ 1 <= a15_BorrowPeriod act <= 20
    /\ NoDup (Diamonds (a15_MortgageDiamondList act))
    /\ (forall d, d ∈ Diamonds (a15_MortgageDiamondList act) ->
        exists item,
          diamonds s !! d = Some item
          /\ Status item = DiamondStatusNormal
          /\ Address item = GetAddress trs)
    /\ block_store s = Some bs
    /\ loan_sum bs (Diamonds (a15_MortgageDiamondList act)) 0 = Some total
    /\ Amount_Equal (NewAmountByUnit248 total) (a15_LoanTotalAmount act) = true
    /\ VarUint 3 (Count (a15_MortgageDiamondList act))
       <= default 0 (diamond_balance s !! GetAddress trs)
    /\ Amount_Add (default NewEmptyAmount (hac_balance s !! GetAddress trs))
         (a15_LoanTotalAmount act) = inl newbal
    /\ s1 = Action_15_lent act trs total newbal s.
Proof.
  intros Hne Hreads Hrun.
  destruct (Action_15_success_conditions act s s1 Hne Hreads Hrun)
    as (trs' & bs' & total' & Htrs' & Hid & Hnew & Hn & Hcount & Hperiod & Hnd & _
        & Hbs' & Hsum' & Heq & _ & _).
  destruct (Action_15_success_state act s s1 Hne Hreads Hrun)
    as (trs & bs & total & newbal & Htrs & Hall & Hbs & Hsum & Hbal & Hadd & Hs1).
  assert (bs' = bs) as -> by congruence.
  assert (total' = total) as -> by congruence.
  exists trs, bs, total, newbal.
  repeat split; try assumption; lia.
Qed.

(** X13.  When the two status constants differ and the block store fails
    no read, the revert of a successful [Action_15], run on the state the
    action left, puts every diamond back as it was and gives every address
    the diamond balance it had, whether the revert returns [nil] or the
    error of the balance it takes the loan from. *)
Theorem Action_15_revert_after_lend (act : Action_15_DiamondsSystemLendingCreate)
    (s s1 : ChainState) :
  DiamondStatusNormal <> DiamondStatusLendingSystem ->
  (forall bs d e,
      block_store s = Some bs ->
      d ∈ Diamonds (a15_MortgageDiamondList act) ->
      bs_diamond bs !! d <> Some (Unreadable e)) ->
  call (Action_15_WriteinChainState true act) s = (Returned None, s1) ->
  let r := call (Action_15_RecoverChainState true act) s1 in
  (exists e : goerror, fst r = Returned e)
  /\ diamonds (snd r) = diamonds s
  /\ (forall addr,
        default 0 (diamond_balance (snd r) !! addr)
        = default 0 (diamond_balance s !! addr)).
Proof.
  intros Hne Hreads Hrun.
  destruct (Action_15_success_state act s s1 Hne Hreads Hrun)
    as (trs & bs & total & newbal & Htrs & Hall & _ & _ & _ & _ & ->).
  assert (Hback : release_all (Diamonds (a15_MortgageDiamondList act))
                    (mortgage_all (Diamonds (a15_MortgageDiamondList act)) (diamonds s))
                  = diamonds s).
  { apply map_eq. intros d. unfold release_all, mortgage_all.
    rewrite !update_all_lookup by reflexivity.
    destruct (decide (d ∈ Diamonds (a15_MortgageDiamondList act))) as [Hd|_];
      [|reflexivity].
    destruct (Hall d Hd) as (item & -> & Hst & _). simpl.
    destruct item as [st a]. simpl in Hst. rewrite Hst. reflexivity. }
  assert (Hbal : forall (n : Z) (m : gmap Bytes Z) (a addr : Bytes),
             default 0 (<[a := default 0 (<[a := default 0 (m !! a) - n]> m !! a) + n]>
                          (<[a := default 0 (m !! a) - n]> m) !! addr)
             = default 0 (m !! addr)).
  { intros n m a addr. destruct (decide (addr = a)) as [->|Ha].
    - rewrite !lookup_insert_eq. simpl. lia.
    - rewrite !lookup_insert_ne by congruence. reflexivity. }
  intros r. unfold r.
  pattern (call (Action_15_RecoverChainState true act)
             (Action_15_lent act trs total newbal s)).
  apply wp_call. unfold Action_15_RecoverChainState.
  rewrite Htrs. repeat wp_step.
  eapply wp_op.
  { apply Action_15_recover_loop_run. intros d Hd. unfold Action_15_lent. state_simpl.
    unfold mortgage_all. rewrite update_all_lookup by reflexivity.
    rewrite decide_True by exact Hd.
    destruct (Hall d Hd) as (item & -> & _). simpl. eauto. }
  unfold Action_15_lent.
  repeat first
    [ apply wp_DoSubBalanceFromChainState; [intros ?|intros ?]
    | wp_step ].
  all: state_simpl; rewrite Hback;
    (split; [eexists; reflexivity|split; [reflexivity|apply Hbal]]).
Qed.

End Lend.

(** [create_ok] on [state_lendable]: 100 and 200 make the 300 asked for. *)
Lemma Action_15_lends_witness :
  call (Action_15_WriteinChainState true create_ok) state_lendable
  = (Returned None,
     Action_15_lent create_ok {| GetAddress := alice |} 300 (300 * 10 ^ 248)
       state_lendable).
Proof.
  apply (Action_15_lends create_ok state_lendable {| GetAddress := alice |}
           {| bs_diamond :=
                {[ diamond_1 := Readable (smelt_priced diamond_1 100);
                   diamond_2 := Readable (smelt_priced diamond_2 200) ]};
              bs_diamond_by_number := ∅ |}).
  - reflexivity.
  - vm_compute. reflexivity.
  - vm_compute. reflexivity.
  - reflexivity.
  - simpl. lia.
  - simpl. lia.
  - apply NoDup_cons. split; [|apply NoDup_singleton].
    intros Hin. apply list_elem_of_singleton in Hin. discriminate Hin.
  - intros d Hd. simpl in Hd.
    apply elem_of_cons in Hd as [->|Hd];
      [|apply list_elem_of_singleton in Hd as ->];
      eexists; (split; [vm_compute; reflexivity|split; reflexivity]).
  - reflexivity.
  - vm_compute. reflexivity.
  - vm_compute. reflexivity.
  - vm_compute. discriminate.
  - vm_compute. reflexivity.
Defined.

(** The revert of [create_ok] on the state the create left, and the create
    again. *)
Lemma Action_15_revert_keeps_contract_witness :
  call (Action_15_WriteinChainState true create_ok)
    (snd (call (Action_15_RecoverChainState true create_ok) after_create_ok))
  = (Returned (Some (Errorf "Diamond Lending <%d> already exist."
                       [ArgStr (hex_EncodeToString lending_1)])),
     snd (call (Action_15_RecoverChainState true create_ok) after_create_ok)).
Proof.
  apply (Action_15_revert_keeps_contract true create_ok after_create_ok
           {| GetAddress := alice |}
           (Action_15_contract create_ok {| GetAddress := alice |} 100 300)).
  - reflexivity.
  - vm_compute. reflexivity.
  - vm_compute. reflexivity.
Defined.

(** The successful [create_ok]: its list names no diamond twice and the
    state it leaves is the lent one. *)
Lemma Action_15_success_only_witness :
  NoDup (Diamonds (a15_MortgageDiamondList create_ok))
  /\ after_create_ok
     = Action_15_lent create_ok {| GetAddress := alice |} 300 (300 * 10 ^ 248)
         state_lendable.
Proof.
  destruct (Action_15_success_only (Ext := reference_externals)
              create_ok state_lendable after_create_ok)
    as (trs & bs & total & newbal & Htrs & _ & _ & _ & _ & _ & Hnd & _ & Hbs & Hsum
        & _ & _ & Hadd & Hs1).
  - vm_compute. discriminate.
  - intros bs d e Hbs Hd. simpl in Hbs. injection Hbs as <-. simpl in Hd.
    apply elem_of_cons in Hd as [->|Hd];
      [|apply list_elem_of_singleton in Hd as ->];
      vm_compute; discriminate.
  - unfold after_create_ok.
    rewrite (surjective_pairing
               (call (Action_15_WriteinChainState true create_ok) state_lendable)) at 1.
    f_equal; vm_compute; reflexivity.
  - split; [exact Hnd|].
    simpl in Htrs. injection Htrs as <-.
    simpl in Hbs. injection Hbs as <-.
    vm_compute in Hsum. injection Hsum as <-.
    vm_compute in Hadd. injection Hadd as <-.
    exact Hs1.
Defined.

(** The revert of [create_ok] on the state the create left. *)
Lemma Action_15_revert_after_lend_witness :
  diamonds (snd (call (Action_15_RecoverChainState true create_ok) after_create_ok))
  = diamonds state_lendable.
Proof.
  apply (Action_15_revert_after_lend (Ext := reference_externals)
           create_ok state_lendable after_create_ok).
  - vm_compute. discriminate.
  - intros bs d e Hbs Hd. simpl in Hbs. injection Hbs as <-. simpl in Hd.
    apply elem_of_cons in Hd as [->|Hd];
      [|apply list_elem_of_singleton in Hd as ->];
      vm_compute; discriminate.
  - unfold after_create_ok.
    rewrite (surjective_pairing
               (call (Action_15_WriteinChainState true create_ok) state_lendable)) at 1.
    f_equal; vm_compute; reflexivity.
Defined.
Section Redeem.
Context `{Ext : Externals}.

(** The ransom loop over diamonds that are all there in the lending
    status, none named twice. *)
Lemma Action_16_ransom_loop_run feeAddr l : forall s,
  NoDup l ->
  (forall d, d ∈ l ->
     exists item, diamonds s !! d = Some item /\ Status item = DiamondStatusLendingSystem) ->
  Action_16_ransom_loop feeAddr l s
  = (Next tt, set_diamonds (redeem_all feeAddr l (diamonds s)) s).
Proof.
  induction l as [|d l IH]; intros s Hnd Hall.
  - simpl. unfold ret. rewrite set_diamonds_id. reflexivity.
  - apply NoDup_cons in Hnd as [Hfresh Hnd].
    destruct (Hall d) as (item & Hd & Hst); [left|].
    assert (Hc1 : negb (Status item =? DiamondStatusLendingSystem) = false)
      by (rewrite Hst, Z.eqb_refl; reflexivity).
    apply wp_run. unfold Action_16_ransom_loop. cbn [for_each].
    fold (Action_16_ransom_loop feeAddr l).
    repeat wp_step.
    eapply wp_op.
    { apply (IH _ Hnd). intros x Hx. state_simpl.
      rewrite lookup_insert_ne by (intros ->; contradiction).
      apply Hall. right. exact Hx. }
    reflexivity.
Qed.

(** X14.  When the action belongs to a transaction, the id is well formed,
    the contract under it is not ransomed, the redeemer is the mortgagor or
    the height is past the private height, the ransom amount is not less
    than the amount the schedule asks for, the diamonds of the contract,
    none named twice, are in the lending status, and the redeemer's diamond
    balance holds the count of the contract: [Action_16] returns [nil] and
    leaves [Action_16_ransomed]: the diamonds normal and under the
    redeemer's address, the contract marked ransomed, the ransom amount
    added to the redeemer's balance and the count taken off the redeemer's
    diamond balance. *)
Theorem Action_16_ransoms (act : Action_16_DiamondsSystemLendingRansom)
    (s : ChainState) (trs : Transaction) (c : DiamondLending) (v newbal : Amount) :
  a16_belong_trs act = Some trs ->
  lending_id_format_error (a16_LendingID act) = false ->
  diamond_lendings s !! a16_LendingID act = Some c ->
  IsRansomed c = false ->
  (pending_block_height s <= Action_16_privateHeight 50 c ->
   GetAddress trs = MainAddress c) ->
  NewAmountByBigIntWithUnit
    (Action_16_realRansom1qian 50 c (pending_block_height s)) 245 = inl v ->
  Amount_LessThan (a16_RansomAmount act) v = false ->
  Amount_Add (default NewEmptyAmount (hac_balance s !! GetAddress trs))
    (a16_RansomAmount act) = inl newbal ->
  NoDup (Diamonds (MortgageDiamondList c)) ->
  (forall d, d ∈ Diamonds (MortgageDiamondList c) ->
     exists item,
       diamonds s !! d = Some item /\ Status item = DiamondStatusLendingSystem) ->
  VarUint 3 (Count (MortgageDiamondList c))
  <= default 0 (diamond_balance s !! GetAddress trs) ->
  call (Action_16_WriteinChainState true act) s
  = (Returned None, Action_16_ransomed act trs c newbal s).
Proof.
  intros Htrs Hid Hc Hran Hpriv Hv Hge Hadd Hnd Hall Hbal.
  assert (Hc1 : (pending_block_height s <=? Action_16_privateHeight 50 c)
                && negb (bytes_Equal (GetAddress trs) (MainAddress c)) = false).
  { destruct (pending_block_height s <=? Action_16_privateHeight 50 c) eqn:E;
      [|reflexivity].
    apply Z.leb_le in E. unfold bytes_Equal.
    rewrite bool_decide_eq_true_2 by exact (Hpriv E). reflexivity. }
  pattern (call (Action_16_WriteinChainState true act) s).
  apply wp_call.
  unfold Action_16_WriteinChainState, Action_16_WriteinChainState_with.
  change (Action_16_dslbpbn DiamondsSystemLendingBorrowPeriodBlockNumber true) with 50.
  rewrite Htrs, Hid.
  repeat wp_step.
  eapply wp_op.
  { unfold DoAddBalanceFromChainState. rewrite Hadd. reflexivity. }
  repeat wp_step.
  eapply wp_op.
  { apply (Action_16_ransom_loop_run (GetAddress trs)); [exact Hnd|exact Hall]. }
  repeat wp_step.
  eapply wp_op.
  { unfold DoSubDiamondFromChainState. state_simpl.
    replace (default 0 (diamond_balance s !! GetAddress trs)
             <? VarUint 3 (Count (MortgageDiamondList c))) with false
      by (symmetry; apply Z.ltb_ge; exact Hbal).
    reflexivity. }
  repeat wp_step. reflexivity.
Qed.

(** The ransom loop leaves the method only with an error, and leaves the
    contracts alone. *)
Lemma Action_16_ransom_loop_exit feeAddr l : forall s,
  wp (Action_16_ransom_loop feeAddr l)
    (fun r s1 =>
       r <> Exit (Returned None) /\ diamond_lendings s1 = diamond_lendings s) s.
Proof.
  induction l as [|d l IH]; intros s.
  - apply wp_ret. split; [discriminate|reflexivity].
  - unfold Action_16_ransom_loop. cbn [for_each].
    fold (Action_16_ransom_loop feeAddr l).
    repeat wp_step; try (split; [discriminate|reflexivity]).
    eapply wp_wand; [apply IH|].
    intros r s1 [Hr Hs1]. split; [exact Hr|exact Hs1].
Qed.

(** What a successful [Action_16] found under its id and what it leaves
    there. *)
Lemma Action_16_success_marks mark act s s' :
  call (Action_16_WriteinChainState mark act) s = (Returned None, s') ->
  lending_id_format_error (a16_LendingID act) = false
  /\ exists c,
       diamond_lendings s !! a16_LendingID act = Some c
       /\ IsRansomed c = false
       /\ diamond_lendings s' = <[a16_LendingID act := ransomed c]> (diamond_lendings s).
Proof.
  pattern (call (Action_16_WriteinChainState mark act) s).
  apply wp_call.
  unfold Action_16_WriteinChainState, Action_16_WriteinChainState_with.
  repeat first
    [ apply wp_DoSubDiamondFromChainState; [intros ?|]
    | apply wp_DoAddBalanceFromChainState; [intros ?|intros ?]
    | eapply wp_wand;
      [apply (Action_16_ransom_loop_exit _)|];
      intros [[]|[[?|]|?]] ? [? ?]; state_simpl
    | wp_step ];
    try (intros Heq; discriminate Heq).
  all: try match goal with
         | H : Some _ = None |- _ => discriminate H
         | H : ?x <> ?x |- _ => contradiction
         end.
  intros Heq. injection Heq as <-. state_simpl.
  split; [assumption|].
  eexists. split; [reflexivity|]. split; [assumption|].
  match goal with
  | H : diamond_lendings _ = diamond_lendings _ |- _ => simpl in H; rewrite H
  end.
  reflexivity.
Qed.

(** X15.  A contract is ransomed once: on the state a successful
    [Action_16] leaves, every [Action_16] for the same id is refused as
    redeemed, whoever it is from and whatever it offers, and changes
    nothing. *)
Theorem Action_16_no_second_ransom (mark : bool)
    (act act' : Action_16_DiamondsSystemLendingRansom) (s s1 : ChainState) :
  call (Action_16_WriteinChainState mark act) s = (Returned None, s1) ->
  a16_LendingID act' = a16_LendingID act ->
  is_Some (a16_belong_trs act') ->
  call (Action_16_WriteinChainState true act') s1
  = (Returned (Some (Errorf "Diamond Lending <%d> has been redeemed."
                       [ArgStr (hex_EncodeToString (a16_LendingID act))])), s1).
Proof.
  intros H Hid [trs Htrs].
  apply Action_16_success_marks in H as (Hfmt & c & _ & _ & Hs1).
  assert (Hc : diamond_lendings s1 !! a16_LendingID act = Some (ransomed c))
    by (rewrite Hs1; apply lookup_insert_eq).
  pattern (call (Action_16_WriteinChainState true act') s1).
  apply wp_call.
  unfold Action_16_WriteinChainState, Action_16_WriteinChainState_with.
  rewrite Htrs, Hid, Hfmt. unfold ransomed in Hc.
  repeat wp_step; try reflexivity.
  all: match goal with
       | H : IsRansomed _ = false |- _ => discriminate H
       end.
Qed.

End Redeem.

(** X16.  The ransom [Action_16] asks for never goes up with the height
    and stays between [(1000 - 5P) * L] and [(1000 + 5P) * L]: the discount
    past the public height is capped at [2P] steps of [5 * L], twice the
    interest [5 * P * L], and the floor, reached [4 * P * B] blocks after
    the contract was made, is below the principal [1000 * L]. *)
Theorem Action_16_ransom_bounds (B : Z) (c : DiamondLending) (H1 H2 : Z) :
  2 <= B <= 10000 ->
  0 <= BorrowPeriod c < 2 ^ 8 ->
  0 <= CreateBlockHeight c < 2 ^ 40 ->
  0 <= LoanTotalAmountMei c < 2 ^ 32 ->
  0 <= H1 <= H2 ->
  H2 < 2 ^ 64 ->
  let P := BorrowPeriod c in
  let L := LoanTotalAmountMei c in
  (1000 - 5 * P) * L <= Action_16_realRansom1qian B c H2
  /\ Action_16_realRansom1qian B c H2 <= Action_16_realRansom1qian B c H1
  /\ Action_16_realRansom1qian B c H1 <= (1000 + 5 * P) * L
  /\ (CreateBlockHeight c + 4 * P * B <= H2 ->
      Action_16_realRansom1qian B c H2 = (1000 - 5 * P) * L).
Proof.
  intros HB HP HH0 HL HH HH2 P L.
  rewrite !Action_16_realRansom1qian_spec by lia.
  unfold spec_valid_ransom. fold P L.
  set (H0 := CreateBlockHeight c) in *.
  assert (HPB : 0 <= P * B) by (apply Z.mul_nonneg_nonneg; lia).
  assert (HPL : 0 <= P * L) by (apply Z.mul_nonneg_nonneg; lia).
  set (pub := H0 + 2 * P * B).
  assert (Hq : forall H, pub < H ->
            0 <= Z.min ((H - pub) / B) (2 * P) * L <= 2 * P * L).
  { intros H Hlt. split.
    - apply Z.mul_nonneg_nonneg; [|lia].
      apply Z.min_glb; [apply Z.div_pos; lia|lia].
    - apply Z.mul_le_mono_nonneg_r; lia. }
  assert (Hmono : pub < H1 ->
            Z.min ((H1 - pub) / B) (2 * P) * L <= Z.min ((H2 - pub) / B) (2 * P) * L).
  { intros Hlt. apply Z.mul_le_mono_nonneg_r; [lia|].
    apply Z.min_le_compat_r. apply Z.div_le_mono; lia. }
  assert (Hfloor : H0 + 4 * P * B <= H2 -> Z.min ((H2 - pub) / B) (2 * P) = 2 * P).
  { intros Hfar. apply Z.min_r.
    apply Z.div_le_lower_bound; [lia|]. unfold pub. lia. }
  destruct (pub <? H2) eqn:E2; destruct (pub <? H1) eqn:E1;
    try apply Z.ltb_lt in E1; try apply Z.ltb_lt in E2;
    try apply Z.ltb_ge in E1; try apply Z.ltb_ge in E2.
  - specialize (Hmono E1). pose proof (Hq H1 E1). pose proof (Hq H2 E2).
    split; [lia|]. split; [lia|]. split; [lia|].
    intros Hfar. rewrite (Hfloor Hfar). lia.
  - pose proof (Hq H2 E2).
    split; [lia|]. split; [lia|]. split; [lia|].
    intros Hfar. rewrite (Hfloor Hfar). lia.
  - lia.
  - split; [lia|]. split; [lia|]. split; [lia|].
    intros Hfar. unfold pub in E2.
    assert (P * B = 0) by lia.
    assert (P = 0) by (destruct (Z.eq_mul_0 P B); lia).
    lia.
Qed.

(** [ransom_1] of [contract_1] at height 250, past the private height. *)
Lemma Action_16_ransoms_witness :
  call (Action_16_WriteinChainState true ransom_1) state_mortgaged
  = (Returned None,
     Action_16_ransomed ransom_1 {| GetAddress := alice |} contract_1
       (1000 * 10 ^ 248 + 301500 * 10 ^ 245) state_mortgaged).
Proof.
  apply (Action_16_ransoms ransom_1 state_mortgaged {| GetAddress := alice |}
           contract_1 (300000 * 10 ^ 245)).
  - reflexivity.
  - vm_compute. reflexivity.
  - vm_compute. reflexivity.
  - reflexivity.
  - intros _. reflexivity.
  - vm_compute. reflexivity.
  - vm_compute. reflexivity.
  - vm_compute. reflexivity.
  - apply NoDup_singleton.
  - intros d Hd. apply list_elem_of_singleton in Hd as ->.
    eexists. split; [vm_compute; reflexivity|reflexivity].
  - vm_compute. discriminate.
Defined.

(** A second ransom of [contract_1], on the state [ransom_1] left. *)
Lemma Action_16_no_second_ransom_witness :
  call (Action_16_WriteinChainState true ransom_low) after_ransom
  = (Returned (Some (Errorf "Diamond Lending <%d> has been redeemed."
                       [ArgStr (hex_EncodeToString lending_1)])), after_ransom).
Proof.
  apply (Action_16_no_second_ransom true ransom_1 ransom_low state_mortgaged).
  - unfold after_ransom.
    rewrite (surjective_pairing
               (call (Action_16_WriteinChainState true ransom_1) state_mortgaged)) at 1.
    f_equal; vm_compute; reflexivity.
  - reflexivity.
  - eexists. reflexivity.
Defined.

(** [contract_10] at heights 1000 and 2500: 1,050,000 and 950,000, under
    the principal of 1,000,000. *)
Lemma Action_16_ransom_bounds_witness :
  Action_16_realRansom1qian 50 contract_10 2500
  <= Action_16_realRansom1qian 50 contract_10 1000
  /\ Action_16_realRansom1qian 50 contract_10 2500 = 950000.
Proof.
  destruct (Action_16_ransom_bounds 50 contract_10 1000 2500) as (_ & Hle & _ & Hfloor).
  - lia.
  - simpl. lia.
  - simpl. lia.
  - simpl. lia.
  - lia.
  - lia.
  - split; [exact Hle|]. apply Hfloor. simpl. lia.
Defined.
(** ** Bytes and big-endian integers *)

Lemma Z_of_byte_range b : 0 <= Z_of_byte b < 256.
Proof.
  unfold Z_of_byte. pose proof (Byte.to_N_bounded b). lia.
Qed.

Lemma Z_of_byte_of_Z z : Z_of_byte (byte_of_Z z) = z mod 256.
Proof.
  unfold byte_of_Z, Z_of_byte.
  assert (Hr : 0 <= z mod 256 < 256) by (apply Z.mod_pos_bound; lia).
  destruct (Byte.of_N (Z.to_N (z mod 256))) as [b|] eqn:E.
  - apply Byte.to_of_N in E. rewrite E. lia.
  - apply Byte.of_N_None_iff in E. lia.
Qed.

Lemma byte_of_Z_of_byte b : byte_of_Z (Z_of_byte b) = b.
Proof.
  unfold byte_of_Z. rewrite Z.mod_small by apply Z_of_byte_range.
  unfold Z_of_byte. rewrite N2Z.id, Byte.of_to_N. reflexivity.
Qed.

Lemma byte_of_Z_mod z : byte_of_Z (z mod 256) = byte_of_Z z.
Proof. unfold byte_of_Z. rewrite Z.mod_mod by lia. reflexivity. Qed.

Lemma of_big_endian_acc_spec b : forall acc,
  of_big_endian_acc acc b = acc * 256 ^ Z.of_nat (length b) + of_big_endian b.
Proof.
  unfold of_big_endian.
  induction b as [|x r IH]; intros acc; simpl length.
  - simpl. lia.
  - cbn [of_big_endian_acc]. rewrite IH, (IH (0 * 256 + Z_of_byte x)).
    rewrite Nat2Z.inj_succ, Z.pow_succ_r by lia. lia.
Qed.

Lemma of_big_endian_cons x r :
  of_big_endian (x :: r) = Z_of_byte x * 256 ^ Z.of_nat (length r) + of_big_endian r.
Proof.
  unfold of_big_endian at 1. cbn [of_big_endian_acc].
  rewrite of_big_endian_acc_spec. lia.
Qed.

Lemma of_big_endian_range b : 0 <= of_big_endian b < 256 ^ Z.of_nat (length b).
Proof.
  induction b as [|x r IH].
  - unfold of_big_endian. simpl. lia.
  - rewrite of_big_endian_cons. simpl length.
    rewrite Nat2Z.inj_succ, Z.pow_succ_r by lia.
    pose proof (Z_of_byte_range x). nia.
Qed.

Lemma length_big_endian n z : length (big_endian n z) = n.
Proof. induction n as [|k IH]; simpl; [reflexivity|rewrite IH; reflexivity]. Qed.

(** Reading back what was written gives the low [8n] bits. *)
Lemma of_big_endian_big_endian n z :
  of_big_endian (big_endian n z) = z mod 256 ^ Z.of_nat n.
Proof.
  induction n as [|k IH].
  - unfold of_big_endian. simpl. rewrite Z.mod_1_r. reflexivity.
  - cbn [big_endian]. rewrite of_big_endian_cons, length_big_endian, IH.
    rewrite Z_of_byte_of_Z, Z.shiftr_div_pow2 by lia.
    rewrite Nat2Z.inj_succ, Z.pow_succ_r by lia.
    replace (2 ^ (8 * Z.of_nat k)) with (256 ^ Z.of_nat k)
      by (change 256 with (2 ^ 8); rewrite <- Z.pow_mul_r by lia; reflexivity).
    assert (Hp : 0 < 256 ^ Z.of_nat k) by (apply Z.pow_pos_nonneg; lia).
    rewrite (Z.mul_comm 256), Z.rem_mul_r by lia. lia.
Qed.

Lemma big_endian_high k : forall m X z,
  (k <= m)%nat ->
  big_endian k (X * 256 ^ Z.of_nat m + z) = big_endian k z.
Proof.
  induction k as [|k IH]; intros m X z Hle; [reflexivity|].
  cbn [big_endian]. rewrite IH by lia. f_equal.
  rewrite <- (byte_of_Z_mod (Z.shiftr z _)), <- (byte_of_Z_mod (Z.shiftr (_ + z) _)).
  f_equal. rewrite !Z.shiftr_div_pow2 by lia.
  replace (2 ^ (8 * Z.of_nat k)) with (256 ^ Z.of_nat k)
    by (change 256 with (2 ^ 8); rewrite <- Z.pow_mul_r by lia; reflexivity).
  assert (Hp : 0 < 256 ^ Z.of_nat k) by (apply Z.pow_pos_nonneg; lia).
  assert (Hm : 256 ^ Z.of_nat m
               = 256 ^ (Z.of_nat (m - S k)) * 256 * 256 ^ Z.of_nat k).
  { replace (Z.of_nat m) with (Z.of_nat (m - S k) + 1 + Z.of_nat k) at 1 by lia.
    rewrite !Z.pow_add_r, Z.pow_1_r by lia. reflexivity. }
  rewrite Hm.
  replace (X * (256 ^ Z.of_nat (m - S k) * 256 * 256 ^ Z.of_nat k) + z)
    with (z + (X * 256 ^ Z.of_nat (m - S k) * 256) * 256 ^ Z.of_nat k) by lia.
  rewrite Z.div_add by lia.
  rewrite Z.add_mod by lia. rewrite Z.mod_mul by lia.
  rewrite Z.add_0_r, Z.mod_mod by lia. reflexivity.
Qed.

(** Writing back what was read gives the bytes. *)
Lemma big_endian_of_big_endian b :
  big_endian (length b) (of_big_endian b) = b.
Proof.
  induction b as [|x r IH]; [reflexivity|].
  simpl length. cbn [big_endian]. rewrite of_big_endian_cons.
  rewrite big_endian_high, IH by lia. f_equal.
  rewrite Z.shiftr_div_pow2 by lia.
  replace (2 ^ (8 * Z.of_nat (length r))) with (256 ^ Z.of_nat (length r))
    by (change 256 with (2 ^ 8); rewrite <- Z.pow_mul_r by lia; reflexivity).
  pose proof (of_big_endian_range r).
  rewrite Z.div_add_l by lia. rewrite Z.div_small by lia.
  rewrite Z.add_0_r. apply byte_of_Z_of_byte.
Qed.

(** ** The block: copies, counts and wire form *)

Section BlockProperties.
Context `{Ext : Externals} `{Txs : !TransactionOps}.

Lemma store_from_spec trslist : forall pre n,
  store_from (length pre) trslist (pre ++ replicate n None)
  = if (length trslist <=? n)%nat
    then Some (pre ++ (Some <$> trslist) ++ replicate (n - length trslist) None)
    else None.
Proof.
  induction trslist as [|v r IH]; intros pre n.
  - simpl. rewrite Nat.sub_0_r. reflexivity.
  - cbn [store_from]. rewrite length_app, length_replicate.
    destruct n as [|n].
    + replace (length pre <? length pre + 0)%nat with false
        by (symmetry; apply Nat.ltb_ge; lia).
      reflexivity.
    + replace (length pre <? length pre + S n)%nat with true
        by (symmetry; apply Nat.ltb_lt; lia).
      replace (<[length pre := Some v]> (pre ++ replicate (S n) None))
        with ((pre ++ [Some v]) ++ replicate n None).
      2:{ rewrite <- (Nat.add_0_r (length pre)).
          rewrite insert_app_r, <- app_assoc. reflexivity. }
      replace (S (length pre)) with (length (pre ++ [Some v]))
        by (rewrite length_app; simpl; lia).
      rewrite IH. simpl length.
      change (S (length r) <=? S n)%nat with (length r <=? n)%nat.
      destruct (length r <=? n)%nat; [|reflexivity].
      rewrite <- app_assoc. reflexivity.
Qed.

(** X17.  [SetTransactions] sizes the slice it stores by the list the
    block holds, not by the list it is given: given a longer list it
    panics, given a shorter one it leaves the entries past it [nil]. *)
Theorem SetTransactions_spec (trslist : list BlockTransaction) (block : Block_v1) :
  SetTransactions trslist block
  = if (length trslist <=? length (Transactions block))%nat
    then Some ((Some <$> trslist)
               ++ replicate (length (Transactions block) - length trslist) None)
    else None.
Proof.
  unfold SetTransactions.
  exact (store_from_spec trslist [] (length (Transactions block))).
Qed.

(** X18.  [CopyForMining] hands the transactions to [SetTransactions] on
    a copy that holds none: it panics for every block that holds a
    transaction, and returns the copy of head and meta for a block that
    holds none. *)
Theorem CopyForMining_spec (Copy : BlockTransaction -> BlockTransaction) (curt : Z)
    (block : Block_v1) :
  CopyForMining Copy curt block
  = match Transactions block with
    | [] => Some (CopyHeadMetaForMining curt block, [])
    | _ :: _ => None
    end.
Proof.
  unfold CopyForMining, GetTransactions.
  destruct (Transactions block) as [|tx0 rest]; reflexivity.
Qed.

(** X19.  The block [NewEmptyBlockVersion1] makes on a previous head has
    as its previous hash what [Hash] returns for the head, which is the
    cached hash if the head holds one; its height is the head's plus one
    and its difficulty the head's; the head is left with its hash cached. *)
Theorem NewEmptyBlockVersion1_links (curt : Z) (prev : Block_v1) :
  let (block, prev') := NewEmptyBlockVersion1 curt (Some prev) in
  GetPrevHash block = fst (Hash prev)
  /\ (GetHeight prev + 1 < 2 ^ 64 -> GetHeight block = GetHeight prev + 1)
  /\ GetDifficulty block = GetDifficulty prev
  /\ prev' = Some (snd (Hash prev))
  /\ (forall h, hash prev = Some h -> GetPrevHash block = h)
  /\ hash block = None
  /\ Transactions block = [].
Proof.
  unfold NewEmptyBlockVersion1.
  destruct (Hash prev) as [h prev1] eqn:Hh. cbn [fst snd].
  assert (Hprev : GetHeight prev1 = GetHeight prev /\ GetDifficulty prev1 = GetDifficulty prev).
  { unfold Hash, hashFreshUnsafe in Hh.
    destruct (hash prev); injection Hh as <- <-; split; reflexivity. }
  destruct Hprev as [Hhei Hdif].
  repeat split; try reflexivity.
  - intros Hlt. unfold GetHeight at 1. cbn [Height]. rewrite Hhei.
    unfold VarUint. change (8 * 8) with 64. fold uint64.
    assert (0 <= GetHeight prev) by (unfold GetHeight, uint64, wrap; apply Z.mod_pos_bound; lia).
    rewrite (uint64_small (GetHeight prev + 1)) by lia.
    rewrite (uint64_small (GetHeight prev + 1)) by lia.
    apply uint64_small. lia.
  - unfold GetDifficulty at 1. cbn [Difficulty]. rewrite Hdif.
    unfold GetDifficulty, VarUint, uint32, wrap. change (8 * 4) with 32.
    rewrite !Z.mod_mod by lia. reflexivity.
  - intros h0 Hc. unfold GetPrevHash. cbn [PrevHash].
    unfold Hash in Hh. rewrite Hc in Hh. congruence.
Qed.

(** X20.  [GetNonceByte] and [SetNonceByte] are inverse to each other on
    four bytes and on a nonce of 32 bits; [SetNonceByte] panics on fewer
    than four bytes and reads the first four of more. *)
Theorem nonce_bytes_round_trip (block : Block_v1) (nonce : Bytes) :
  (0 <= Nonce block < 2 ^ 32 ->
   SetNonceByte (GetNonceByte block) block = Some block)
  /\ (length nonce = 4%nat ->
      GetNonceByte <$> SetNonceByte nonce block = Some nonce)
  /\ ((length nonce < 4)%nat -> SetNonceByte nonce block = None)
  /\ ((4 <= length nonce)%nat ->
      SetNonceByte nonce block = SetNonceByte (take 4 nonce) block).
Proof.
  repeat split.
  - intros Hn. unfold SetNonceByte, GetNonceByte.
    rewrite length_big_endian. cbn [Z.of_nat Z.ltb Z.compare Pos.of_succ_nat Pos.succ Pos.compare Pos.compare_cont].
    rewrite (take_ge (big_endian 4 _)) by (rewrite length_big_endian; lia).
    rewrite of_big_endian_big_endian, uint32_small by exact Hn.
    change (256 ^ Z.of_nat 4) with (2 ^ 32). rewrite Z.mod_small by exact Hn.
    unfold SetNonce, VarUint, wrap. change (8 * 4) with 32.
    rewrite Z.mod_small by exact Hn. destruct block; reflexivity.
  - intros Hl. unfold SetNonceByte. rewrite Hl.
    change (Z.of_nat 4 <? 4) with false. cbv iota.
    rewrite take_ge by lia.
    unfold GetNonceByte, SetNonce. cbn [fmap option_fmap option_map Nonce]. f_equal.
    pose proof (of_big_endian_range nonce) as Hr. rewrite Hl in Hr.
    change (256 ^ Z.of_nat 4) with (2 ^ 32) in Hr.
    assert (Hv : VarUint 4 (of_big_endian nonce) = of_big_endian nonce)
      by (unfold VarUint, wrap; apply Z.mod_small; exact Hr).
    rewrite Hv, uint32_small by exact Hr.
    rewrite <- Hl. apply big_endian_of_big_endian.
  - intros Hl. unfold SetNonceByte.
    replace (Z.of_nat (length nonce) <? 4) with true
      by (symmetry; apply Z.ltb_lt; lia).
    reflexivity.
  - intros Hl. unfold SetNonceByte.
    rewrite length_take_le by lia.
    replace (Z.of_nat (length nonce) <? 4) with false
      by (symmetry; apply Z.ltb_ge; lia).
    change (Z.of_nat 4 <? 4) with false. cbv iota.
    rewrite take_take. reflexivity.
Qed.

(** [GetCustomerTransactionCount] is the count less one for a count of one
    or more, and wraps to [2^32 - 1] on a block whose count is 0. *)
Lemma GetCustomerTransactionCount_wraps (block : Block_v1) :
  0 <= TransactionCount block < 2 ^ 32 ->
  GetCustomerTransactionCount block
  = if TransactionCount block =? 0 then 2 ^ 32 - 1 else TransactionCount block - 1.
Proof.
  intros Hc. unfold GetCustomerTransactionCount.
  rewrite (uint32_small (TransactionCount block)) by exact Hc.
  destruct (TransactionCount block =? 0) eqn:E.
  - apply Z.eqb_eq in E. rewrite E. reflexivity.
  - apply Z.eqb_neq in E. apply uint32_small. lia.
Qed.

(** X21.  [VerifyNeedSigns] returns [(true, nil)] exactly when every
    transaction of the block, the coinbase among them, verifies with
    [(true, nil)]; otherwise it returns what the first transaction that
    does not returned. *)
Theorem VerifyNeedSigns_spec (VerifyAllNeedSigns : BlockTransaction -> bool * goerror)
    (block : Block_v1) :
  (VerifyNeedSigns VerifyAllNeedSigns block = (true, None)
   <-> Forall (fun tx => VerifyAllNeedSigns tx = (true, None)) (Transactions block))
  /\ (forall pre tx post,
        Transactions block = pre ++ tx :: post ->
        Forall (fun t => VerifyAllNeedSigns t = (true, None)) pre ->
        VerifyAllNeedSigns tx <> (true, None) ->
        VerifyNeedSigns VerifyAllNeedSigns block = VerifyAllNeedSigns tx).
Proof.
  unfold VerifyNeedSigns.
  assert (Hok : forall tx r,
            VerifyAllNeedSigns tx = (true, None) ->
            VerifyNeedSigns_range VerifyAllNeedSigns (tx :: r)
            = VerifyNeedSigns_range VerifyAllNeedSigns r).
  { intros tx r Htx. cbn [VerifyNeedSigns_range]. rewrite Htx. reflexivity. }
  assert (Hbad : forall tx r,
            VerifyAllNeedSigns tx <> (true, None) ->
            VerifyNeedSigns_range VerifyAllNeedSigns (tx :: r) = VerifyAllNeedSigns tx).
  { intros tx r Htx. cbn [VerifyNeedSigns_range].
    destruct (VerifyAllNeedSigns tx) as [[|] [e|]]; try reflexivity.
    contradiction. }
  assert (Hcases : forall tx,
            VerifyAllNeedSigns tx = (true, None) \/ VerifyAllNeedSigns tx <> (true, None)).
  { intros tx. destruct (VerifyAllNeedSigns tx) as [[|] [e|]];
      first [left; reflexivity | right; discriminate]. }
  split.
  - induction (Transactions block) as [|tx r IH].
    + simpl. split; [constructor|reflexivity].
    + destruct (Hcases tx) as [E|E].
      * rewrite (Hok _ _ E), IH. split.
        -- intros Hr. constructor; assumption.
        -- intros Hall. inversion Hall; assumption.
      * rewrite (Hbad _ _ E). split.
        -- intros Heq. contradiction.
        -- intros Hall. inversion Hall; contradiction.
  - intros pre tx post -> Hpre Htx.
    induction Hpre as [|t pre Ht Hpre IH].
    + simpl app. apply Hbad. exact Htx.
    + simpl app. rewrite (Hok _ _ Ht). exact IH.
Qed.

Lemma SerializeTransactions_range_ok Serialize txs : forall buffer,
  Forall (fun tx => snd (Serialize tx) = None) txs ->
  SerializeTransactions_range Serialize txs buffer
  = (buffer ++ concat (map (fun tx => fst (Serialize tx)) txs), None).
Proof.
  induction txs as [|tx r IH]; intros buffer Hall.
  - simpl. rewrite app_nil_r. reflexivity.
  - inversion Hall as [|? ? Htx Hr]; subst.
    cbn [SerializeTransactions_range map concat].
    destruct (Serialize tx) as [bi e]. simpl in Htx. subst e.
    rewrite IH by exact Hr. simpl. rewrite <- app_assoc. reflexivity.
Qed.

Lemma SerializeTransactions_range_error Serialize pre tx post e : forall buffer,
  Forall (fun t => snd (Serialize t) = None) pre ->
  snd (Serialize tx) = Some e ->
  SerializeTransactions_range Serialize (pre ++ tx :: post) buffer = ([], Some e).
Proof.
  induction pre as [|t pre IH]; intros buffer Hpre He.
  - simpl. destruct (Serialize tx) as [bi e']. simpl in He. subst e'. reflexivity.
  - inversion Hpre as [|? ? Ht Hr]; subst. simpl.
    destruct (Serialize t) as [bi e']. simpl in Ht. subst e'.
    apply IH; assumption.
Qed.

(** X22.  [Serialize] writes head, meta and the transactions in order;
    it never returns an error: when a transaction does not serialize,
    [SerializeBody] returns that transaction's error and [Serialize], which
    drops it, returns the head alone. *)
Theorem Block_v1_Serialize_spec (Serialize : BlockTransaction -> Bytes * goerror)
    (block : Block_v1) :
  Z.of_nat (length (Transactions block)) < 2 ^ 32 ->
  (Forall (fun tx => snd (Serialize tx) = None) (Transactions block) ->
   Block_v1_Serialize Serialize block
   = (SerializeHead block ++ SerializeMeta block
      ++ concat (map (fun tx => fst (Serialize tx)) (Transactions block)), None))
  /\ (forall pre tx post e,
        Transactions block = pre ++ tx :: post ->
        Forall (fun t => snd (Serialize t) = None) pre ->
        snd (Serialize tx) = Some e ->
        SerializeBody Serialize block = ([], Some e)
        /\ Block_v1_Serialize Serialize block = (SerializeHead block, None)).
Proof.
  intros Hlen.
  assert (Htake : take (Z.to_nat (uint32 (Z.of_nat (length (Transactions block)))))
                    (Transactions block) = Transactions block).
  { rewrite uint32_small by lia. rewrite Nat2Z.id. apply take_ge. lia. }
  split.
  - intros Hall. unfold Block_v1_Serialize, SerializeBody, SerializeTransactions.
    rewrite Htake, SerializeTransactions_range_ok by exact Hall. reflexivity.
  - intros pre tx post e Htxs Hpre He.
    assert (Hbody : SerializeBody Serialize block = ([], Some e)).
    { unfold SerializeBody, SerializeTransactions. rewrite Htake, Htxs.
      rewrite (SerializeTransactions_range_error _ _ _ _ e) by assumption.
      reflexivity. }
    split; [exact Hbody|].
    unfold Block_v1_Serialize. rewrite Hbody, app_nil_r. reflexivity.
Qed.

Lemma uint32_add_l a b : uint32 (uint32 a + b) = uint32 (a + b).
Proof. unfold uint32, wrap. rewrite Zplus_mod_idemp_l. reflexivity. Qed.

Lemma Size_range_spec tx_Size txs : forall n i totalsize,
  uint32 totalsize = totalsize ->
  Size_range tx_Size n i txs totalsize
  = if (n =? 0)%nat || (i + n <=? length txs)%nat
    then Some (uint32 (totalsize + foldr Z.add 0 (tx_Size <$> take n (drop i txs))))
    else None.
Proof.
  induction n as [|n IH]; intros i totalsize Hw.
  - simpl. rewrite Z.add_0_r, Hw. reflexivity.
  - cbn [Size_range Nat.eqb orb].
    destruct (txs !! i) as [tx|] eqn:Htx.
    + rewrite IH by (unfold uint32, wrap; apply Z.mod_mod; lia).
      pose proof (lookup_lt_Some _ _ _ Htx) as Hlt.
      rewrite (drop_S _ _ _ Htx). cbn [take fmap list_fmap foldr].
      rewrite uint32_add_l, Z.add_assoc.
      replace (i + S n <=? length txs)%nat with (S i + n <=? length txs)%nat
        by (f_equal; lia).
      destruct (n =? 0)%nat eqn:En; [|reflexivity].
      apply Nat.eqb_eq in En. subst n. cbn [orb].
      replace (S i + 0 <=? length txs)%nat with true
        by (symmetry; apply Nat.leb_le; lia).
      reflexivity.
    + apply lookup_ge_None in Htx.
      replace (i + S n <=? length txs)%nat with false
        by (symmetry; apply Nat.leb_gt; lia).
      reflexivity.
Qed.


End BlockProperties.

(** [block_unhashed]: its second transaction does not serialize. *)
Lemma Block_v1_Serialize_spec_witness :
  SerializeBody reference_Serialize block_unhashed
  = ([], Some (Errorf "transaction without hash" []))
  /\ Block_v1_Serialize reference_Serialize block_unhashed
     = (SerializeHead block_unhashed, None).
Proof.
  apply (proj2 (Block_v1_Serialize_spec reference_Serialize block_unhashed
                  ltac:(simpl; lia))
           [miner coinbase_1] (customer tx_unhashed) [customer tx_a]).
  - reflexivity.
  - constructor; [reflexivity|constructor].
  - reflexivity.
Defined.
(** ** The block: writing into the chain state *)

Section BlockWrite.
Context `{Ext : Externals} `{Txs : !TransactionOps}.

Lemma wp_tx_any {R} tx (Q : step R goerror -> ChainState -> Prop) s :
  (forall e s1, Q (Next e) s1) ->
  (forall msg s1, Q (Exit (Panicked msg)) s1) ->
  wp (tx_WriteInChainState tx) Q s.
Proof.
  intros Hn Hp. unfold wp, tx_WriteInChainState.
  destruct tx as [c|t].
  - destruct (coinbase_WriteInChainState c s) as [[e|msg] s1]; simpl; auto.
  - destruct (other_WriteInChainState t s) as [[e|msg] s1]; simpl; auto.
Qed.

(** One turn of the loop and the fee totals. *)
Lemma WriteInChainState_one_fees txs h tx u g s :
  wp (WriteInChainState_one txs h tx (u, g))
    (fun r _ =>
       match r with
       | Next (u', g') =>
           Amount_Add u (tx_GetFee tx) = inl u'
           /\ Amount_Add g (tx_GetFeeOfMinerRealReceived tx) = inl g'
       | Exit (Returned (txs', e)) => txs' = txs /\ e <> None
       | Exit (Panicked _) => True
       end) s.
Proof.
  unfold WriteInChainState_one.
  do 3 wp_step. apply wp_leave_if_err; [discriminate|intros _].
  do 2 wp_step; [split; [reflexivity|discriminate]|].
  do 3 wp_step. apply wp_leave_if_err; [discriminate|intros _].
  wp_step. apply wp_tx_any; [|intros; exact I].
  intros e s1. wp_step.
  apply wp_leave_if_err; [intros e' ->; split; [reflexivity|discriminate]|intros _].
  repeat wp_step; split; first [reflexivity|discriminate].
Qed.

Lemma WriteInChainState_loop_fees txs h l : forall u g s,
  wp (for_each l (u, g) (WriteInChainState_one txs h))
    (fun r _ =>
       match r with
       | Next (u', g') =>
           add_fees tx_GetFee l u = inl u'
           /\ add_fees tx_GetFeeOfMinerRealReceived l g = inl g'
       | Exit (Returned (txs', e)) => txs' = txs /\ e <> None
       | Exit (Panicked _) => True
       end) s.
Proof.
  induction l as [|tx l IH]; intros u g s.
  - apply wp_ret. split; reflexivity.
  - cbn [for_each]. apply wp_bind.
    eapply wp_wand; [apply WriteInChainState_one_fees|].
    intros [[u1 g1]|[[txs' e]|msg]] s1 H1; cbv beta iota; try exact H1.
    destruct H1 as [Hu Hg].
    eapply wp_wand; [apply IH|].
    intros [[u2 g2]|[[txs' e]|msg]] s2 H2; cbv beta iota; try exact H2.
    cbn [add_fees]. rewrite Hu, Hg. exact H2.
Qed.

(** X24.  A block that [WriteInChainState] applies with success starts
    with a coinbase, and the coinbase it leaves in the block holds the fees
    of the other transactions added up, paid and received, from the empty
    amount on; the other transactions are as they were. *)
Theorem Block_v1_fee_totals (block : Block_v1) (s s' : ChainState)
    (txs' : list BlockTransaction) :
  call (Block_v1_WriteInChainState block) s = (Returned (txs', None), s') ->
  exists cb rest u g,
    Transactions block = TxCoinbase cb :: rest
    /\ add_fees tx_GetFee rest NewEmptyAmount = inl u
    /\ add_fees tx_GetFeeOfMinerRealReceived rest NewEmptyAmount = inl g
    /\ txs' = TxCoinbase {| cb_Address := cb_Address cb;
                            cb_Reward := cb_Reward cb;
                            TotalFeeUserPayed := u;
                            TotalFeeMinerReceived := g |} :: rest.
Proof.
  pattern (call (Block_v1_WriteInChainState block) s).
  apply wp_call. unfold Block_v1_WriteInChainState. cbv zeta.
  apply wp_bind.
  eapply wp_wand; [apply WriteInChainState_loop_fees|].
  intros [[u g]|[[txs1 e]|msg]] s1 H1; cbv beta iota.
  - destruct H1 as [Hu Hg].
    destruct (Transactions block) as [|tx0 rest] eqn:Htxs.
    + wp_step. simpl. intros Heq. discriminate Heq.
    + cbn [tail] in Hu, Hg.
      wp_step. wp_step; [simpl; intros Heq; discriminate Heq|].
      destruct tx0 as [cb|t]; [|wp_step; simpl; intros Heq; discriminate Heq].
      wp_step. apply wp_tx_any; [|intros msg s2; simpl; intros Heq; discriminate Heq].
      intros e s2. wp_step.
      apply wp_leave_if_err; [intros e' ->; simpl; intros Heq; discriminate Heq|intros ->].
      wp_step. simpl. intros Heq. injection Heq as <- <-.
      exists cb, rest, u, g. repeat split; assumption.
  - simpl. intros Heq. destruct H1 as [_ H1]. congruence.
  - simpl. intros Heq. discriminate Heq.
Qed.

(** X25.  [WriteInChainState] looks at the first transaction after the
    loop over the others: a block without a transaction is refused with the
    state untouched, and a block whose first transaction is not a coinbase
    is refused in the state the loop over its other transactions has
    left. *)
Theorem Block_v1_coinbase_checked_last (block : Block_v1) (s : ChainState) :
  (Transactions block = [] ->
   call (Block_v1_WriteInChainState block) s
   = (Returned ([], Some (Errorf "not find coinbase tx" [])), s))
  /\ (forall t0 rest,
        Transactions block = TxOther t0 :: rest ->
        block_succeeded (call (Block_v1_WriteInChainState block) s) = false
        /\ snd (call (Block_v1_WriteInChainState block) s)
           = snd (for_each rest (NewEmptyAmount, NewEmptyAmount)
                    (WriteInChainState_one (Transactions block) (GetHeight block)) s)).
Proof.
  split.
  - intros Htxs. unfold call, Block_v1_WriteInChainState. rewrite Htxs. reflexivity.
  - intros t0 rest Htxs.
    pose proof (WriteInChainState_loop_fees (Transactions block) (GetHeight block)
                  rest NewEmptyAmount NewEmptyAmount s) as HL.
    unfold wp in HL.
    unfold call, Block_v1_WriteInChainState. cbv zeta.
    rewrite Htxs in HL |- *. cbn [tail].
    rewrite !bind_run.
    destruct (for_each rest (NewEmptyAmount, NewEmptyAmount)
                (WriteInChainState_one (TxOther t0 :: rest) (GetHeight block)) s)
      as [[[u g]|[[txs1 e]|msg]] s1]; cbn [fst snd] in HL |- *.
    + rewrite !bind_run. unfold return_if.
      destruct (negb (tx_Type (TxOther t0) =? 0)); split; reflexivity.
    + destruct HL as [_ He]. destruct e; [split; reflexivity|contradiction].
    + split; reflexivity.
Qed.

(** X26.  The error for a transaction that is recorded names its hash in
    hex; its format asks for the height with a [%d] that has no operand,
    so the message ends in [%!d(MISSING)].  When it is the first of the
    customer transactions the state is untouched. *)
Theorem Block_v1_duplicate_error (block : Block_v1) (s : ChainState)
    (tx0 tx : BlockTransaction) (rest : list BlockTransaction) :
  Transactions block = tx0 :: tx :: rest ->
  recorded s (tx_Hash tx) = true ->
  GetHeight block <> 63448 ->
  exists e,
    call (Block_v1_WriteInChainState block) s
    = (Returned (Transactions block, Some e), s)
    /\ Error e
       = ("Tx <" ++ hex_EncodeToString (tx_Hash tx)
          ++ "> is exist, block %!d(MISSING).")%string.
Proof.
  intros Htxs Hrec Hh.
  exists (Errorf "Tx <%s> is exist, block %d." [ArgStr (hex_EncodeToString (tx_Hash tx))]).
  split; [|reflexivity].
  assert (Hc : existsb (fun p : Bytes * Z => bytes_Equal (fst p) (tx_Hash tx))
                 (tx_hashes s)
               && negb (GetHeight block =? 63448) = true).
  { apply andb_true_iff. split; [exact Hrec|].
    apply negb_true_iff, Z.eqb_neq, Hh. }
  pattern (call (Block_v1_WriteInChainState block) s).
  apply wp_call. unfold Block_v1_WriteInChainState. cbv zeta.
  rewrite Htxs. cbn [tail for_each].
  unfold WriteInChainState_one at 1.
  repeat first [ apply wp_leave_if_err; [discriminate|intros _] | wp_step ].
  reflexivity.
Qed.

End BlockWrite.

(** [block_two] on the chain without a recorded hash: fees 1 and 2 paid, 1
    and 1 received. *)
Lemma Block_v1_fee_totals_witness :
  exists cb rest,
    Transactions block_two = miner cb :: rest
    /\ add_fees tx_GetFee rest (0 : @Amount reference_externals) = inl 3
    /\ add_fees tx_GetFeeOfMinerRealReceived rest (0 : @Amount reference_externals)
       = inl 2.
Proof.
  destruct (Block_v1_fee_totals block_two mining_state_genesis
              (snd (call (Block_v1_WriteInChainState block_two) mining_state_genesis))
              [miner coinbase_paid; customer tx_a; customer tx_b])
    as (cb & rest & u & g & Htxs & Hu & Hg & Hout).
  - rewrite (surjective_pairing
               (call (Block_v1_WriteInChainState block_two) mining_state_genesis)) at 1.
    f_equal; vm_compute; reflexivity.
  - exists cb, rest. injection Hout as _ _ Hu' Hg' _.
    rewrite Hu', Hg'.
    split; [exact Htxs|]. split; [exact Hu|exact Hg].
Defined.

(** [block_headless] starts with a customer transaction: it is refused,
    with the hash of its second transaction recorded. *)
Lemma Block_v1_coinbase_checked_last_witness :
  block_succeeded (call (Block_v1_WriteInChainState block_headless) mining_state_genesis)
  = false
  /\ recorded (snd (call (Block_v1_WriteInChainState block_headless) mining_state_genesis))
       (rt_hash tx_b) = true.
Proof.
  destruct (proj2 (Block_v1_coinbase_checked_last block_headless mining_state_genesis)
              tx_a [customer tx_b]) as [Hfail Hstate].
  - reflexivity.
  - split; [exact Hfail|]. rewrite Hstate. vm_compute. reflexivity.
Defined.

(** [block_7] on the state that has [tx_a] recorded. *)
Lemma Block_v1_duplicate_error_witness :
  exists e,
    call (Block_v1_WriteInChainState block_7) state_recorded
    = (Returned (Transactions block_7, Some e), state_recorded)
    /\ Error e
       = "Tx <0a0a0a0a0a0a0a0a0a0a0a0a0a0a0a0a0a0a0a0a0a0a0a0a0a0a0a0a0a0a0a0a> is exist, block %!d(MISSING)."%string.
Proof.
  destruct (Block_v1_duplicate_error block_7 state_recorded (miner coinbase_1)
              (customer tx_a) []) as (e & Hcall & Herr).
  - reflexivity.
  - vm_compute. reflexivity.
  - vm_compute. discriminate.
  - exists e. split; [exact Hcall|]. rewrite Herr. vm_compute. reflexivity.
Defined.
(** ** The wire form of the diamond actions *)

Lemma Bytes_Parse_at n elm buf seek x rest :
  0 <= seek ->
  (0 < n)%nat ->
  drop (Z.to_nat seek) buf = x ++ rest ->
  length x = n ->
  seek + Z.of_nat n < 2 ^ 32 ->
  Bytes_Parse n elm buf seek = (x, (seek + Z.of_nat n, None))
  /\ drop (Z.to_nat (seek + Z.of_nat n)) buf = rest.
Proof.
  intros Hs Hn Hd Hx Hr.
  assert (Hlen : (Z.to_nat seek + n <= length buf)%nat).
  { pose proof (f_equal length Hd) as Hl.
    rewrite length_drop, length_app in Hl. lia. }
  split.
  - unfold Bytes_Parse.
    replace (seek + Z.of_nat n <=? Z.of_nat (length buf)) with true
      by (symmetry; apply Z.leb_le; lia).
    rewrite Hd, take_app_length' by (symmetry; exact Hx).
    rewrite uint32_small by lia. reflexivity.
  - rewrite Z2Nat.inj_add, Nat2Z.id by lia.
    rewrite <- drop_drop, Hd. apply drop_app_length'. symmetry. exact Hx.
Qed.

Lemma VarInt_Parse_at n elm buf seek z rest :
  0 <= seek ->
  (0 < n)%nat ->
  drop (Z.to_nat seek) buf = big_endian n z ++ rest ->
  0 <= z < 256 ^ Z.of_nat n ->
  seek + Z.of_nat n < 2 ^ 32 ->
  VarInt_Parse n elm buf seek = (z, (seek + Z.of_nat n, None))
  /\ drop (Z.to_nat (seek + Z.of_nat n)) buf = rest.
Proof.
  intros Hs Hn Hd Hz Hr.
  destruct (Bytes_Parse_at n [] buf seek (big_endian n z) rest Hs Hn Hd
              (length_big_endian n z) Hr) as [Hp Hrest].
  split; [|exact Hrest].
  unfold Bytes_Parse in Hp. unfold VarInt_Parse.
  destruct (seek + Z.of_nat n <=? Z.of_nat (length buf)); [|discriminate Hp].
  injection Hp as Ht Hu. rewrite Ht, Hu, of_big_endian_big_endian.
  rewrite Z.mod_small by exact Hz. reflexivity.
Qed.

(** X27.  What [Action_4.Serialize] and [Action_5.Serialize] write is as
    long as [Size] says and, read back by [Parse] from behind the two bytes
    of the kind, gives the fields of the action and the offset of its end,
    for fields of their widths, wherever in a buffer it stands. *)
Theorem Action_4_5_wire_round_trip :
  (forall (act elm : Action_4_DiamondCreate) (pre post : Bytes),
      length (a4_Diamond act) = 6%nat ->
      0 <= a4_Number act < 2 ^ 24 ->
      length (a4_PrevHash act) = 32%nat ->
      length (a4_Nonce act) = 8%nat ->
      length (a4_Address act) = 21%nat ->
      Z.of_nat (length pre) + 72 < 2 ^ 32 ->
      Z.of_nat (length (fst (Action_4_Serialize act))) = Action_4_Size act
      /\ Action_4_Parse elm (pre ++ fst (Action_4_Serialize act) ++ post)
           (Z.of_nat (length pre) + 2)
         = ({| a4_Diamond := a4_Diamond act; a4_Number := a4_Number act;
               a4_PrevHash := a4_PrevHash act; a4_Nonce := a4_Nonce act;
               a4_Address := a4_Address act; a4_belone_trs := a4_belone_trs elm |},
            (Z.of_nat (length pre) + Action_4_Size act, None)))
  /\ (forall (act elm : Action_5_DiamondTransfer) (pre post : Bytes),
        length (a5_Diamond act) = 6%nat ->
        length (a5_Address act) = 21%nat ->
        Z.of_nat (length pre) + 29 < 2 ^ 32 ->
        Z.of_nat (length (fst (Action_5_Serialize act))) = Action_5_Size act
        /\ Action_5_Parse elm (pre ++ fst (Action_5_Serialize act) ++ post)
             (Z.of_nat (length pre) + 2)
           = ({| a5_Diamond := a5_Diamond act; a5_Address := a5_Address act;
                 a5_trs := a5_trs elm |},
              (Z.of_nat (length pre) + Action_5_Size act, None))).
Proof.
  split.
  - intros act elm pre post Hd Hn Hp Hnc Ha Hlen.
    change (Action_4_Size act) with 72.
    split.
    { unfold Action_4_Serialize. cbn [fst].
      rewrite !length_app, !length_big_endian, Hd, Hp, Hnc, Ha. reflexivity. }
    unfold Action_4_Serialize. cbn [fst].
    set (buf := pre ++ _ ++ post).
    assert (H0 : drop (Z.to_nat (Z.of_nat (length pre) + 2)) buf
                 = a4_Diamond act
                   ++ (big_endian 3 (a4_Number act)
                       ++ a4_PrevHash act ++ a4_Nonce act ++ a4_Address act ++ post)).
    { unfold buf. rewrite Z2Nat.inj_add, Nat2Z.id by lia.
      rewrite <- drop_drop, drop_app_length. rewrite <- !app_assoc.
      apply (drop_app_length' (big_endian 2 4)). reflexivity. }
    assert (Hn' : 0 <= a4_Number act < 256 ^ Z.of_nat 3)
      by (change (256 ^ Z.of_nat 3) with (2 ^ 24); lia).
    unfold Action_4_Parse.
    edestruct (Bytes_Parse_at 6 (a4_Diamond elm) buf) as [-> H1];
      [| |exact H0|exact Hd| |]; [lia|lia|simpl Z.of_nat; lia|].
    edestruct (VarInt_Parse_at 3 (a4_Number elm) buf) as [-> H2];
      [| |exact H1|exact Hn'| |]; [lia|lia|simpl Z.of_nat; lia|].
    edestruct (Bytes_Parse_at 32 (a4_PrevHash elm) buf) as [-> H3];
      [| |exact H2|exact Hp| |]; [lia|lia|simpl Z.of_nat; lia|].
    edestruct (Bytes_Parse_at 8 (a4_Nonce elm) buf) as [-> H4];
      [| |exact H3|exact Hnc| |]; [lia|lia|simpl Z.of_nat; lia|].
    edestruct (Bytes_Parse_at 21 (a4_Address elm) buf) as [-> _];
      [| |exact H4|exact Ha| |]; [lia|lia|simpl Z.of_nat; lia|].
    f_equal. f_equal. simpl Z.of_nat. lia.
  - intros act elm pre post Hd Ha Hlen.
    change (Action_5_Size act) with 29.
    split.
    { unfold Action_5_Serialize. cbn [fst].
      rewrite !length_app, !length_big_endian, Hd, Ha. reflexivity. }
    unfold Action_5_Serialize. cbn [fst].
    set (buf := pre ++ _ ++ post).
    assert (H0 : drop (Z.to_nat (Z.of_nat (length pre) + 2)) buf
                 = a5_Diamond act ++ (a5_Address act ++ post)).
    { unfold buf. rewrite Z2Nat.inj_add, Nat2Z.id by lia.
      rewrite <- drop_drop, drop_app_length. rewrite <- !app_assoc.
      apply (drop_app_length' (big_endian 2 5)). reflexivity. }
    unfold Action_5_Parse.
    edestruct (Bytes_Parse_at 6 (a5_Diamond elm) buf) as [-> H1];
      [| |exact H0|exact Hd| |]; [lia|lia|simpl Z.of_nat; lia|].
    edestruct (Bytes_Parse_at 21 (a5_Address elm) buf) as [-> _];
      [| |exact H1|exact Ha| |]; [lia|lia|simpl Z.of_nat; lia|].
    f_equal. f_equal. simpl Z.of_nat. lia.
Qed.

Lemma Action_6_Parse_diamonds_length n buf : forall seek,
  length (fst (Action_6_Parse_diamonds n buf seek)) = n.
Proof.
  induction n as [|n IH]; intros seek; [reflexivity|].
  cbn [Action_6_Parse_diamonds].
  destruct (Bytes_Parse 6 [] buf seek) as [d [seek1 e]].
  specialize (IH seek1).
  destruct (Action_6_Parse_diamonds n buf seek1) as [ds seek2].
  simpl in *. rewrite IH. reflexivity.
Qed.

Lemma Action_6_Parse_diamonds_at ds buf : forall seek rest,
  0 <= seek ->
  Forall (fun d => length d = 6%nat) ds ->
  drop (Z.to_nat seek) buf = concat ds ++ rest ->
  seek + 6 * Z.of_nat (length ds) < 2 ^ 32 ->
  Action_6_Parse_diamonds (length ds) buf seek = (ds, seek + 6 * Z.of_nat (length ds))
  /\ drop (Z.to_nat (seek + 6 * Z.of_nat (length ds))) buf = rest.
Proof.
  induction ds as [|d ds IH]; intros seek rest Hs Hall Hd Hr.
  - simpl in *. rewrite Z.add_0_r. split; [reflexivity|exact Hd].
  - inversion Hall as [|? ? Hd6 Hds]; subst.
    simpl concat in Hd. rewrite <- app_assoc in Hd.
    simpl length in *. rewrite Nat2Z.inj_succ in *.
    cbn [Action_6_Parse_diamonds].
    edestruct (Bytes_Parse_at 6 [] buf seek) as [-> H1];
      [| |exact Hd|exact Hd6| |]; [lia|lia|simpl Z.of_nat; lia|].
    edestruct (IH (seek + Z.of_nat 6) rest) as [-> H2];
      [|exact Hds|exact H1| |]; [lia|simpl Z.of_nat; lia|].
    split.
    + f_equal. simpl Z.of_nat. lia.
    + rewrite <- H2. f_equal. f_equal. simpl Z.of_nat. lia.
Qed.

(** X28.  [Action_6.Serialize] returns an error when the count is not the
    length of the list; otherwise what it writes is as long as [Size] says
    and, read back by [Parse] from behind the two bytes of the kind, gives
    the fields of the action and the offset of its end, for fields of
    their widths and at most 255 diamonds. *)
Theorem Action_6_wire_round_trip (act elm : Action_6_OutfeeQuantityDiamondTransfer)
    (pre post : Bytes) :
  (a6_DiamondCount act <> Z.of_nat (length (a6_Diamonds act)) ->
   Action_6_Serialize act
   = ([], Some (Errorf "diamonds number quantity count error" [])))
  /\ (a6_DiamondCount act = Z.of_nat (length (a6_Diamonds act)) ->
      a6_DiamondCount act <= 255 ->
      length (a6_FromAddress act) = 21%nat ->
      length (a6_ToAddress act) = 21%nat ->
      Forall (fun d => length d = 6%nat) (a6_Diamonds act) ->
      Z.of_nat (length pre) + Action_6_Size act < 2 ^ 32 ->
      snd (Action_6_Serialize act) = None
      /\ Z.of_nat (length (fst (Action_6_Serialize act))) = Action_6_Size act
      /\ Action_6_Parse elm (pre ++ fst (Action_6_Serialize act) ++ post)
           (Z.of_nat (length pre) + 2)
         = ({| a6_FromAddress := a6_FromAddress act;
               a6_ToAddress := a6_ToAddress act;
               a6_DiamondCount := a6_DiamondCount act;
               a6_Diamonds := a6_Diamonds act;
               a6_trs := a6_trs elm |},
            (Z.of_nat (length pre) + Action_6_Size act, None))).
Proof.
  split.
  - intros Hne. unfold Action_6_Serialize.
    replace (a6_DiamondCount act =? Z.of_nat (length (a6_Diamonds act))) with false
      by (symmetry; apply Z.eqb_neq; exact Hne).
    reflexivity.
  - intros Hcount H255 Hf Ht Hall Hlen.
    assert (Hsize : Action_6_Size act = 45 + 6 * Z.of_nat (length (a6_Diamonds act))).
    { unfold Action_6_Size.
      rewrite (uint32_small (Z.of_nat _)) by lia.
      rewrite (uint32_small (_ * 6)) by lia.
      rewrite uint32_small by lia. lia. }
    rewrite Hsize in *.
    assert (Hconcat : length (concat (a6_Diamonds act))
                      = (6 * length (a6_Diamonds act))%nat).
    { clear -Hall. induction Hall as [|d ds Hd Hds IH]; [reflexivity|].
      simpl. rewrite length_app, IH, Hd. lia. }
    unfold Action_6_Serialize.
    replace (a6_DiamondCount act =? Z.of_nat (length (a6_Diamonds act))) with true
      by (symmetry; apply Z.eqb_eq; exact Hcount).
    cbn [negb fst snd].
    split; [reflexivity|]. split.
    { rewrite !length_app, !length_big_endian, Hf, Ht, Hconcat. lia. }
    set (buf := pre ++ _ ++ post).
    assert (H0 : drop (Z.to_nat (Z.of_nat (length pre) + 2)) buf
                 = a6_FromAddress act
                   ++ (a6_ToAddress act
                       ++ big_endian 1 (a6_DiamondCount act)
                       ++ concat (a6_Diamonds act) ++ post)).
    { unfold buf. rewrite Z2Nat.inj_add, Nat2Z.id by lia.
      rewrite <- drop_drop, drop_app_length. rewrite <- !app_assoc.
      apply (drop_app_length' (big_endian 2 6)). reflexivity. }
    assert (Hc' : 0 <= a6_DiamondCount act < 256 ^ Z.of_nat 1)
      by (change (256 ^ Z.of_nat 1) with 256; lia).
    unfold Action_6_Parse.
    edestruct (Bytes_Parse_at 21 (a6_FromAddress elm) buf) as [-> H1];
      [| |exact H0|exact Hf| |]; [lia|lia|simpl Z.of_nat; lia|].
    edestruct (Bytes_Parse_at 21 (a6_ToAddress elm) buf) as [-> H2];
      [| |exact H1|exact Ht| |]; [lia|lia|simpl Z.of_nat; lia|].
    edestruct (VarInt_Parse_at 1 (a6_DiamondCount elm) buf) as [-> H3];
      [| |exact H2|exact Hc'| |]; [lia|lia|simpl Z.of_nat; lia|].
    rewrite Hcount at 1. rewrite Nat2Z.id.
    edestruct (Action_6_Parse_diamonds_at (a6_Diamonds act) buf) as [-> _];
      [|exact Hall|exact H3| |]; [lia|simpl Z.of_nat; lia|].
    f_equal. f_equal. simpl Z.of_nat. lia.
Qed.

(** X29.  [Action_6.Parse] makes the list of the length of the count it
    holds after reading the count, whatever the buffer: on the action it
    leaves, the count is the length of the list, so the count checks of
    [Serialize] and of [WriteinChainState] pass; and it keeps the
    transaction the action belongs to. *)
Theorem Action_6_Parse_count (elm : Action_6_OutfeeQuantityDiamondTransfer)
    (buf : Bytes) (seek : Z) :
  0 <= a6_DiamondCount elm ->
  let act := fst (Action_6_Parse elm buf seek) in
  a6_DiamondCount act = Z.of_nat (length (a6_Diamonds act))
  /\ a6_trs act = a6_trs elm.
Proof.
  intros Hc. unfold Action_6_Parse.
  destruct (Bytes_Parse 21 (a6_FromAddress elm) buf seek) as [from [seek1 e1]].
  destruct (Bytes_Parse 21 (a6_ToAddress elm) buf seek1) as [to [seek2 e2]].
  assert (Hcount : 0 <= fst (VarInt_Parse 1 (a6_DiamondCount elm) buf seek2)).
  { unfold VarInt_Parse.
    destruct (seek2 + Z.of_nat 1 <=? Z.of_nat (length buf)); cbn [fst]; [|exact Hc].
    apply of_big_endian_range. }
  destruct (VarInt_Parse 1 (a6_DiamondCount elm) buf seek2) as [count [seek3 e3]].
  cbn [fst] in Hcount.
  pose proof (Action_6_Parse_diamonds_length (Z.to_nat count) buf seek3) as Hl.
  destruct (Action_6_Parse_diamonds (Z.to_nat count) buf seek3) as [ds seek4].
  cbn [fst] in *. cbn [a6_DiamondCount a6_Diamonds a6_trs].
  split; [lia|reflexivity].
Qed.

(** [batch_gap] written and read back, behind a prefix of one byte. *)
Lemma Action_6_wire_round_trip_witness :
  Action_6_Parse Action_6_zero
    (["000"%byte] ++ fst (Action_6_Serialize batch_gap) ++ []) 3
  = ({| a6_FromAddress := alice; a6_ToAddress := bob; a6_DiamondCount := 3;
        a6_Diamonds := [diamond_1; diamond_absent; diamond_2]; a6_trs := None |},
     (64, None)).
Proof.
  apply (proj2 (Action_6_wire_round_trip batch_gap Action_6_zero ["000"%byte] [])).
  - reflexivity.
  - simpl. lia.
  - reflexivity.
  - reflexivity.
  - repeat constructor.
  - vm_compute. reflexivity.
Defined.

(** A buffer that announces three diamonds and holds one: the reads of
    the second and the third fail, the list has three entries all the
    same. *)
Lemma Action_6_Parse_count_witness :
  a6_DiamondCount (fst (Action_6_Parse Action_6_zero batch_wire_cut 0)) = 3
  /\ length (a6_Diamonds (fst (Action_6_Parse Action_6_zero batch_wire_cut 0))) = 3%nat.
Proof.
  destruct (Action_6_Parse_count Action_6_zero batch_wire_cut 0) as [Hc _].
  - simpl. lia.
  - split; [vm_compute; reflexivity|].
    apply Nat2Z.inj. rewrite <- Hc. vm_compute. reflexivity.
Defined.

(** [mint_2] written and read back, behind a prefix of one byte. *)
Lemma Action_4_5_wire_round_trip_witness :
  Action_4_Parse Action_4_zero (["000"%byte] ++ fst (Action_4_Serialize mint_2) ++ []) 3
  = (mint_2, (73, None)).
Proof.
  apply (proj1 Action_4_5_wire_round_trip mint_2 Action_4_zero ["000"%byte] []).
  - reflexivity.
  - simpl. lia.
  - reflexivity.
  - reflexivity.
  - reflexivity.
  - simpl. lia.
Defined.
(** ** The wire form of head and meta *)

Section BlockWire.
Context `{Ext : Externals} `{Txs : !TransactionOps}.


End BlockWire.

